(** * Structured logging and alerting pipeline of prisma-shared

    A shallow embedding of [src/common/utils/log_monitor.py] (pattern
    monitor and alert registry) and of [src/common/utils/logging.py]
    (trace context, structured formatter, asynchronous handler and
    initialisation), with the properties of the specification stated and
    settled against it.

    Conventions of the embedding:
    - Python [int] is [Z]; a naive [datetime] is the number of microseconds
      it denotes, so that subtraction of datetimes and [timedelta]
      arithmetic are exact integer arithmetic;
    - Python [str] is [string]; text is ASCII, and [str.upper] and the
      case folding of [re.IGNORECASE] act on the ASCII letters;
    - a [dict] whose iteration order is observable is an association list
      in insertion order, updated in place when the key is present. *)

From Stdlib Require Import ZArith Ascii String List Bool Lia.
From stdpp Require Import base list gmap strings pretty.

Set Warnings "-register-all".

Local Open Scope string_scope.
Local Open Scope list_scope.
Local Open Scope Z_scope.

(** ** Python values shared by all modules *)

Module Py.

(** A raised exception: whether its class derives from [Exception] (as
    opposed to deriving from [BaseException] only, like
    [KeyboardInterrupt] and [SystemExit]), and its [str()]. *)
Record exn := Exn { exn_is_Exception : bool; exn_str : string }.

Inductive result (A : Type) : Type :=
| Ok (a : A)
| Raise (e : exn).
Arguments Ok {A} a.
Arguments Raise {A} e.

(** ASCII case mapping, as [str.upper] and [str.lower] do on ASCII text. *)
Definition lower_ascii (c : ascii) : ascii :=
  let n := N_of_ascii c in
  if ((65 <=? n) && (n <=? 90))%N then ascii_of_N (n + 32) else c.

Definition upper_ascii (c : ascii) : ascii :=
  let n := N_of_ascii c in
  if ((97 <=? n) && (n <=? 122))%N then ascii_of_N (n - 32) else c.

Fixpoint str_map (f : ascii -> ascii) (s : string) : string :=
  match s with
  | EmptyString => EmptyString
  | String c s' => String (f c) (str_map f s')
  end.

Definition upper (s : string) : string := str_map upper_ascii s.
Definition lower (s : string) : string := str_map lower_ascii s.

(** [sub in s] on strings. *)
Fixpoint str_contains (sub s : string) : bool :=
  String.prefix sub s ||
  match s with
  | EmptyString => false
  | String _ s' => str_contains sub s'
  end.

(** An insertion-ordered [dict] with string keys. *)
Definition dict (V : Type) : Type := list (string * V).

Fixpoint dict_get {V : Type} (k : string) (d : dict V) : option V :=
  match d with
  | [] => None
  | (k', v) :: d' => if String.eqb k k' then Some v else dict_get k d'
  end.

(** [d[k] = v]: an existing key keeps its position, a new key goes last. *)
Fixpoint dict_set {V : Type} (k : string) (v : V) (d : dict V) : dict V :=
  match d with
  | [] => [(k, v)]
  | (k', v') :: d' =>
      if String.eqb k k' then (k, v) :: d' else (k', v') :: dict_set k v d'
  end.

Definition dict_mem {V : Type} (k : string) (d : dict V) : bool :=
  match dict_get k d with Some _ => true | None => false end.

Definition dict_values {V : Type} (d : dict V) : list V := map snd d.

(** [d.update(e)]. *)
Definition dict_update {V : Type} (d e : dict V) : dict V :=
  fold_left (fun acc kv => dict_set (fst kv) (snd kv) acc) e d.

End Py.

(** ** The fragment of Python's [re] used by the monitor

    [re] is not code of the repository; the patterns the repository
    registers are written with literals, [.], the classes [\s \d \w] and
    their complements, [*], [+], [?], [|] and groups, and this is the
    fragment that is parsed and matched here.  A pattern outside it is
    reported as [Unsupported], a pattern that [re.compile] rejects as
    [Invalid]. *)

Module Regex.

Inductive charset : Type :=
| CLit (c : ascii)
| CAny
| CDigit
| CSpace
| CWord
| CNot (k : charset).

Inductive regex : Type :=
| Void
| Eps
| Sym (k : charset)
| Cat (r1 r2 : regex)
| Alt (r1 r2 : regex)
| Star (r : regex).

Definition is_digit (c : ascii) : bool :=
  let n := N_of_ascii c in ((48 <=? n) && (n <=? 57))%N.

Definition is_space (c : ascii) : bool :=
  let n := N_of_ascii c in ((9 <=? n) && (n <=? 13) || (n =? 32))%N.

Definition is_alpha (c : ascii) : bool :=
  let n := N_of_ascii c in
  ((65 <=? n) && (n <=? 90) || (97 <=? n) && (n <=? 122))%N.

Definition is_word (c : ascii) : bool :=
  is_alpha c || is_digit c || Ascii.eqb c "_".

(** Does character [x] belong to the set, with or without [re.IGNORECASE]?
    Under the flag a literal is compared after case folding. *)
Fixpoint charset_mem (ic : bool) (k : charset) (x : ascii) : bool :=
  match k with
  | CLit c =>
      if ic then Ascii.eqb (Py.lower_ascii x) (Py.lower_ascii c)
      else Ascii.eqb x c
  | CAny => negb (Ascii.eqb x "010")
  | CDigit => is_digit x
  | CSpace => is_space x
  | CWord => is_word x
  | CNot k' => negb (charset_mem ic k' x)
  end.

Fixpoint nullable (r : regex) : bool :=
  match r with
  | Void => false
  | Eps => true
  | Sym _ => false
  | Cat r1 r2 => nullable r1 && nullable r2
  | Alt r1 r2 => nullable r1 || nullable r2
  | Star _ => true
  end.

(** Brzozowski derivative of [r] by the input character [x]. *)
Fixpoint deriv (ic : bool) (x : ascii) (r : regex) : regex :=
  match r with
  | Void => Void
  | Eps => Void
  | Sym k => if charset_mem ic k x then Eps else Void
  | Cat r1 r2 =>
      if nullable r1
      then Alt (Cat (deriv ic x r1) r2) (deriv ic x r2)
      else Cat (deriv ic x r1) r2
  | Alt r1 r2 => Alt (deriv ic x r1) (deriv ic x r2)
  | Star r' => Cat (deriv ic x r') (Star r')
  end.

(** [r] matches the whole of [s]. *)
Fixpoint fullmatch (ic : bool) (r : regex) (s : list ascii) : bool :=
  match s with
  | [] => nullable r
  | x :: s' => fullmatch ic (deriv ic x r) s'
  end.

(** [r] matches some prefix of [s] ([Pattern.match]). *)
Fixpoint prefix_match (ic : bool) (r : regex) (s : list ascii) : bool :=
  nullable r ||
  match s with
  | [] => false
  | x :: s' => prefix_match ic (deriv ic x r) s'
  end.

(** [r] matches somewhere in [s] ([Pattern.search], as a truth value). *)
Fixpoint search_from (ic : bool) (r : regex) (s : list ascii) : bool :=
  prefix_match ic r s ||
  match s with
  | [] => false
  | _ :: s' => search_from ic r s'
  end.

(** *** Parsing *)

Inductive parsed : Type :=
| Parsed (r : regex) (rest : list ascii)
| Invalid
| Unsupported.

(** What the parser holds before a postfix operator: nothing, an atom, or
    an item that already carries a quantifier. *)
Inductive pending : Type :=
| NoAtom
| Atom (r : regex)
| Quantified (r : regex).

Definition flush (acc : regex) (p : pending) : regex :=
  match p with
  | NoAtom => acc
  | Atom r | Quantified r => Cat acc r
  end.

Definition escape (c : ascii) : option charset :=
  if Ascii.eqb c "s" then Some CSpace
  else if Ascii.eqb c "S" then Some (CNot CSpace)
  else if Ascii.eqb c "d" then Some CDigit
  else if Ascii.eqb c "D" then Some (CNot CDigit)
  else if Ascii.eqb c "w" then Some CWord
  else if Ascii.eqb c "W" then Some (CNot CWord)
  else if is_alpha c || is_digit c then None
  else Some (CLit c).

Definition is_special (c : ascii) : bool :=
  existsb (Ascii.eqb c) (list_ascii_of_string "[]{}^$").

Fixpoint parse_alt (fuel : nat) (s : list ascii) : parsed :=
  match fuel with
  | O => Unsupported
  | S fuel' =>
      match parse_seq fuel' Eps NoAtom s with
      | Parsed r ("|"%char :: rest) =>
          match parse_alt fuel' rest with
          | Parsed r' rest' => Parsed (Alt r r') rest'
          | e => e
          end
      | res => res
      end
  end
with parse_seq (fuel : nat) (acc : regex) (p : pending) (s : list ascii)
  : parsed :=
  match fuel with
  | O => Unsupported
  | S fuel' =>
      match s with
      | [] => Parsed (flush acc p) []
      | c :: rest =>
          if Ascii.eqb c "|" || Ascii.eqb c ")" then Parsed (flush acc p) s
          else if Ascii.eqb c "*" then
            match p with
            | Atom r => parse_seq fuel' acc (Quantified (Star r)) rest
            | _ => Invalid
            end
          else if Ascii.eqb c "+" then
            match p with
            | Atom r => parse_seq fuel' acc (Quantified (Cat r (Star r))) rest
            | NoAtom => Invalid
            | Quantified _ => Unsupported
            end
          else if Ascii.eqb c "?" then
            match p with
            | Atom r => parse_seq fuel' acc (Quantified (Alt r Eps)) rest
            | NoAtom => Invalid
            | Quantified _ => Unsupported
            end
          else if Ascii.eqb c "(" then
            match rest with
            | "?"%char :: _ => Unsupported
            | _ =>
                match parse_alt fuel' rest with
                | Parsed r (")"%char :: rest') =>
                    parse_seq fuel' (flush acc p) (Atom r) rest'
                | Parsed _ _ => Invalid
                | e => e
                end
            end
          else if Ascii.eqb c "\" then
            match rest with
            | [] => Invalid
            | e :: rest' =>
                match escape e with
                | Some k => parse_seq fuel' (flush acc p) (Atom (Sym k)) rest'
                | None => Unsupported
                end
            end
          else if Ascii.eqb c "." then
            parse_seq fuel' (flush acc p) (Atom (Sym CAny)) rest
          else if is_special c then Unsupported
          else parse_seq fuel' (flush acc p) (Atom (Sym (CLit c))) rest
      end
  end.

Definition parse (pattern : string) : parsed :=
  let s := list_ascii_of_string pattern in
  match parse_alt (2 * List.length s + 2) s with
  | Parsed r [] => Parsed r []
  | Parsed _ _ => Invalid
  | e => e
  end.

(** A compiled pattern object: the program and the flags it was compiled
    with. *)
Record Pattern := mkPattern { prog : regex; ignorecase : bool }.

(** [re.compile(pattern, re.IGNORECASE)] when [flag_ic] is set. *)
Definition compile (pattern : string) (flag_ic : bool) : Py.result Pattern :=
  match parse pattern with
  | Parsed r _ => Py.Ok (mkPattern r flag_ic)
  | Invalid => Py.Raise (Py.Exn true "re.error")
  | Unsupported => Py.Raise (Py.Exn true "unsupported pattern")
  end.

(** [compiled.search(text)] as a truth value. *)
Definition search (p : Pattern) (text : string) : bool :=
  search_from (ignorecase p) (prog p) (list_ascii_of_string text).

End Regex.

(** ** The pattern monitor and the alert registry ([log_monitor.py]) *)

Module Monitor.
Import Py.

(** What the monitor hands to a pattern match: the parsed JSON object of a
    structured line, or the raw text of a line that is not JSON. *)
Inductive log_entry : Type :=
| JsonEntry (fields : dict string)
| TextLine (line : string).

(** Built-ins of Python that the monitor calls and that only show up in
    the free-form details of an alert: [str()] of a log entry and
    [datetime.isoformat()]. *)
Class Builtins := {
  py_str : log_entry -> string;
  isoformat : Z -> string
}.

(** [timedelta(minutes=m)] in microseconds. *)
Definition minutes (m : Z) : Z := m * 60000000.

(** The [seconds] attribute of a [timedelta] of [d] microseconds: a
    [timedelta] is normalised to days, seconds (0 to 86399) and
    microseconds, and [seconds] is that middle component. *)
Definition timedelta_seconds (d : Z) : Z := (d `div` 1000000) `mod` 86400.

Record LogPattern := mkLogPattern {
  name : string;
  pattern : string;
  severity : string;
  threshold : Z;
  time_window_minutes : Z;
  enabled : bool;
  compiled_pattern : Regex.Pattern
}.

(** The dataclass constructor followed by [__post_init__]: the pattern is
    compiled with [re.IGNORECASE], and an error of [re.compile] leaves no
    pattern object behind. *)
Definition new_LogPattern (name pattern severity : string)
    (threshold time_window_minutes : Z) (enabled : bool)
  : result LogPattern :=
  match Regex.compile pattern true with
  | Ok c =>
      Ok (mkLogPattern name pattern severity threshold time_window_minutes
            enabled c)
  | Raise e => Raise e
  end.

Inductive detail : Type :=
| DStr (s : string)
| DInt (z : Z).

Record Alert := mkAlert {
  id : string;
  pattern_name : string;
  message : string;
  alert_severity : string;
  timestamp : Z;
  count : Z;
  details : dict detail;
  acknowledged : bool;
  resolved : bool
}.

Definition set_count (c : Z) (a : Alert) : Alert :=
  mkAlert (id a) (pattern_name a) (message a) (alert_severity a)
    (timestamp a) c (details a) (acknowledged a) (resolved a).

Definition set_detail (k : string) (v : detail) (a : Alert) : Alert :=
  mkAlert (id a) (pattern_name a) (message a) (alert_severity a)
    (timestamp a) (count a) (dict_set k v (details a)) (acknowledged a)
    (resolved a).

Definition set_acknowledged (a : Alert) : Alert :=
  mkAlert (id a) (pattern_name a) (message a) (alert_severity a)
    (timestamp a) (count a) (details a) true (resolved a).

Definition set_resolved (a : Alert) : Alert :=
  mkAlert (id a) (pattern_name a) (message a) (alert_severity a)
    (timestamp a) (count a) (details a) (acknowledged a) true.

(** The counters of [current_metrics] that line processing updates. *)
Record Counters := mkCounters {
  total_logs : Z;
  error_count : Z;
  warning_count : Z;
  critical_count : Z
}.

(** An alert callback is modelled by its outcome on the alert it is
    given: it returns ([None]) or raises. *)
Definition Callback : Type := Alert -> option exn.

(** The fields of a [LogMonitor].  An [Alert] is a mutable object shared
    by [active_alerts] and [alert_history]: the objects live in
    [alert_history], in creation order, and [active_alerts] maps an alert
    id to a reference, the position of the object in [alert_history]. *)
Record LogMonitor := mkLogMonitor {
  patterns : list LogPattern;
  alert_callback : option Callback;
  pattern_counts : gmap string (gmap string Z);
  pattern_timestamps : gmap string (list Z);
  current_metrics : Counters;
  active_alerts : dict nat;
  alert_history : list Alert
}.

(** [LogMonitor.__init__]. *)
Definition new_LogMonitor (patterns : list LogPattern)
    (alert_callback : option Callback) : LogMonitor :=
  mkLogMonitor patterns alert_callback ∅ ∅ (mkCounters 0 0 0 0) [] [].

(** What a callback can observe of the registry when it is called. *)
Record AlertStore := mkAlertStore {
  store_active : dict nat;
  store_history : list Alert
}.

(** The monitor in its environment: the system clock, given by the
    sequence of its successive readings, the number of readings taken so
    far, the lines sent to the monitor's logger and the calls made to the
    alert callback, each with the alert reference passed and the registry
    as it stood at the call. *)
Record World := mkWorld {
  monitor : LogMonitor;
  clock : nat -> Z;
  reads : nat;
  logged : list (string * string);
  callback_calls : list (nat * AlertStore)
}.

Definition with_monitor (m : LogMonitor) (w : World) : World :=
  mkWorld m (clock w) (reads w) (logged w) (callback_calls w).

(** Computations of the monitor: they update the world and return a value
    or propagate an exception. *)
Definition M (A : Type) : Type := World -> result A * World.

Definition ret {A : Type} (a : A) : M A := fun w => (Ok a, w).

Definition bind {A B : Type} (m : M A) (k : A -> M B) : M B :=
  fun w =>
    match m w with
    | (Ok a, w') => k a w'
    | (Raise e, w') => (Raise e, w')
    end.

Notation "x <- m ;; k" := (bind m (fun x => k))
  (at level 90, m at level 80, right associativity).
Notation "m ;;; k" := (bind m (fun _ => k))
  (at level 90, right associativity).

Definition raise {A : Type} (e : exn) : M A := fun w => (Raise e, w).

Definition get_monitor : M LogMonitor := fun w => (Ok (monitor w), w).

Definition put_monitor (m : LogMonitor) : M unit :=
  fun w => (Ok tt, with_monitor m w).

(** [datetime.now()]: the next reading of the clock. *)
Definition now : M Z :=
  fun w =>
    (Ok (clock w (reads w)),
     mkWorld (monitor w) (clock w) (S (reads w)) (logged w)
       (callback_calls w)).

(** [int(time.time())]: the next reading of the clock, in whole seconds. *)
Definition time_time_int : M Z := t <- now ;; ret (Z.quot t 1000000).

(** [self.logger.<level>(msg)]. *)
Definition log (level msg : string) : M unit :=
  fun w =>
    (Ok tt,
     mkWorld (monitor w) (clock w) (reads w) (logged w ++ [(level, msg)])
       (callback_calls w)).

Definition record_callback_call (r : nat) : M unit :=
  fun w =>
    (Ok tt,
     mkWorld (monitor w) (clock w) (reads w) (logged w)
       (callback_calls w ++
        [(r, mkAlertStore (active_alerts (monitor w))
               (alert_history (monitor w)))])).

(** [try: body except Exception as e: handler(e)]. *)
Definition try_except_Exception {A : Type} (body : M A) (handler : exn -> M A)
  : M A :=
  fun w =>
    match body w with
    | (Raise e, w') =>
        if exn_is_Exception e then handler e w' else (Raise e, w')
    | res => res
    end.

Definition set_patterns (ps : list LogPattern) (m : LogMonitor) : LogMonitor :=
  mkLogMonitor ps (alert_callback m) (pattern_counts m)
    (pattern_timestamps m) (current_metrics m) (active_alerts m)
    (alert_history m).

Definition set_pattern_counts (pc : gmap string (gmap string Z))
    (m : LogMonitor) : LogMonitor :=
  mkLogMonitor (patterns m) (alert_callback m) pc (pattern_timestamps m)
    (current_metrics m) (active_alerts m) (alert_history m).

Definition set_pattern_timestamps (pt : gmap string (list Z))
    (m : LogMonitor) : LogMonitor :=
  mkLogMonitor (patterns m) (alert_callback m) (pattern_counts m) pt
    (current_metrics m) (active_alerts m) (alert_history m).

Definition set_current_metrics (c : Counters) (m : LogMonitor) : LogMonitor :=
  mkLogMonitor (patterns m) (alert_callback m) (pattern_counts m)
    (pattern_timestamps m) c (active_alerts m) (alert_history m).

Definition set_alerts (active : dict nat) (history : list Alert)
    (m : LogMonitor) : LogMonitor :=
  mkLogMonitor (patterns m) (alert_callback m) (pattern_counts m)
    (pattern_timestamps m) (current_metrics m) active history.

(** Assignment to an attribute of the alert object behind reference [r]. *)
Definition update_alert (r : nat) (f : Alert -> Alert) (m : LogMonitor)
  : LogMonitor :=
  match alert_history m !! r with
  | Some a => set_alerts (active_alerts m) (<[r := f a]> (alert_history m)) m
  | None => m
  end.

(** [add_pattern] and [remove_pattern]. *)
Definition add_pattern (p : LogPattern) : M unit :=
  m <- get_monitor ;;
  put_monitor (set_patterns (patterns m ++ [p]) m) ;;;
  log "INFO" ("Added log pattern: " +:+ name p).

Definition remove_pattern (pattern_name : string) : M unit :=
  m <- get_monitor ;;
  put_monitor
    (set_patterns
       (List.filter (fun p => negb (String.eqb (name p) pattern_name))
          (patterns m))
       m) ;;;
  log "INFO" ("Removed log pattern: " +:+ pattern_name).

Section WithBuiltins.
Context `{Builtins}.

(** The search of [_create_alert] for a similar alert: the values of
    [active_alerts] in iteration order; the clock is read only for an
    unresolved alert of the same pattern ([and] short-circuits), and the
    first alert that passes ends the loop. *)
Fixpoint find_existing (pname : string) (refs : list nat) : M (option nat) :=
  match refs with
  | [] => ret None
  | r :: rest =>
      m <- get_monitor ;;
      match alert_history m !! r with
      | Some a =>
          if String.eqb (pattern_name a) pname && negb (resolved a) then
            t <- now ;;
            if timedelta_seconds (t - timestamp a) <? 300
            then ret (Some r)
            else find_existing pname rest
          else find_existing pname rest
      | None => find_existing pname rest
      end
  end.

(** The [if self.alert_callback:] block of [_create_alert]. *)
Definition trigger_callback (r : nat) (alert : Alert) : M unit :=
  m <- get_monitor ;;
  match alert_callback m with
  | Some cb =>
      try_except_Exception
        (record_callback_call r ;;;
         match cb alert with
         | None => ret tt
         | Some e => raise e
         end)
        (fun e => log "ERROR" ("Error in alert callback: " +:+ exn_str e))
  | None => ret tt
  end.

Definition _create_alert (p : LogPattern) (count : Z) (entry : log_entry)
  : M unit :=
  secs <- time_time_int ;;
  let alert_id := name p +:+ "_" +:+ pretty secs in
  m <- get_monitor ;;
  existing_alert <- find_existing (name p) (dict_values (active_alerts m)) ;;
  match existing_alert with
  | Some r =>
      m <- get_monitor ;;
      put_monitor (update_alert r (set_count count) m) ;;;
      t <- now ;;
      m <- get_monitor ;;
      put_monitor
        (update_alert r (set_detail "last_occurrence" (DStr (isoformat t))) m)
  | None =>
      t <- now ;;
      let alert :=
        mkAlert alert_id (name p)
          ("Pattern '" +:+ name p +:+ "' matched " +:+ pretty count +:+
           " times in " +:+ pretty (time_window_minutes p) +:+ " minutes")
          (severity p) t count
          [("pattern", DStr (pattern p));
           ("threshold", DInt (threshold p));
           ("time_window_minutes", DInt (time_window_minutes p));
           ("sample_log_entry", DStr (substring 0 500 (py_str entry)))]
          false false in
      m <- get_monitor ;;
      let r := List.length (alert_history m) in
      put_monitor
        (set_alerts (dict_set alert_id r (active_alerts m))
           (alert_history m ++ [alert]) m) ;;;
      trigger_callback r alert ;;;
      log "WARNING" ("Alert created: " +:+ message alert)
  end.

(** [self.pattern_counts[name]['total'] += 1] on the nested
    [defaultdict]. *)
Definition bump_total (pname : string) (pc : gmap string (gmap string Z))
  : gmap string (gmap string Z) :=
  let inner := default ∅ (pc !! pname) in
  <[pname := <["total" := default 0 (inner !! "total") + 1]> inner]> pc.

Definition _trigger_pattern_match (p : LogPattern) (entry : log_entry)
  : M unit :=
  current_time <- now ;;
  m <- get_monitor ;;
  put_monitor (set_pattern_counts (bump_total (name p) (pattern_counts m)) m) ;;;
  let cutoff_time := current_time - minutes (time_window_minutes p) in
  m <- get_monitor ;;
  let kept :=
    List.filter (fun ts => cutoff_time <? ts)
      (default [] (pattern_timestamps m !! name p)) in
  let queue := kept ++ [current_time] in
  put_monitor
    (set_pattern_timestamps (<[name p := queue]> (pattern_timestamps m)) m) ;;;
  let recent_count := Z.of_nat (List.length queue) in
  if threshold p <=? recent_count
  then _create_alert p recent_count entry
  else ret tt.

(** The loop over [self.patterns] shared by [_check_patterns] and
    [_process_text_log_line]: a pattern that is enabled and whose compiled
    expression is found in [text] triggers a match. *)
Fixpoint match_patterns (ps : list LogPattern) (text : string)
    (entry : log_entry) : M unit :=
  match ps with
  | [] => ret tt
  | p :: rest =>
      (if enabled p && Regex.search (compiled_pattern p) text
       then _trigger_pattern_match p entry
       else ret tt) ;;;
      match_patterns rest text entry
  end.

(** [_check_patterns]: the message of a structured entry is searched. *)
Definition _check_patterns (fields : dict string) : M unit :=
  let message := default "" (dict_get "message" fields) in
  m <- get_monitor ;;
  match_patterns (patterns m) message (JsonEntry fields).

(** [_process_text_log_line]: level keywords feed the counters and the
    whole line is searched. *)
Definition _process_text_log_line (line : string) : M unit :=
  m <- get_monitor ;;
  let c := current_metrics m in
  let c1 :=
    if str_contains "ERROR" (upper line) then
      mkCounters (total_logs c) (error_count c + 1) (warning_count c)
        (critical_count c)
    else if str_contains "WARNING" (upper line) then
      mkCounters (total_logs c) (error_count c) (warning_count c + 1)
        (critical_count c)
    else if str_contains "CRITICAL" (upper line) then
      mkCounters (total_logs c) (error_count c) (warning_count c)
        (critical_count c + 1)
    else c in
  let c2 :=
    mkCounters (total_logs c1 + 1) (error_count c1) (warning_count c1)
      (critical_count c1) in
  put_monitor (set_current_metrics c2 m) ;;;
  m <- get_monitor ;;
  match_patterns (patterns m) line (TextLine line).

End WithBuiltins.

(** [get_active_alerts]: the alert objects of [active_alerts] that are not
    resolved, as references. *)
Definition get_active_alerts (m : LogMonitor) : list nat :=
  List.filter
    (fun r =>
       match alert_history m !! r with
       | Some a => negb (resolved a)
       | None => false
       end)
    (dict_values (active_alerts m)).

Definition acknowledge_alert (alert_id : string) : M bool :=
  m <- get_monitor ;;
  match dict_get alert_id (active_alerts m) with
  | Some r =>
      put_monitor (update_alert r set_acknowledged m) ;;;
      log "INFO" ("Alert acknowledged: " +:+ alert_id) ;;;
      ret true
  | None => ret false
  end.

Definition resolve_alert (alert_id : string) : M bool :=
  m <- get_monitor ;;
  match dict_get alert_id (active_alerts m) with
  | Some r =>
      put_monitor (update_alert r set_resolved m) ;;;
      log "INFO" ("Alert resolved: " +:+ alert_id) ;;;
      ret true
  | None => ret false
  end.

(** *** Line ingestion *)

(** [json.loads(line)] as far as the monitor and the analyzer look at its
    result.  [LoadedObject] is a JSON object, given by its members with a
    string value (the members that are read, [level], [message] and
    [timestamp], are strings when present, as in the lines that the
    structured formatter writes); [LoadedOther] is any other JSON value
    (a number, a string, a list, [null]), given by the name of its Python
    type; [NotJson] stands for [json.JSONDecodeError]. *)
Inductive loaded : Type :=
| LoadedObject (fields : dict string)
| LoadedOther (type_name : string)
| NotJson.

Class JsonLoads := { json_loads : string -> loaded }.

(** The [AttributeError] of [log_entry.get] on a value that is no [dict]. *)
Definition no_get_attribute (type_name : string) : exn :=
  Exn true ("'" +:+ type_name +:+ "' object has no attribute 'get'").

Definition bump_total_logs (c : Counters) : Counters :=
  mkCounters (total_logs c + 1) (error_count c) (warning_count c)
    (critical_count c).

(** [_update_metrics] on a parsed object. *)
Definition _update_metrics (fields : dict string) : M unit :=
  m <- get_monitor ;;
  let c := bump_total_logs (current_metrics m) in
  let level := upper (default "" (dict_get "level" fields)) in
  let c' :=
    if String.eqb level "ERROR" then
      mkCounters (total_logs c) (error_count c + 1) (warning_count c)
        (critical_count c)
    else if String.eqb level "WARNING" then
      mkCounters (total_logs c) (error_count c) (warning_count c + 1)
        (critical_count c)
    else if String.eqb level "CRITICAL" then
      mkCounters (total_logs c) (error_count c) (warning_count c)
        (critical_count c + 1)
    else c in
  put_monitor (set_current_metrics c' m).

(** [_update_metrics] on a value that is no [dict]: the total is counted
    before [log_entry.get] raises. *)
Definition _update_metrics_other (type_name : string) : M unit :=
  m <- get_monitor ;;
  put_monitor (set_current_metrics (bump_total_logs (current_metrics m)) m) ;;;
  raise (no_get_attribute type_name).

Section Ingestion.
Context `{Builtins} `{JsonLoads}.

(** [_process_log_line].  The handler of [json.JSONDecodeError] runs
    outside the protection of the [try]: what [_process_text_log_line]
    raises is not caught by the sibling handler. *)
Definition _process_log_line (line : string) : M unit :=
  match json_loads line with
  | LoadedObject fields =>
      try_except_Exception
        (_update_metrics fields ;;; _check_patterns fields)
        (fun e => log "ERROR" ("Error processing log line: " +:+ exn_str e))
  | LoadedOther type_name =>
      try_except_Exception
        (_update_metrics_other type_name)
        (fun e => log "ERROR" ("Error processing log line: " +:+ exn_str e))
  | NotJson => _process_text_log_line line
  end.

End Ingestion.

(** *** Periodic metrics *)

(** The float [log_diff / time_diff] of [_collect_metrics], kept as the
    two integers it is computed from: the number of lines since the last
    snapshot and the microseconds since its timestamp; [RateInitial] is the
    [0.0] that [__init__] sets. *)
Inductive rate : Type :=
| RateInitial
| RateOf (log_diff elapsed_micros : Z).

(** A [LogMetrics] object.  The memory usage is kept as the resident set
    size in bytes it is computed from, the CPU usage (which [psutil]
    rounds to one decimal) in tenths of a percent. *)
Record LogMetrics := mkLogMetrics {
  metrics_timestamp : Z;
  metrics_total_logs : Z;
  metrics_error_count : Z;
  metrics_warning_count : Z;
  metrics_critical_count : Z;
  metrics_unique_errors : Z;
  log_rate_per_minute : rate;
  memory_usage_rss : option Z;
  cpu_usage_tenths : option Z
}.

(** What [psutil] gives in one turn of the metrics loop: the module is
    missing, or it reports the memory and the CPU usage of the process, or
    it raises. *)
Inductive psutil_result : Type :=
| PsutilMissing
| PsutilReading (rss cpu_tenths : Z)
| PsutilRaises (e : exn).

(** The part of a [LogMonitor] that the metrics thread owns:
    [current_metrics] apart from its four counters, and
    [metrics_history], a [deque] with [maxlen=100]. *)
Record MetricsState := mkMetricsState {
  current_timestamp : Z;
  current_unique_errors : Z;
  current_rate : rate;
  current_memory_rss : option Z;
  current_cpu_tenths : option Z;
  metrics_history : list LogMetrics
}.

(** [__init__]: created at time [t0]. *)
Definition new_MetricsState (t0 : Z) : MetricsState :=
  mkMetricsState t0 0 RateInitial None None [].

(** [deque.append] on a [deque] with [maxlen]: when full, the item at
    the left end is discarded. *)
Definition deque_append {A : Type} (maxlen : nat) (x : A) (d : list A) : list A :=
  if (maxlen <=? List.length d)%nat
  then List.skipn (S (List.length d) - maxlen) (d ++ [x])
  else d ++ [x].

(** One turn of the loop of [_collect_metrics], at clock reading
    [current_time] and with the counters as line processing left them.
    The result tells whether the turn logged an error. *)
Definition collect_metrics_turn (current_time : Z) (ps : psutil_result)
    (c : Counters) (s : MetricsState) : option exn * MetricsState :=
  let rate' :=
    match List.last (List.map Some (metrics_history s)) None with
    | Some last_metrics =>
        let elapsed := current_time - metrics_timestamp last_metrics in
        if 0 <? elapsed
        then RateOf (total_logs c - metrics_total_logs last_metrics) elapsed
        else current_rate s
    | None => current_rate s
    end in
  match ps with
  | PsutilRaises e =>
      (Some e,
       mkMetricsState (current_timestamp s) (current_unique_errors s) rate'
         (current_memory_rss s) (current_cpu_tenths s) (metrics_history s))
  | _ =>
      let mem :=
        match ps with
        | PsutilReading rss _ => Some rss
        | _ => current_memory_rss s
        end in
      let cpu :=
        match ps with
        | PsutilReading _ cpu => Some cpu
        | _ => current_cpu_tenths s
        end in
      let metrics_copy :=
        mkLogMetrics (current_timestamp s) (total_logs c) (error_count c)
          (warning_count c) (critical_count c) (current_unique_errors s)
          rate' mem cpu in
      (None,
       mkMetricsState current_time (current_unique_errors s) rate' mem cpu
         (deque_append 100 metrics_copy (metrics_history s)))
  end.

(** The turns of the metrics loop, one per clock reading. *)
Fixpoint collect_metrics_turns (turns : list (Z * psutil_result * Counters))
    (s : MetricsState) : MetricsState :=
  match turns with
  | [] => s
  | (t, ps, c) :: rest =>
      collect_metrics_turns rest (snd (collect_metrics_turn t ps c s))
  end.

(** [get_metrics_summary]: [None] is the empty dictionary; otherwise the
    entries of the latest snapshot, the number of active alerts and the
    match counters. *)
Definition get_metrics_summary (m : LogMonitor) (s : MetricsState)
  : option (LogMetrics * nat * gmap string (gmap string Z)) :=
  match List.last (List.map Some (metrics_history s)) None with
  | Some latest_metrics =>
      Some (latest_metrics, List.length (get_active_alerts m), pattern_counts m)
  | None => None
  end.

End Monitor.

(** ** The logging front end ([logging.py]) *)

Module Logging.
Import Py.

Inductive LogLevel : Type := DEBUG | INFO | WARNING | ERROR | CRITICAL.

Definition LogLevel_value (l : LogLevel) : string :=
  match l with
  | DEBUG => "DEBUG"
  | INFO => "INFO"
  | WARNING => "WARNING"
  | ERROR => "ERROR"
  | CRITICAL => "CRITICAL"
  end.

Inductive LogCategory : Type :=
| SYSTEM | APPLICATION | SECURITY | AUDIT | PERFORMANCE
| BUSINESS | ERROR_CATEGORY | API | DATABASE | EXTERNAL.

(** The member name, as written in the class body. *)
Definition LogCategory_name (c : LogCategory) : string :=
  match c with
  | SYSTEM => "SYSTEM"
  | APPLICATION => "APPLICATION"
  | SECURITY => "SECURITY"
  | AUDIT => "AUDIT"
  | PERFORMANCE => "PERFORMANCE"
  | BUSINESS => "BUSINESS"
  | ERROR_CATEGORY => "ERROR"
  | API => "API"
  | DATABASE => "DATABASE"
  | EXTERNAL => "EXTERNAL"
  end.

(** The member value. *)
Definition LogCategory_value (c : LogCategory) : string :=
  match c with
  | SYSTEM => "system"
  | APPLICATION => "application"
  | SECURITY => "security"
  | AUDIT => "audit"
  | PERFORMANCE => "performance"
  | BUSINESS => "business"
  | ERROR_CATEGORY => "error"
  | API => "api"
  | DATABASE => "database"
  | EXTERNAL => "external"
  end.

(** Python values that reach the formatter.  [PMetrics] is a
    [PerformanceMetrics] instance, given by its [str()] and its fields;
    [PObj] is any other object, given by its [str()]. *)
Inductive pyval : Type :=
| PNone
| PBool (b : bool)
| PInt (z : Z)
| PStr (s : string)
| PList (l : list pyval)
| PDict (d : list (string * pyval))
| PCategory (c : LogCategory)
| PMetrics (str : string) (fields : list (string * pyval))
| PObj (str : string).

(** [str(v)] for the objects that [json.dumps] cannot serialise itself:
    the [str()] of a member of a plain [Enum] is [ClassName.MEMBER]. *)
Definition default_str (v : pyval) : string :=
  match v with
  | PCategory c => "LogCategory." +:+ LogCategory_name c
  | PMetrics s _ => s
  | PObj s => s
  | _ => ""
  end.

Inductive json : Type :=
| JNull
| JBool (b : bool)
| JInt (z : Z)
| JStr (s : string)
| JList (l : list json)
| JObj (d : list (string * json)).

(** The JSON value that [json.dumps(v, ensure_ascii=False, default=str)]
    writes and that [json.loads] reads back: the serialiser maps the basic
    types to themselves and calls [default] on everything else. *)
Fixpoint to_json (v : pyval) : json :=
  match v with
  | PNone => JNull
  | PBool b => JBool b
  | PInt z => JInt z
  | PStr s => JStr s
  | PList l => JList (List.map to_json l)
  | PDict d => JObj (List.map (fun '(k, x) => (k, to_json x)) d)
  | PCategory _ | PMetrics _ _ | PObj _ => JStr (default_str v)
  end.

Definition opt_str (o : option string) : pyval :=
  match o with
  | Some s => PStr s
  | None => PNone
  end.

Record LogContext := mkLogContext {
  trace_id : string;
  span_id : string;
  user_id : option string;
  session_id : option string;
  request_id : option string;
  service_name : option string;
  operation : option string;
  component : option string;
  version : option string;
  environment : option string;
  extra : option (dict pyval)
}.

(** [dataclasses.asdict] of a [LogContext]. *)
Definition asdict_LogContext (c : LogContext) : dict pyval :=
  [("trace_id", PStr (trace_id c));
   ("span_id", PStr (span_id c));
   ("user_id", opt_str (user_id c));
   ("session_id", opt_str (session_id c));
   ("request_id", opt_str (request_id c));
   ("service_name", opt_str (service_name c));
   ("operation", opt_str (operation c));
   ("component", opt_str (component c));
   ("version", opt_str (version c));
   ("environment", opt_str (environment c));
   ("extra", match extra c with Some d => PDict d | None => PNone end)].

(** The two context variables of the module, as one logical operation
    sees them. *)
Record ContextVars := mkContextVars {
  _trace_context : option LogContext;
  _request_context : dict pyval
}.

(** *** Trace context *)

(** [PrismaLogger.set_trace_context]: the variable is set and the token
    that [ContextVar.set] returns is dropped. *)
Definition set_trace_context (context : LogContext) (v : ContextVars)
  : ContextVars :=
  mkContextVars (Some context) (_request_context v).

(** [_trace_context.get()]. *)
Definition current (v : ContextVars) : option LogContext := _trace_context v.

(** [LogContext.__enter__] returns the context itself. *)
Definition __enter__ (c : LogContext) (v : ContextVars)
  : LogContext * ContextVars := (c, v).

(** [LogContext.__exit__]: the body is [pass]; the [None] it returns lets
    an exception of the block propagate. *)
Definition __exit__ (c : LogContext) (raised : option exn) (v : ContextVars)
  : bool * ContextVars := (false, v).

(** The [with c: body] statement of Python over a context manager [c]. *)
Definition with_LogContext {A : Type} (c : LogContext)
    (body : LogContext -> ContextVars -> result A * ContextVars)
    (v : ContextVars) : result (option A) * ContextVars :=
  let '(target, v1) := __enter__ c v in
  match body target v1 with
  | (Ok a, v2) =>
      let '(_, v3) := __exit__ c None v2 in (Ok (Some a), v3)
  | (Raise e, v2) =>
      let '(suppress, v3) := __exit__ c (Some e) v2 in
      if suppress then (Ok None, v3) else (Raise e, v3)
  end.

(** *** Structured formatter *)

(** A [logging.LogRecord]: the standard attributes that the formatter
    reads, the result of [getMessage()], and [other], the entries of the
    instance [__dict__] under any other key, in insertion order
    ([exc_info], [exc_text], [stack_info] and whatever callers have set:
    [category], [metrics], extra fields). *)
Record LogRecord := mkLogRecord {
  created_iso : string;
  levelname : string;
  logger_name : string;
  getMessage : string;
  module : string;
  funcName : pyval;
  lineno : Z;
  thread : Z;
  process : Z;
  other : dict pyval
}.

(** The keys that the final loop of [format] skips. *)
Definition standard_keys : list string :=
  ["name"; "msg"; "args"; "levelname"; "levelno"; "pathname"; "filename";
   "module"; "lineno"; "funcName"; "created"; "msecs"; "relativeCreated";
   "thread"; "threadName"; "processName"; "process"; "getMessage"].

Definition is_standard_key (k : string) : bool :=
  existsb (String.eqb k) standard_keys.

(** The value stored under [category]: the [value] of a [LogCategory]
    member, anything else as it is. *)
Definition category_field (v : pyval) : pyval :=
  match v with
  | PCategory c => PStr (LogCategory_value c)
  | _ => v
  end.

(** The value stored under [metrics]: [asdict] of a [PerformanceMetrics],
    anything else as it is. *)
Definition metrics_field (v : pyval) : pyval :=
  match v with
  | PMetrics _ fields => PDict fields
  | _ => v
  end.

(** [if hasattr(record, k): log_data[k] = f(record.k)]. *)
Definition copy_attr (k : string) (f : pyval -> pyval) (r : LogRecord)
    (log_data : dict pyval) : dict pyval :=
  match dict_get k (other r) with
  | Some v => dict_set k (f v) log_data
  | None => log_data
  end.

(** The [log_data] dictionary that [StructuredFormatter.format] builds. *)
Definition format_log_data (r : LogRecord) (v : ContextVars) : dict pyval :=
  let log_data :=
    [("timestamp", PStr (created_iso r));
     ("level", PStr (levelname r));
     ("logger", PStr (logger_name r));
     ("message", PStr (getMessage r));
     ("module", PStr (module r));
     ("function", funcName r);
     ("line", PInt (lineno r));
     ("thread", PInt (thread r));
     ("process", PInt (process r))] in
  let log_data :=
    match _trace_context v with
    | Some trace_ctx => dict_update log_data (asdict_LogContext trace_ctx)
    | None => log_data
    end in
  let log_data :=
    match _request_context v with
    | [] => log_data
    | req_ctx => dict_update log_data req_ctx
    end in
  let log_data := copy_attr "category" category_field r log_data in
  let log_data := copy_attr "metrics" metrics_field r log_data in
  let log_data := copy_attr "error_details" (fun x => x) r log_data in
  let log_data := copy_attr "business_context" (fun x => x) r log_data in
  dict_update log_data
    (List.filter (fun kv => negb (is_standard_key (fst kv))) (other r)).

(** [json.loads(StructuredFormatter().format(record))]: the object that a
    reader of the structured line gets back. *)
Definition format_parsed (r : LogRecord) (v : ContextVars)
  : list (string * json) :=
  List.map (fun '(k, x) => (k, to_json x)) (format_log_data r v).

(** [if x: log_record.k = x]: an argument that is not given, or that is
    falsy, sets nothing. *)
Definition set_if_given (k : string) (o : option pyval) (d : dict pyval)
  : dict pyval :=
  match o with
  | Some x => dict_set k x d
  | None => d
  end.

(** The record that [log_with_context] hands to the logger:
    [logger.makeRecord(name, level, "", 0, message, (), None)] followed by
    the attribute assignments, those of the [extra] keywords last (their
    names are other than the standard attribute names). *)
Definition log_with_context_record (created_iso logger_name : string)
    (thread process : Z) (level : LogLevel) (message : string)
    (category : option LogCategory) (metrics error_details
     business_context : option pyval) (extra : dict pyval) : LogRecord :=
  let d := [("exc_info", PNone); ("exc_text", PNone); ("stack_info", PNone)] in
  let d := set_if_given "category" (option_map PCategory category) d in
  let d := set_if_given "metrics" metrics d in
  let d := set_if_given "error_details" error_details d in
  let d := set_if_given "business_context" business_context d in
  mkLogRecord created_iso (LogLevel_value level) logger_name message ""
    PNone 0 thread process (dict_update d extra).

(** *** Asynchronous handler *)

Inductive Formatter : Type := StructuredFormatter | ColorfulFormatter.

Inductive Stream : Type :=
| Stdout
| RotatingFile (path : string) (maxBytes backupCount : Z).

(** A blocking handler of the standard library, as the asynchronous one
    uses it: where it writes, how it formats, the records it has written so
    far, and the records on which its [emit] raises. *)
Record Handler := mkHandler {
  stream : Stream;
  formatter : Formatter;
  raises_on : LogRecord -> option exn;
  written : list LogRecord
}.

(** [handler.emit(record)] of the wrapped handler: a blocking write. *)
Definition Handler_emit (r : LogRecord) (h : Handler) : result unit * Handler :=
  match raises_on h r with
  | Some e => (Raise e, h)
  | None =>
      (Ok tt, mkHandler (stream h) (formatter h) (raises_on h) (written h ++ [r]))
  end.

(** [AsyncLogHandler]: the wrapped handler, the [queue.Queue] (its items,
    its [maxsize] and its count of unfinished tasks) and whether the worker
    thread started by [__init__] is still running. *)
Record AsyncLogHandler := mkAsyncLogHandler {
  target_handler : Handler;
  queue : list LogRecord;
  maxsize : Z;
  unfinished_tasks : Z;
  thread_alive : bool
}.

(** [AsyncLogHandler.__init__]: the worker is started at once, as a daemon
    thread. *)
Definition new_AsyncLogHandler (target : Handler) (max_queue_size : Z)
  : AsyncLogHandler :=
  mkAsyncLogHandler target [] max_queue_size 0 true.

(** [Queue.full()] as [put_nowait] tests it: a [maxsize] of zero or less
    means an unbounded queue. *)
Definition queue_full (h : AsyncLogHandler) : bool :=
  (0 <? maxsize h) && (maxsize h <=? Z.of_nat (List.length (queue h))).

(** How a call ends for its caller.  [Blocks] is the outcome of a
    blocking [Queue.put] on a full queue, which waits for the consumer. *)
Inductive outcome : Type :=
| Returns
| Raises (e : exn)
| Blocks.

(** [Queue.put(item)], blocking, for comparison with [put_nowait]. *)
Definition put_blocking (r : LogRecord) (h : AsyncLogHandler)
  : outcome * AsyncLogHandler :=
  if queue_full h then (Blocks, h)
  else
    (Returns,
     mkAsyncLogHandler (target_handler h) (queue h ++ [r]) (maxsize h)
       (unfinished_tasks h + 1) (thread_alive h)).

(** [Queue.put_nowait(item)]: [None] stands for [queue.Full]. *)
Definition put_nowait (r : LogRecord) (h : AsyncLogHandler)
  : option AsyncLogHandler :=
  if queue_full h then None
  else
    Some
      (mkAsyncLogHandler (target_handler h) (queue h ++ [r]) (maxsize h)
         (unfinished_tasks h + 1) (thread_alive h)).

Definition with_target (t : Handler) (h : AsyncLogHandler) : AsyncLogHandler :=
  mkAsyncLogHandler t (queue h) (maxsize h) (unfinished_tasks h)
    (thread_alive h).

(** [AsyncLogHandler.emit], run by the thread that logs. *)
Definition emit (r : LogRecord) (h : AsyncLogHandler)
  : outcome * AsyncLogHandler :=
  match put_nowait r h with
  | Some h' => (Returns, h')
  | None =>
      match Handler_emit r (target_handler h) with
      | (Ok _, t) => (Returns, with_target t h)
      | (Raise e, t) => (Raises e, with_target t h)
      end
  end.

(** One turn of the [while True] loop of [_process_logs], run by the
    worker thread.  [queue.get(timeout=1)] on an empty queue ends in
    [queue.Empty] and the loop continues; an [Exception] of the write is
    swallowed, before [task_done] is reached; any other exception ends the
    thread. *)
Definition worker_iteration (h : AsyncLogHandler) : AsyncLogHandler :=
  if thread_alive h then
    match queue h with
    | [] => h
    | r :: rest =>
        match Handler_emit r (target_handler h) with
        | (Ok _, t) =>
            mkAsyncLogHandler t rest (maxsize h) (unfinished_tasks h - 1) true
        | (Raise e, t) =>
            mkAsyncLogHandler t rest (maxsize h) (unfinished_tasks h)
              (exn_is_Exception e)
        end
    end
  else h.

Fixpoint worker_iterations (n : nat) (h : AsyncLogHandler) : AsyncLogHandler :=
  match n with
  | O => h
  | S n' => worker_iterations n' (worker_iteration h)
  end.

(** [close()] and [flush()]: [AsyncLogHandler] overrides neither, and those
    of [logging.Handler] touch neither the queue nor the worker thread. *)
Definition close (h : AsyncLogHandler) : AsyncLogHandler := h.

Definition flush (h : AsyncLogHandler) : AsyncLogHandler := h.

(** *** Initialisation *)

(** An attribute of the [logging] module. *)
Inductive attr : Type :=
| AInt (z : Z)
| AStr (s : string)
| AOther.

(** The attributes of the [logging] module whose name has no lower-case
    letter, the only ones that [log_level.upper()] can name. *)
Definition logging_attrs : dict attr :=
  [("BASIC_FORMAT", AStr "%(levelname)s:%(name)s:%(message)s");
   ("CRITICAL", AInt 50);
   ("DEBUG", AInt 10);
   ("ERROR", AInt 40);
   ("FATAL", AInt 50);
   ("INFO", AInt 20);
   ("NOTSET", AInt 0);
   ("WARN", AInt 30);
   ("WARNING", AInt 30);
   ("_STYLES", AOther)].

(** [getattr(logging, name, default)]. *)
Definition logging_getattr (name : string) (dflt : attr) : attr :=
  match dict_get name logging_attrs with
  | Some a => a
  | None => dflt
  end.

(** The level names that [Logger.setLevel] accepts as strings. *)
Definition _nameToLevel : dict Z :=
  [("CRITICAL", 50); ("FATAL", 50); ("ERROR", 40); ("WARN", 30);
   ("WARNING", 30); ("INFO", 20); ("DEBUG", 10); ("NOTSET", 0)].

(** [logging._checkLevel], which [setLevel] applies to its argument. *)
Definition _checkLevel (level : attr) : result Z :=
  match level with
  | AInt z => Ok z
  | AStr s =>
      match dict_get s _nameToLevel with
      | Some z => Ok z
      | None => Raise (Exn true ("Unknown level: " +:+ s))
      end
  | AOther => Raise (Exn true "Level not an integer or a valid string")
  end.

Inductive RootHandler : Type :=
| Sync (h : Handler)
| Async (h : AsyncLogHandler).

(** The root logger and the class attributes of [PrismaLogger] that
    [initialize] sets. *)
Record LoggingSystem := mkLoggingSystem {
  root_level : Z;
  root_handlers : list RootHandler;
  _initialized : bool;
  structlog_configured : bool
}.

Definition wrap (enable_async : bool) (h : Handler) : RootHandler :=
  if enable_async then Async (new_AsyncLogHandler h 10000) else Sync h.

Section Initialize.

(** Whether the third-party [structlog] could be imported, and which
    paths [RotatingFileHandler] can open for writing. *)
Variable STRUCTLOG_AVAILABLE : bool.
Variable can_open : string -> bool.

(** [PrismaLogger.initialize]. *)
Definition initialize (log_level log_format : string)
    (log_file : option string) (max_file_size backup_count : Z)
    (enable_async enable_structlog : bool) (sys : LoggingSystem)
  : result unit * LoggingSystem :=
  let sys :=
    mkLoggingSystem (root_level sys) (root_handlers sys) false
      (structlog_configured sys
       || (enable_structlog && STRUCTLOG_AVAILABLE)) in
  match _checkLevel (logging_getattr (upper log_level) (AInt 20)) with
  | Raise e => (Raise e, sys)
  | Ok lvl =>
      let console :=
        mkHandler Stdout
          (if String.eqb log_format "json" then StructuredFormatter
           else ColorfulFormatter)
          (fun _ => None) [] in
      let handlers := [wrap enable_async console] in
      let sys :=
        mkLoggingSystem lvl handlers false (structlog_configured sys) in
      match log_file with
      | Some path =>
          if String.eqb path "" then
            (Ok tt,
             mkLoggingSystem lvl handlers true (structlog_configured sys))
          else if can_open path then
            let file :=
              mkHandler (RotatingFile path max_file_size backup_count)
                StructuredFormatter (fun _ => None) [] in
            (Ok tt,
             mkLoggingSystem lvl (handlers ++ [wrap enable_async file]) true
               (structlog_configured sys))
          else (Raise (Exn true "OSError"), sys)
      | None =>
          (Ok tt, mkLoggingSystem lvl handlers true (structlog_configured sys))
      end
  end.

End Initialize.

(** *** Context variables across logical operations *)

(** The two [ContextVar]s as all logical operations (threads, tasks) see
    them; an operation is named by a number.  A [ContextVar] holds one
    value per operation that has set it, and every other operation gets
    its default.  The default of [_trace_context] is [None]; the default
    of [_request_context] is one dictionary object, made when the module
    is loaded: [request_objects] holds the dictionary objects that the
    variable can lead to, the default at index 0, and [request_values]
    the object that the variable holds in each operation that has set
    it. *)
Record ContextStore := mkContextStore {
  trace_values : gmap nat LogContext;
  request_objects : list (dict pyval);
  request_values : gmap nat nat
}.

(** The variables when the module has been loaded. *)
Definition initial_store : ContextStore := mkContextStore ∅ [[]] ∅.

(** [_trace_context.get()] in operation [op]. *)
Definition trace_get (op : nat) (s : ContextStore) : option LogContext :=
  trace_values s !! op.

(** [PrismaLogger.set_trace_context(context)] in operation [op]. *)
Definition trace_set (op : nat) (context : LogContext) (s : ContextStore)
  : ContextStore :=
  mkContextStore (<[op := context]> (trace_values s)) (request_objects s)
    (request_values s).

(** The object that [_request_context.get()] returns in operation [op]. *)
Definition request_ref (op : nat) (s : ContextStore) : nat :=
  default 0%nat (request_values s !! op).

(** The content of that object. *)
Definition request_get (op : nat) (s : ContextStore) : dict pyval :=
  default [] (request_objects s !! request_ref op s).

(** [PrismaLogger.set_request_context] with keyword arguments [kwargs]
    in operation [op]: the object that [get()] returns is updated in
    place and then set. *)
Definition set_request_context (op : nat) (kwargs : dict pyval)
    (s : ContextStore) : ContextStore :=
  let current := request_ref op s in
  mkContextStore (trace_values s)
    (<[current := dict_update (request_get op s) kwargs]> (request_objects s))
    (<[op := current]> (request_values s)).

(** *** Creating a trace context *)

(** What the process reads from outside: the environment variables and
    the identifiers that successive calls of [uuid.uuid4()] give. *)
Class Environment := {
  getenv : string -> option string;
  uuid4 : nat -> string
}.

(** [x or y] where [x] is an optional string: [None] and the empty string
    are falsy. *)
Definition truthy (x : option string) : bool :=
  match x with
  | Some s => negb (String.eqb s "")
  | None => false
  end.

Section TraceContext.
Context `{Environment}.

(** [os.getenv(name, default)]. *)
Definition getenv_default (name dflt : string) : string :=
  default dflt (getenv name).

(** [PrismaLogger.create_trace_context]; [drawn] counts the calls of
    [uuid4] made so far. *)
Definition create_trace_context (trace_id span_id user_id session_id
    request_id service_name operation component : option string)
    (extra : dict pyval) (drawn : nat) : LogContext * nat :=
  let '(trace, drawn) :=
    if truthy trace_id then (default "" trace_id, drawn)
    else (uuid4 drawn, S drawn) in
  let '(span, drawn) :=
    if truthy span_id then (default "" span_id, drawn)
    else (uuid4 drawn, S drawn) in
  (mkLogContext trace span user_id session_id request_id
     (if truthy service_name then service_name
      else Some (getenv_default "SERVICE_NAME" "prisma-service"))
     operation component
     (Some (getenv_default "SERVICE_VERSION" "1.0.0"))
     (Some (getenv_default "ENVIRONMENT" "development"))
     (Some extra),
   drawn).

(** The module-level [set_trace_context] in operation [op]: the
    context is created, bound and returned. *)
Definition set_trace_context_kwargs (op : nat) (trace_id span_id user_id
    session_id request_id service_name operation component : option string)
    (extra : dict pyval) (st : ContextStore * nat)
  : LogContext * (ContextStore * nat) :=
  let '(context, drawn) :=
    create_trace_context trace_id span_id user_id session_id request_id
      service_name operation component extra (snd st) in
  (context, (trace_set op context (fst st), drawn)).

End TraceContext.

(** *** The performance decorator *)

Section PerformanceMonitor.

(** The state that the decorated function works on. *)
Variable World : Type.

(** What the decorator takes from outside: the [PerformanceMetrics] object
    for a duration (the difference of two readings of [time.time()]) and
    the two readings of the memory usage, when there are two; the name of
    the class of an exception; and [traceback.format_exc()]. *)
Variable performance_metrics : Z -> option (Z * Z) -> pyval.
Variable class_name : exn -> string.
Variable format_exc : exn -> string.

(** The readings that one call of the wrapper takes: [time.time()] and
    the memory usage before the call, [time.time()] and the memory usage
    after it; an identification of the record made.  [_get_memory_usage]
    is taken to return ([None] when [psutil] is missing), and so is the
    logger when it is handed a record. *)
Record Readings := mkReadings {
  start_time : Z;
  start_memory : option Z;
  end_time : Z;
  end_memory : option Z;
  record_created : string;
  record_thread : Z;
  record_process : Z
}.

(** [end_memory - start_memory if end_memory and start_memory else None]:
    a reading of zero is falsy. *)
Definition memory_pair (rd : Readings) : option (Z * Z) :=
  match end_memory rd, start_memory rd with
  | Some e, Some s => if (e =? 0) || (s =? 0) then None else Some (s, e)
  | _, _ => None
  end.

(** The [wrapper] that [performance_monitor(logger, operation, category)]
    puts around [func]; [handled] are the records that the logger has been
    handed so far. *)
Definition performance_monitor (logger_name operation : string)
    (category : LogCategory) (func : World -> result pyval * World)
    (rd : Readings) (st : World * list LogRecord)
  : result pyval * (World * list LogRecord) :=
  match func (fst st) with
  | (Ok res, w) =>
      let record :=
        log_with_context_record (record_created rd) logger_name
          (record_thread rd) (record_process rd) INFO
          ("Operation completed: " +:+ operation) (Some category)
          (Some
             (performance_metrics (end_time rd - start_time rd)
                (memory_pair rd)))
          None None [("operation", PStr operation)] in
      (Ok res, (w, snd st ++ [record]))
  | (Raise e, w) =>
      if exn_is_Exception e then
        let record :=
          log_with_context_record (record_created rd) logger_name
            (record_thread rd) (record_process rd) ERROR
            ("Operation failed: " +:+ operation) (Some ERROR_CATEGORY)
            (Some (performance_metrics (end_time rd - start_time rd) None))
            (Some
               (PDict
                  [("error_type", PStr (class_name e));
                   ("error_message", PStr (exn_str e));
                   ("traceback", PStr (format_exc e))]))
            None [("operation", PStr operation)] in
        (Raise e, (w, snd st ++ [record]))
      else (Raise e, (w, snd st))
  end.

End PerformanceMonitor.

End Logging.

(** ** The batch analyzer ([LogAnalyzer.analyze_log_file]) *)

Module Analyzer.
Import Py.
Import Monitor (loaded, LoadedObject, LoadedOther, NotJson, JsonLoads,
                json_loads, no_get_attribute).

(** A [datetime]: the instant in microseconds, and whether the object
    carries a time zone. *)
Record datetime := mkDatetime { micros : Z; aware : bool }.

(** Built-ins that the analyzer calls: [datetime.fromisoformat] ([None]
    stands for [ValueError]), [strftime('%Y-%m-%d %H:00')] and the order
    in which [list()] iterates over a [set] of strings, given as a list of
    distinct strings. *)
Class Builtins := {
  fromisoformat : string -> option datetime;
  hour_key : datetime -> string;
  set_to_list : list string -> list string
}.

(** [a < b] on datetimes: comparing an aware with a naive one raises
    [TypeError]. *)
Definition datetime_lt (a b : datetime) : result bool :=
  if Bool.eqb (aware a) (aware b) then Ok (micros a <? micros b)
  else Raise (Exn true "can't compare offset-naive and offset-aware datetimes").

(** [s.replace('Z', '+00:00')]. *)
Fixpoint replace_Z (s : string) : string :=
  match s with
  | EmptyString => EmptyString
  | String c s' =>
      if Ascii.eqb c "Z" then "+00:00" +:+ replace_Z s'
      else String c (replace_Z s')
  end.

(** [d[k] += 1] on a [defaultdict(int)]. *)
Definition dict_incr (k : string) (d : dict Z) : dict Z :=
  dict_set k (default 0 (dict_get k d) + 1) d.

(** [s.add(x)] on a [set], kept as the list of its elements. *)
Definition set_add (x : string) (s : list string) : list string :=
  if existsb (String.eqb x) s then s else s ++ [x].

(** The [stats] dictionary while the file is read. *)
Record Stats := mkStats {
  total_lines : Z;
  error_count : Z;
  warning_count : Z;
  critical_count : Z;
  unique_errors : list string;
  hourly_distribution : dict Z;
  top_errors : dict Z
}.

Definition empty_stats : Stats := mkStats 0 0 0 0 [] [] [].

Definition count_line (st : Stats) : Stats :=
  mkStats (total_lines st + 1) (error_count st) (warning_count st)
    (critical_count st) (unique_errors st) (hourly_distribution st)
    (top_errors st).

(** The keyword heuristics for a line that is no JSON. *)
Definition classify_text (line : string) (st : Stats) : Stats :=
  if str_contains "ERROR" (upper line) then
    mkStats (total_lines st) (error_count st + 1) (warning_count st)
      (critical_count st) (unique_errors st) (hourly_distribution st)
      (top_errors st)
  else if str_contains "WARNING" (upper line) then
    mkStats (total_lines st) (error_count st) (warning_count st + 1)
      (critical_count st) (unique_errors st) (hourly_distribution st)
      (top_errors st)
  else if str_contains "CRITICAL" (upper line) then
    mkStats (total_lines st) (error_count st) (warning_count st)
      (critical_count st + 1) (unique_errors st) (hourly_distribution st)
      (top_errors st)
  else st.

Section WithBuiltins.
Context `{Builtins} `{JsonLoads}.

(** The timestamp filter: [Ok false] is the [continue] of the loop. *)
Definition in_range (start_time end_time : option datetime)
    (fields : dict string) : result bool :=
  match start_time, end_time with
  | None, None => Ok true
  | _, _ =>
      let timestamp_str := default "" (dict_get "timestamp" fields) in
      if String.eqb timestamp_str "" then Ok true
      else
        match fromisoformat (replace_Z timestamp_str) with
        | None => Ok true
        | Some log_time =>
            let before_start :=
              match start_time with
              | Some s => datetime_lt log_time s
              | None => Ok false
              end in
            match before_start with
            | Raise e => Raise e
            | Ok true => Ok false
            | Ok false =>
                match end_time with
                | Some e =>
                    match datetime_lt e log_time with
                    | Raise ex => Raise ex
                    | Ok late => Ok (negb late)
                    end
                | None => Ok true
                end
            end
        end
  end.

(** The level of a record that passed the filter. *)
Definition classify_record (fields : dict string) (st : Stats) : Stats :=
  let level := upper (default "" (dict_get "level" fields)) in
  if String.eqb level "ERROR" then
    let error_msg := default "" (dict_get "message" fields) in
    mkStats (total_lines st) (error_count st + 1) (warning_count st)
      (critical_count st) (set_add error_msg (unique_errors st))
      (hourly_distribution st) (dict_incr error_msg (top_errors st))
  else if String.eqb level "WARNING" then
    mkStats (total_lines st) (error_count st) (warning_count st + 1)
      (critical_count st) (unique_errors st) (hourly_distribution st)
      (top_errors st)
  else if String.eqb level "CRITICAL" then
    mkStats (total_lines st) (error_count st) (warning_count st)
      (critical_count st + 1) (unique_errors st) (hourly_distribution st)
      (top_errors st)
  else st.

(** The hour bucket of a record that passed the filter. *)
Definition bucket_record (fields : dict string) (st : Stats) : Stats :=
  let timestamp_str := default "" (dict_get "timestamp" fields) in
  if String.eqb timestamp_str "" then st
  else
    match fromisoformat (replace_Z timestamp_str) with
    | Some log_time =>
        mkStats (total_lines st) (error_count st) (warning_count st)
          (critical_count st) (unique_errors st)
          (dict_incr (hour_key log_time) (hourly_distribution st))
          (top_errors st)
    | None => st
    end.

(** The body of the loop over the lines of the file: [Raise] is an
    exception that reaches the outer [except Exception]. *)
Definition analyze_line (start_time end_time : option datetime)
    (line : string) (st : Stats) : result Stats :=
  let st := count_line st in
  match json_loads line with
  | NotJson => Ok (classify_text line st)
  | LoadedOther type_name => Raise (no_get_attribute type_name)
  | LoadedObject fields =>
      match in_range start_time end_time fields with
      | Raise e => Raise e
      | Ok false => Ok st
      | Ok true => Ok (bucket_record fields (classify_record fields st))
      end
  end.

Fixpoint analyze_lines (start_time end_time : option datetime)
    (lines : list string) (st : Stats) : result Stats :=
  match lines with
  | [] => Ok st
  | line :: rest =>
      match analyze_line start_time end_time line st with
      | Ok st' => analyze_lines start_time end_time rest st'
      | Raise e => Raise e
      end
  end.

End WithBuiltins.

(** [sorted(items, key=lambda x: x[1], reverse=True)]: a stable sort by
    descending count. *)
Fixpoint insert_desc (x : string * Z) (l : list (string * Z))
  : list (string * Z) :=
  match l with
  | [] => [x]
  | y :: l' => if snd y <? snd x then x :: y :: l' else y :: insert_desc x l'
  end.

Definition sorted_desc (items : list (string * Z)) : list (string * Z) :=
  fold_left (fun acc x => insert_desc x acc) items [].

(** The file as [analyze_log_file] finds it. *)
Inductive log_file : Type :=
| Missing
| Unreadable (e : exn)
| Lines (lines : list string).

(** The dictionary that [analyze_log_file] returns. *)
Record Report := mkReport {
  report_total_lines : Z;
  report_error_count : Z;
  report_warning_count : Z;
  report_critical_count : Z;
  report_unique_errors : list string;
  report_hourly_distribution : dict Z;
  report_top_errors : dict Z;
  report_processing_time : Z;
  report_unique_error_count : Z
}.

Inductive analysis : Type :=
| AnalysisError (error : string)
| AnalysisReport (report : Report).

Section WithBuiltinsReport.
Context `{Builtins} `{JsonLoads}.

(** [LogAnalyzer.analyze_log_file]; [t_start] and [t_end] are the two
    readings of [time.time()], in microseconds. *)
Definition analyze_log_file (file : log_file)
    (start_time end_time : option datetime) (t_start t_end : Z) : analysis :=
  match file with
  | Missing => AnalysisError "Log file does not exist"
  | Unreadable e => AnalysisError ("Error analyzing log file: " +:+ exn_str e)
  | Lines lines =>
      match analyze_lines start_time end_time lines empty_stats with
      | Raise e => AnalysisError ("Error analyzing log file: " +:+ exn_str e)
      | Ok st =>
          AnalysisReport
            (mkReport (total_lines st) (error_count st) (warning_count st)
               (critical_count st)
               (List.firstn 10 (set_to_list (unique_errors st)))
               (hourly_distribution st)
               (List.firstn 10 (sorted_desc (top_errors st)))
               (t_end - t_start)
               (Z.of_nat (List.length (unique_errors st))))
      end
  end.

End WithBuiltinsReport.

End Analyzer.

(** ** Logging configuration per environment ([logging_config.py]) *)

Module LoggingConfig.
Import Py.

(** A value of the configuration dictionaries. *)
Inductive cfg : Type :=
| CStr (s : string)
| CInt (z : Z)
| CBool (b : bool)
| CList (l : list string).

(** The four dictionaries nested in [BASE_CONFIG].  [dict.copy()] is a
    shallow copy: the dictionary that a [get_..._config] method returns is
    a new top-level dictionary whose entries [formatters], [handlers],
    [loggers] and [root] are these very objects, and the assignments of
    the method go to them.  So the nested content of every configuration
    handed out, at any time, is the content of these objects at that
    time, and the methods are modelled by what they do to them. *)
Record Nested := mkNested {
  formatters : dict (dict cfg);
  handlers : dict (dict cfg);
  loggers : dict (dict cfg);
  root : dict cfg
}.

Definition KeyError (k : string) : exn := Exn true ("KeyError: " +:+ k).

(** [d[k1][k2] = v]. *)
Definition set2 (k1 k2 : string) (v : cfg) (d : dict (dict cfg))
  : result (dict (dict cfg)) :=
  match dict_get k1 d with
  | Some inner => Ok (dict_set k1 (dict_set k2 v inner) d)
  | None => Raise (KeyError k1)
  end.

(** [d[k1][k2].append(x)]. *)
Definition append2 (k1 k2 x : string) (d : dict (dict cfg))
  : result (dict (dict cfg)) :=
  match dict_get k1 d with
  | Some inner =>
      match dict_get k2 inner with
      | Some (CList l) => Ok (dict_set k1 (dict_set k2 (CList (l ++ [x])) inner) d)
      | Some _ => Raise (Exn true "AttributeError: append")
      | None => Raise (KeyError k2)
      end
  | None => Raise (KeyError k1)
  end.

Definition and_then {A B : Type} (r : result A) (f : A -> result B) : result B :=
  match r with
  | Ok a => f a
  | Raise e => Raise e
  end.

Definition file_handler (level filename : string) (backupCount : Z) : dict cfg :=
  [("class", CStr "logging.handlers.RotatingFileHandler");
   ("level", CStr level);
   ("formatter", CStr "json");
   ("filename", CStr filename);
   ("maxBytes", CInt 104857600);
   ("backupCount", CInt backupCount);
   ("encoding", CStr "utf8")].

Definition logger_entry (level : string) (hs : list string) : dict cfg :=
  [("level", CStr level); ("handlers", CList hs); ("propagate", CBool false)].

Section Methods.

(** The [formatters] entry of [BASE_CONFIG], which no method reads or
    writes. *)
Variable base_formatters : dict (dict cfg).

(** [str(Path.cwd() / 'logs' / name)]; the creation of that directory
    is left out. *)
Variable local_log_file : string -> string.

(** The value of the environment variable [ENVIRONMENT], if set. *)
Variable env_ENVIRONMENT : option string.

(** The nested dictionaries of [BASE_CONFIG] as the class body makes
    them. *)
Definition BASE_CONFIG : Nested :=
  mkNested base_formatters
    [("console",
      [("class", CStr "logging.StreamHandler");
       ("level", CStr "INFO");
       ("formatter", CStr "detailed");
       ("stream", CStr "ext://sys.stdout")]);
     ("file", file_handler "DEBUG" "/var/log/prisma/application.log" 5);
     ("error_file", file_handler "ERROR" "/var/log/prisma/error.log" 5);
     ("audit_file", file_handler "INFO" "/var/log/prisma/audit.log" 10);
     ("security_file", file_handler "WARNING" "/var/log/prisma/security.log" 10);
     ("performance_file",
      file_handler "INFO" "/var/log/prisma/performance.log" 5)]
    [("prisma", logger_entry "DEBUG" ["console"; "file"]);
     ("prisma.audit", logger_entry "INFO" ["audit_file"]);
     ("prisma.security", logger_entry "WARNING" ["security_file"]);
     ("prisma.performance", logger_entry "INFO" ["performance_file"]);
     ("prisma.error", logger_entry "ERROR" ["error_file"])]
    [("level", CStr "INFO"); ("handlers", CList ["console"])].

(** The assignments that the three methods share: console level and
    formatter, level of the [prisma] logger, root level, and the five
    file names. *)
Definition configure (console_level console_formatter prisma_level
    root_level : string) (file_name : string -> string) (n : Nested)
  : result Nested :=
  and_then (set2 "console" "level" (CStr console_level) (handlers n)) (fun h =>
  and_then (set2 "console" "formatter" (CStr console_formatter) h) (fun h =>
  and_then (set2 "prisma" "level" (CStr prisma_level) (loggers n)) (fun l =>
  let r := dict_set "level" (CStr root_level) (root n) in
  and_then (set2 "file" "filename" (CStr (file_name "application.log")) h) (fun h =>
  and_then (set2 "error_file" "filename" (CStr (file_name "error.log")) h) (fun h =>
  and_then (set2 "audit_file" "filename" (CStr (file_name "audit.log")) h) (fun h =>
  and_then (set2 "security_file" "filename" (CStr (file_name "security.log")) h) (fun h =>
  and_then (set2 "performance_file" "filename" (CStr (file_name "performance.log")) h) (fun h =>
  Ok (mkNested (formatters n) h l r))))))))).

Definition get_development_config (n : Nested) : result Nested :=
  configure "DEBUG" "detailed" "DEBUG" "DEBUG" local_log_file n.

Definition get_staging_config (n : Nested) : result Nested :=
  configure "INFO" "json" "INFO" "INFO"
    (fun name => "/app/logs/" +:+ name) n.

Definition get_production_config (n : Nested) : result Nested :=
  and_then
    (configure "WARNING" "json" "INFO" "WARNING"
       (fun name => "/var/log/prisma/" +:+ name) n)
    (fun n =>
       let h :=
         dict_set "syslog"
           [("class", CStr "logging.handlers.SysLogHandler");
            ("level", CStr "WARNING");
            ("formatter", CStr "json");
            ("address", CStr "/dev/log");
            ("facility", CStr "local7")]
           (handlers n) in
       and_then (append2 "prisma.error" "handlers" "syslog" (loggers n)) (fun l =>
       and_then (append2 "prisma.security" "handlers" "syslog" l) (fun l =>
       Ok (mkNested (formatters n) h l (root n))))).

(** Which method [get_config] calls. *)
Inductive environment_kind : Type := Production | Staging | Development.

Definition environment_kind_of (environment : option string)
  : environment_kind :=
  let environment :=
    match environment with
    | Some e => e
    | None => default "development" env_ENVIRONMENT
    end in
  let environment := lower environment in
  if String.eqb environment "production" || String.eqb environment "prod"
  then Production
  else if String.eqb environment "staging" || String.eqb environment "stage"
  then Staging
  else Development.

(** [LoggingConfig.get_config]. *)
Definition get_config (environment : option string) (n : Nested)
  : result Nested :=
  match environment_kind_of environment with
  | Production => get_production_config n
  | Staging => get_staging_config n
  | Development => get_development_config n
  end.

(** [EnvironmentLogger.__init__] with [_setup_environment_logging]: the
    level that the wrapped logger is set to. *)
Definition EnvironmentLogger_level (environment : option string) : Z :=
  let environment :=
    if Logging.truthy environment then default "" environment
    else default "development" env_ENVIRONMENT in
  if String.eqb environment "production" then 20
  else if String.eqb environment "staging" then 10
  else 10.

End Methods.

(** The lookups that the properties are about. *)
Definition handler_setting (h k : string) (n : Nested) : option cfg :=
  match dict_get h (handlers n) with
  | Some d => dict_get k d
  | None => None
  end.

Definition logger_handlers (name : string) (n : Nested) : list string :=
  match dict_get name (loggers n) with
  | Some d =>
      match dict_get "handlers" d with
      | Some (CList l) => l
      | _ => []
      end
  | None => []
  end.

End LoggingConfig.

(** * Vocabulary of the statements

    The notions that the properties below are stated with, and the sample
    inputs on which they are instantiated. *)

Section RegexVocabulary.
Import Py Regex.


(** The language of an expression, read off its syntax: [matches ic r s]
    when [r], under the flag [ic], matches the whole of [s]. *)
Inductive matches (ic : bool) : regex -> list ascii -> Prop :=
| MEps : matches ic Eps []
| MSym (k : charset) (x : ascii) :
    charset_mem ic k x = true -> matches ic (Sym k) [x]
| MCat (r1 r2 : regex) (s1 s2 : list ascii) :
    matches ic r1 s1 -> matches ic r2 s2 -> matches ic (Cat r1 r2) (s1 ++ s2)
| MAltL (r1 r2 : regex) (s : list ascii) :
    matches ic r1 s -> matches ic (Alt r1 r2) s
| MAltR (r1 r2 : regex) (s : list ascii) :
    matches ic r2 s -> matches ic (Alt r1 r2) s
| MStarNil (r : regex) : matches ic (Star r) []
| MStarApp (r : regex) (s1 s2 : list ascii) :
    matches ic r s1 -> matches ic (Star r) s2 -> matches ic (Star r) (s1 ++ s2).

End RegexVocabulary.

Section MonitorVocabulary.
Import Py Monitor.
Context `{Builtins}.

(** The world after [k] more readings of the clock. *)
Definition advance (k : nat) (w : World) : World :=
  mkWorld (monitor w) (clock w) (reads w + k)%nat (logged w) (callback_calls w).

(** The alert that [_create_alert] builds for pattern [p]: [secs] is the
    reading of [int(time.time())] that goes into the id, [t] the reading
    of [datetime.now()] that becomes the creation time. *)
Definition new_alert (p : LogPattern) (count secs t : Z) (entry : log_entry)
  : Alert :=
  mkAlert (name p +:+ "_" +:+ pretty secs) (name p)
    ("Pattern '" +:+ name p +:+ "' matched " +:+ pretty count +:+
     " times in " +:+ pretty (time_window_minutes p) +:+ " minutes")
    (severity p) t count
    [("pattern", DStr (pattern p));
     ("threshold", DInt (threshold p));
     ("time_window_minutes", DInt (time_window_minutes p));
     ("sample_log_entry", DStr (substring 0 500 (py_str entry)))]
    false false.

(** The world with one more line sent to the logger. *)
Definition add_log (line : string * string) (w : World) : World :=
  mkWorld (monitor w) (clock w) (reads w) (logged w ++ [line])
    (callback_calls w).

(** The world with one more call of the callback recorded, on the alert
    behind [r] and with the registry as it stands. *)
Definition add_call (r : nat) (w : World) : World :=
  mkWorld (monitor w) (clock w) (reads w) (logged w)
    (callback_calls w ++
     [(r, mkAlertStore (active_alerts (monitor w)) (alert_history (monitor w)))]).

(** The timestamp queue of a pattern after a match at time [t]: the
    entries of the old queue that are later than [t] minus the window, in
    their order, and then [t]. *)
Definition window_queue (p : LogPattern) (old : list Z) (t : Z) : list Z :=
  List.filter (fun ts => t - minutes (time_window_minutes p) <? ts) old ++ [t].

(** [self.pattern_timestamps[pattern.name]] on the [defaultdict]. *)
Definition queue_of (p : LogPattern) (m : LogMonitor) : list Z :=
  default [] (pattern_timestamps m !! name p).

(** The world when [_trigger_pattern_match] has updated the counters and
    the queue of the pattern and is about to compare with the threshold. *)
Definition after_match (p : LogPattern) (w : World) : World :=
  let m := monitor w in
  with_monitor
    (set_pattern_timestamps
       (<[name p := window_queue p (queue_of p m) (clock w (reads w))]>
          (pattern_timestamps m))
       (set_pattern_counts (bump_total (name p) (pattern_counts m)) m))
    (advance 1 w).

End MonitorVocabulary.

Section MonitorSamples.
Import Py Monitor.

(** An interpretation of the built-ins, for the examples. *)
Definition sample_builtins : Builtins :=
  {| py_str := fun e =>
       match e with
       | JsonEntry fields => default "" (dict_get "message" fields)
       | TextLine line => line
       end;
     isoformat := fun t => pretty t |}.

(** The expression [database.*error], compiled with [re.IGNORECASE]. *)
Definition db_errors_compiled : Regex.Pattern :=
  Eval vm_compute in
    match Regex.compile "database.*error" true with
    | Ok c => c
    | Raise _ => Regex.mkPattern Regex.Void true
    end.

(** The pattern of the end-to-end scenario of the specification. *)
Definition db_errors : LogPattern :=
  mkLogPattern "db_errors" "database.*error" "ERROR" 3 5 true
    db_errors_compiled.

(** A structured line whose message the pattern matches, in another
    letter case than the pattern is written in. *)
Definition db_line : dict string :=
  [("level", "ERROR"); ("message", "Database connection ERROR")].

(** A clock that reads 0 twice and four minutes from then on. *)
Definition scenario_clock (n : nat) : Z :=
  if (n <? 2)%nat then 0 else minutes 4.

(** A callback that is interrupted: [KeyboardInterrupt] derives from
    [BaseException] and not from [Exception]. *)
Definition interrupted_callback : Callback :=
  fun _ => Some (Exn false "KeyboardInterrupt").

(** An unresolved alert of [db_errors] created at time 0. *)
Definition old_alert : Alert :=
  mkAlert "db_errors_0" "db_errors"
    "Pattern 'db_errors' matched 3 times in 5 minutes" "ERROR" 0 3
    [("pattern", DStr "database.*error"); ("threshold", DInt 3);
     ("time_window_minutes", DInt 5); ("sample_log_entry", DStr "database error")]
    false false.

(** A monitor whose registry holds that alert and nothing else. *)
Definition registry_with_old_alert : LogMonitor :=
  mkLogMonitor [db_errors] None ∅ ∅ (mkCounters 0 0 0 0)
    [("db_errors_0", 0%nat)] [old_alert].

(** One day and ten seconds, in microseconds. *)
Definition a_day_and_ten_seconds : Z := (86400 + 10) * 1000000.

End MonitorSamples.

Section LoggingSamples.
Import Py Logging.

(** A trace context as [create_trace_context] builds it. *)
Definition request_context : LogContext :=
  mkLogContext "trace-1" "span-1" (Some "user1") None None
    (Some "prisma-service") (Some "user_management") None (Some "1.0.0")
    (Some "development") (Some []).

(** The context variables at process start: no trace context, an empty
    request context. *)
Definition unbound : ContextVars := mkContextVars None [].

(** The console handler of [initialize], in JSON mode. *)
Definition stdout_handler : Handler :=
  mkHandler Stdout StructuredFormatter (fun _ => None) [].

(** The record of [logger.info] with a plain message. *)
Definition sample_record : LogRecord :=
  mkLogRecord "2024-01-01T10:00:00+00:00" "INFO" "prisma" "Test message" ""
    PNone 0 1 1 [("exc_info", PNone); ("exc_text", PNone); ("stack_info", PNone)].

(** The logging system before [initialize]: a root logger at WARNING
    without handlers. *)
Definition fresh_system : LoggingSystem := mkLoggingSystem 30 [] false false.

(** The record of [security_log(logger, "Suspicious login attempt")]:
    [log_with_context] is called with [LogCategory.SECURITY], the business
    context of the event and [user_id=None]. *)
Definition security_record : LogRecord :=
  log_with_context_record "2024-01-01T10:00:00+00:00" "prisma.security" 1 1
    WARNING "Security: Suspicious login attempt" (Some SECURITY) None None
    (Some
       (PDict
          [("security_event", PStr "Suspicious login attempt");
           ("security_timestamp", PStr "2024-01-01T10:00:00+00:00")]))
    [("user_id", PNone)].

End LoggingSamples.

Section MonitorMoreVocabulary.
Import Py Monitor.

(** [self.pattern_counts[name]['total']], zero when it was never set. *)
Definition total_matches (n : string) (m : LogMonitor) : Z :=
  default 0 (default ∅ (pattern_counts m !! n) !! "total").


(** The turns in which [psutil] does not raise. *)
Definition turn_succeeds (turn : Z * psutil_result * Counters) : bool :=
  match turn with
  | (_, PsutilRaises _, _) => false
  | _ => true
  end.

End MonitorMoreVocabulary.

Section AnalyzerVocabulary.
Import Py Analyzer.

(** What the loop keeps true of the statistics. *)
Definition stats_ok (n : Z) (st : Stats) : Prop :=
  total_lines st = n /\
  0 <= Analyzer.error_count st /\ 0 <= Analyzer.warning_count st /\
  0 <= Analyzer.critical_count st /\
  Analyzer.error_count st + Analyzer.warning_count st
  + Analyzer.critical_count st <= total_lines st /\
  Z.of_nat (List.length (unique_errors st)) <= Analyzer.error_count st /\
  Forall (fun kv => 1 <= snd kv) (top_errors st).

(** Descending by count. *)
Fixpoint descending (l : list (string * Z)) : Prop :=
  match l with
  | x :: (y :: _) as l' => snd y <= snd x /\ descending l'
  | _ => True
  end.

End AnalyzerVocabulary.

Section AsyncVocabulary.
Import Py Logging.

(** What happens to a handler, in the order in which it happens: a
    thread logs a record, or the worker takes a turn of its loop. *)
Inductive action : Type :=
| Emit (r : LogRecord)
| Work.

Definition step (a : action) (h : AsyncLogHandler) : AsyncLogHandler :=
  match a with
  | Emit r => snd (emit r h)
  | Work => worker_iteration h
  end.

Definition run (acts : list action) (h : AsyncLogHandler) : AsyncLogHandler :=
  fold_left (fun h a => step a h) acts h.

(** The records logged, in the order of the calls. *)
Fixpoint emitted (acts : list action) : list LogRecord :=
  match acts with
  | [] => []
  | Emit r :: rest => r :: emitted rest
  | Work :: rest => emitted rest
  end.

(** The wrapped handler never raises and the worker thread runs. *)
Definition healthy (h : AsyncLogHandler) : Prop :=
  thread_alive h = true /\ forall r, raises_on (target_handler h) r = None.

End AsyncVocabulary.

Section ContextVocabulary.
Import Py Logging.

(** Calls of [set_request_context], in the order in which they are made,
    each with the operation that makes it and its keyword arguments. *)
Definition request_calls (calls : list (nat * dict pyval)) (s : ContextStore)
  : ContextStore :=
  fold_left (fun s c => set_request_context (fst c) (snd c) s) calls s.

(** The keyword arguments of all the calls, merged in the order of the
    calls. *)
Definition merged_kwargs (calls : list (nat * dict pyval)) (d : dict pyval)
  : dict pyval :=
  fold_left (fun d c => dict_update d (snd c)) calls d.

(** Only the default object is there, and every operation that has set
    the variable holds it. *)
Definition only_default (d : dict pyval) (s : ContextStore) : Prop :=
  request_objects s = [d] /\
  forall op n, request_values s !! op = Some n -> n = 0%nat.

End ContextVocabulary.

Section ConfigVocabulary.
Import Py LoggingConfig.

Variable local_log_file : string -> string.
Variable env_ENVIRONMENT : option string.

(** Successive calls of [get_config], each on the dictionaries as the
    call before left them. *)
Definition get_configs (envs : list (option string)) (n : Nested)
  : result Nested :=
  fold_left
    (fun r e => and_then r (get_config local_log_file env_ENVIRONMENT e))
    envs (Ok n).

(** How many of the calls ask for the production configuration. *)
Definition production_calls (envs : list (option string)) : nat :=
  List.length
    (List.filter
       (fun e =>
          match environment_kind_of env_ENVIRONMENT e with
          | Production => true
          | _ => false
          end)
       envs).

End ConfigVocabulary.

Section ConfigShape.
Import Py LoggingConfig.

(** The console level and the root level that a kind of environment
    asks for. *)
Definition console_level_of (k : environment_kind) : string :=
  match k with
  | Production => "WARNING"
  | Staging => "INFO"
  | Development => "DEBUG"
  end.

Definition has {V : Type} (k : string) (d : dict V) : Prop :=
  dict_get k d <> None.

(** What the methods rely on and keep: the six handlers and the [prisma]
    logger are there, the console and root levels are [lvl], and the two
    loggers that production routes to syslog carry [k] such entries. *)
Definition shape (lvl : string) (k : nat) (n : Nested) : Prop :=
  has "file" (handlers n) /\
  has "error_file" (handlers n) /\
  has "audit_file" (handlers n) /\
  has "security_file" (handlers n) /\
  has "performance_file" (handlers n) /\
  has "prisma" (loggers n) /\
  handler_setting "console" "level" n = Some (CStr lvl) /\
  dict_get "level" (root n) = Some (CStr lvl) /\
  logger_handlers "prisma.error" n = "error_file" :: repeat "syslog" k /\
  logger_handlers "prisma.security" n = "security_file" :: repeat "syslog" k.

End ConfigShape.

Section MoreSamples.
Import Py Monitor.

(** A second pattern, under another name than [db_errors]. *)
Definition slow_queries : LogPattern :=
  Eval vm_compute in
    match new_LogPattern "slow_queries" "slow query" "WARNING" 2 5 true with
    | Ok p => p
    | Raise _ => db_errors
    end.

(** A monitor whose registry holds the alert of [db_errors], resolved. *)
Definition registry_with_resolved_alert : LogMonitor :=
  mkLogMonitor [db_errors] None ∅ ∅ (mkCounters 0 0 0 0)
    [("db_errors_0", 0%nat)] [set_resolved old_alert].

(** [json.loads] on the lines of the examples: a bare number, [null] and
    the empty object; the other lines of the examples are no JSON. *)
Definition sample_json : JsonLoads :=
  {| json_loads := fun line =>
       if String.eqb line "429" then LoadedOther "int"
       else if String.eqb line "null" then LoadedOther "NoneType"
       else if String.eqb line "{}" then LoadedObject []
       else NotJson |}.

(** The built-ins of the analyzer on the examples: the one timestamp
    that occurs in them, and sets listed in the order of insertion. *)
Definition sample_analyzer_builtins : Analyzer.Builtins :=
  {| Analyzer.fromisoformat := fun s =>
       if String.eqb s "1970-01-01T00:00:00"
       then Some (Analyzer.mkDatetime 0 false)
       else None;
     Analyzer.hour_key := fun _ => "1970-01-01 00:00";
     Analyzer.set_to_list := fun l => l |}.

End MoreSamples.

Section MoreLoggingSamples.
Import Py Logging.

(** An environment without variables, whose identifiers are numbered. *)
Definition sample_environment : Environment :=
  {| getenv := fun _ => None;
     uuid4 := fun n => "uuid-" +:+ pretty n |}.

(** A handler whose write of [sample_record] raises [e]. *)
Definition failing_handler (e : exn) : Handler :=
  mkHandler Stdout StructuredFormatter
    (fun r => if String.eqb (getMessage r) "Test message" then Some e else None)
    [].

(** The context variables of an operation that has bound
    [request_context] and set [user_id] in the request context. *)
Definition bound_with_request : ContextVars :=
  mkContextVars (Some request_context) [("user_id", PStr "user2")].

End MoreLoggingSamples.


Section AnalyzerSamples.
Import Py Monitor.

(** The double quote, and the line that the structured formatter writes
    for an error with the given message (level and message only). *)
Definition quote : string := String (Ascii.ascii_of_nat 34) "".

Definition error_line (message : string) : string :=
  "{" +:+ quote +:+ "level" +:+ quote +:+ ": " +:+ quote +:+ "ERROR" +:+ quote
  +:+ ", " +:+ quote +:+ "message" +:+ quote +:+ ": " +:+ quote +:+ message
  +:+ quote +:+ "}".

(** [json.loads] on the lines of the analyzer examples. *)
Definition sample_report_json : JsonLoads :=
  {| json_loads := fun line =>
       if String.eqb line (error_line "disk full")
       then LoadedObject [("level", "ERROR"); ("message", "disk full")]
       else if String.eqb line (error_line "timeout")
       then LoadedObject [("level", "ERROR"); ("message", "timeout")]
       else if String.eqb line "429" then LoadedOther "int"
       else if String.eqb line "{}" then LoadedObject []
       else NotJson |}.

(** A file of three error records and a line of plain text. *)
Definition sample_file : list string :=
  [error_line "timeout"; error_line "disk full"; "a WARNING in plain text";
   error_line "disk full"].

End AnalyzerSamples.


(** * Properties *)

(** ** Case folding and pattern matching *)

Section RegexFacts.
Import Py Regex.














(** *** The matcher against the language of the expression *)

Lemma matches_cat_inv (ic : bool) (r1 r2 : regex) (s : list ascii) :
  matches ic (Cat r1 r2) s ->
  exists s1 s2 : list ascii,
    s = s1 ++ s2 /\ matches ic r1 s1 /\ matches ic r2 s2.
Proof. intros Hm. inversion Hm; subst. eauto. Qed.

Lemma matches_alt_inv (ic : bool) (r1 r2 : regex) (s : list ascii) :
  matches ic (Alt r1 r2) s -> matches ic r1 s \/ matches ic r2 s.
Proof. intros Hm. inversion Hm; subst; auto. Qed.

Lemma nullable_matches (ic : bool) (r : regex) :
  nullable r = true <-> matches ic r [].
Proof.
  induction r as [| |k|r1 IH1 r2 IH2|r1 IH1 r2 IH2|r IH]; simpl.
  - split; [discriminate|]. intros Hm. inversion Hm.
  - split; [constructor|reflexivity].
  - split; [discriminate|]. intros Hm. inversion Hm.
  - rewrite andb_true_iff, IH1, IH2. split.
    + intros [H1 H2]. exact (MCat ic r1 r2 [] [] H1 H2).
    + intros Hm. apply matches_cat_inv in Hm as (s1 & s2 & Heq & H1 & H2).
      symmetry in Heq. apply app_eq_nil in Heq as [-> ->]. auto.
  - rewrite orb_true_iff, IH1, IH2. split.
    + intros [H1|H2]; [now apply MAltL|now apply MAltR].
    + apply matches_alt_inv.
  - split; [constructor|reflexivity].
Qed.

(** A non-empty match of a starred expression starts with a non-empty
    match of its body. *)
Lemma matches_star_cons_gen (ic : bool) (r' : regex) (xs : list ascii) :
  matches ic r' xs ->
  forall (r : regex) (x : ascii) (s : list ascii),
    r' = Star r -> xs = x :: s ->
    exists s1 s2 : list ascii,
      s = s1 ++ s2 /\ matches ic r (x :: s1) /\ matches ic (Star r) s2.
Proof.
  induction 1 as [| | | | | |r0 s1 s2 H1 _ H2 IH2]; intros q c t Hr Hxs;
    try discriminate.
  injection Hr as ->. destruct s1 as [|y s1].
  - simpl in Hxs. exact (IH2 q c t eq_refl Hxs).
  - injection Hxs as -> <-. exists s1, s2. auto.
Qed.

Lemma matches_star_cons (ic : bool) (r : regex) (x : ascii) (s : list ascii) :
  matches ic (Star r) (x :: s) ->
  exists s1 s2 : list ascii,
    s = s1 ++ s2 /\ matches ic r (x :: s1) /\ matches ic (Star r) s2.
Proof. intros Hm. exact (matches_star_cons_gen ic _ _ Hm r x s eq_refl eq_refl). Qed.

Lemma deriv_matches (ic : bool) (x : ascii) (r : regex) (s : list ascii) :
  matches ic (deriv ic x r) s <-> matches ic r (x :: s).
Proof.
  revert s.
  induction r as [| |k|r1 IH1 r2 IH2|r1 IH1 r2 IH2|r IH]; intros s; simpl.
  - split; intros Hm; inversion Hm.
  - split; intros Hm; inversion Hm.
  - destruct (charset_mem ic k x) eqn:Hk; split; intros Hm.
    + inversion Hm; subst. now constructor.
    + inversion Hm; subst. constructor.
    + inversion Hm.
    + inversion Hm; subst. congruence.
  - assert (Hcat : matches ic (Cat (deriv ic x r1) r2) s <->
                   exists s1 s2, s = s1 ++ s2 /\ matches ic r1 (x :: s1) /\
                                 matches ic r2 s2).
    { split.
      - intros Hm. apply matches_cat_inv in Hm as (s1 & s2 & -> & H1 & H2).
        exists s1, s2. rewrite <- IH1. auto.
      - intros (s1 & s2 & -> & H1 & H2). constructor; [now apply IH1|exact H2]. }
    assert (Hinv : matches ic (Cat r1 r2) (x :: s) ->
                   (matches ic r1 [] /\ matches ic r2 (x :: s)) \/
                   exists s1 s2, s = s1 ++ s2 /\ matches ic r1 (x :: s1) /\
                                 matches ic r2 s2).
    { intros Hm. apply matches_cat_inv in Hm as (s1 & s2 & Heq & H1 & H2).
      destruct s1 as [|y s1].
      - simpl in Heq. subst s2. now left.
      - injection Heq as <- ->. right. eauto. }
    destruct (nullable r1) eqn:Hn.
    + split.
      * intros Hm. apply matches_alt_inv in Hm as [Hl|Hr].
        -- apply Hcat in Hl as (s1 & s2 & -> & H1 & H2).
           exact (MCat ic r1 r2 (x :: s1) s2 H1 H2).
        -- apply IH2 in Hr. apply (nullable_matches ic) in Hn.
           exact (MCat ic r1 r2 [] (x :: s) Hn Hr).
      * intros Hm. apply Hinv in Hm as [[_ H2]|Hex].
        -- apply MAltR. now apply IH2.
        -- apply MAltL. now apply Hcat.
    + rewrite Hcat. split.
      * intros (s1 & s2 & -> & H1 & H2). exact (MCat ic r1 r2 (x :: s1) s2 H1 H2).
      * intros Hm. apply Hinv in Hm as [[H1 _]|Hex]; [|exact Hex].
        apply (nullable_matches ic) in H1. congruence.
  - split; intros Hm; apply matches_alt_inv in Hm as [Hl|Hr].
    + apply MAltL. now apply IH1.
    + apply MAltR. now apply IH2.
    + apply MAltL. now apply IH1.
    + apply MAltR. now apply IH2.
  - split.
    + intros Hm. apply matches_cat_inv in Hm as (s1 & s2 & -> & H1 & H2).
      apply IH in H1. exact (MStarApp ic r (x :: s1) s2 H1 H2).
    + intros Hm. apply matches_star_cons in Hm as (s1 & s2 & -> & H1 & H2).
      constructor; [now apply IH|exact H2].
Qed.

Lemma fullmatch_matches (ic : bool) (s : list ascii) :
  forall r : regex, fullmatch ic r s = true <-> matches ic r s.
Proof.
  induction s as [|x s IH]; intros r; simpl.
  - apply nullable_matches.
  - rewrite IH. apply deriv_matches.
Qed.

Lemma prefix_match_matches (ic : bool) (s : list ascii) :
  forall r : regex,
    prefix_match ic r s = true <->
    exists s1 s2 : list ascii, s = s1 ++ s2 /\ matches ic r s1.
Proof.
  induction s as [|x s IH]; intros r; cbn [prefix_match];
    rewrite orb_true_iff, (nullable_matches ic).
  - split.
    + intros [Hm|Hf]; [|discriminate]. exists [], []. auto.
    + intros (s1 & s2 & Heq & Hm). symmetry in Heq.
      apply app_eq_nil in Heq as [-> ->]. auto.
  - rewrite IH. split.
    + intros [Hm|(s1 & s2 & -> & Hm)].
      * exists [], (x :: s). auto.
      * exists (x :: s1), s2. split; [reflexivity|now apply deriv_matches].
    + intros (s1 & s2 & Heq & Hm). destruct s1 as [|y s1].
      * now left.
      * injection Heq as <- ->. right. exists s1, s2.
        split; [reflexivity|now apply deriv_matches].
Qed.

(** [search] answers true exactly on the texts of which some stretch is in
    the language of the expression. *)
Lemma search_from_matches (ic : bool) (r : regex) (s : list ascii) :
  search_from ic r s = true <->
  exists s0 s1 s2 : list ascii, s = s0 ++ s1 ++ s2 /\ matches ic r s1.
Proof.
  induction s as [|x s IH]; cbn [search_from];
    rewrite orb_true_iff, prefix_match_matches.
  - split.
    + intros [(s1 & s2 & Heq & Hm)|Hf]; [|discriminate]. exists [], s1, s2. auto.
    + intros (s0 & s1 & s2 & Heq & Hm). left. destruct s0; [|discriminate].
      exists s1, s2. auto.
  - rewrite IH. split.
    + intros [(s1 & s2 & Heq & Hm)|(s0 & s1 & s2 & -> & Hm)].
      * exists [], s1, s2. auto.
      * exists (x :: s0), s1, s2. auto.
    + intros (s0 & s1 & s2 & Heq & Hm). destruct s0 as [|y s0].
      * left. exists s1, s2. auto.
      * injection Heq as <- ->. right. exists s0, s1, s2. auto.
Qed.




End RegexFacts.

(** ** The monitor: sliding window, create-or-merge, callback, lifecycle *)

Section MonitorFacts.
Import Py Monitor.
Context `{Builtins}.

Lemma advance_advance (j k : nat) (w : World) :
  advance k (advance j w) = advance (j + k) w.
Proof. unfold advance; simpl. f_equal. lia. Qed.

Lemma now_advance (w : World) : now w = (Ok (clock w (reads w)), advance 1 w).
Proof. unfold now, advance. do 2 f_equal. lia. Qed.

(** The search for a similar alert only reads the clock, and ends. *)
Lemma find_existing_advance (pname : string) (refs : list nat) (w : World) :
  exists (o : option nat) (k : nat),
    find_existing pname refs w = (Ok o, advance k w).
Proof.
  revert w. induction refs as [|r refs IH]; intros w.
  - exists None, 0%nat. cbn. unfold ret, advance. f_equal.
    destruct w; simpl; f_equal; lia.
  - cbn [find_existing]. unfold bind at 1, get_monitor.
    destruct (alert_history (monitor w) !! r) as [a|]; [|apply IH].
    destruct (String.eqb (pattern_name a) pname && negb (resolved a));
      [|apply IH].
    unfold bind. rewrite now_advance.
    destruct (timedelta_seconds (clock w (reads w) - timestamp a) <? 300).
    + exists (Some r), 1%nat. reflexivity.
    + destruct (IH (advance 1 w)) as (o & k & Hk).
      exists o, (1 + k)%nat. now rewrite Hk, advance_advance.
Qed.

(** An alert that the search returns is an unresolved alert of the
    pattern, among the references searched. *)
Lemma find_existing_Some (pname : string) (refs : list nat) (w w' : World)
    (r : nat) :
  find_existing pname refs w = (Ok (Some r), w') ->
  In r refs /\
  exists a, alert_history (monitor w) !! r = Some a /\
            pattern_name a = pname /\ resolved a = false.
Proof.
  revert w. induction refs as [|r0 refs IH]; intros w; cbn [find_existing].
  - unfold ret. intros Heq; inversion Heq.
  - unfold bind at 1, get_monitor.
    destruct (alert_history (monitor w) !! r0) as [a|] eqn:Ha.
    2:{ intros Heq. destruct (IH w Heq) as (Hin & Hex). split; [now right|exact Hex]. }
    destruct (String.eqb (pattern_name a) pname && negb (resolved a)) eqn:Hc.
    2:{ intros Heq. destruct (IH w Heq) as (Hin & Hex). split; [now right|exact Hex]. }
    unfold bind. rewrite now_advance.
    destruct (timedelta_seconds (clock w (reads w) - timestamp a) <? 300).
    + unfold ret. intros Heq; inversion Heq; subst r0.
      split; [now left|]. exists a.
      apply andb_true_iff in Hc as [Hn Hr].
      apply String.eqb_eq in Hn. apply negb_true_iff in Hr. auto.
    + intros Heq. destruct (IH (advance 1 w) Heq) as (Hin & Hex).
      split; [now right|exact Hex].
Qed.

Lemma create_alert_cases (p : LogPattern) (c : Z) (e : log_entry) (w : World) :
  exists (o : option nat) (k : nat),
    find_existing (name p) (dict_values (active_alerts (monitor w)))
      (advance 1 w) = (Ok o, advance (1 + k) w) /\
    _create_alert p c e w =
    match o with
    | Some r =>
        (Ok tt,
         with_monitor
           (update_alert r
              (set_detail "last_occurrence"
                 (DStr (isoformat (clock w (reads w + 1 + k)%nat))))
              (update_alert r (set_count c) (monitor w)))
           (advance (2 + k) w))
    | None =>
        let a :=
          new_alert p c (Z.quot (clock w (reads w)) 1000000)
            (clock w (reads w + 1 + k)%nat) e in
        let r := List.length (alert_history (monitor w)) in
        (trigger_callback r a ;;; log "WARNING" ("Alert created: " +:+ message a))
          (with_monitor
             (set_alerts (dict_set (id a) r (active_alerts (monitor w)))
                (alert_history (monitor w) ++ [a]) (monitor w))
             (advance (2 + k) w))
    end.
Proof.
  destruct (find_existing_advance (name p)
              (dict_values (active_alerts (monitor w))) (advance 1 w))
    as (o & k & Hk).
  rewrite advance_advance in Hk.
  exists o, k. split; [exact Hk|].
  unfold _create_alert, time_time_int.
  unfold bind at 1. unfold bind at 1. rewrite now_advance. unfold ret at 1.
  unfold bind at 1. unfold get_monitor at 1.
  unfold bind at 1. cbn [monitor advance].
  rewrite Hk. destruct o as [r|].
  - unfold bind, get_monitor, put_monitor, now, with_monitor, advance.
    cbn [monitor clock reads logged callback_calls].
    replace (reads w + (1 + k))%nat with (reads w + 1 + k)%nat by lia.
    replace (S (reads w + 1 + k))%nat with (reads w + (2 + k))%nat by lia.
    reflexivity.
  - cbv zeta. unfold bind at 1. rewrite now_advance, advance_advance.
    unfold bind at 1. unfold get_monitor at 1.
    unfold bind at 1. unfold put_monitor at 1.
    cbn [monitor advance reads clock].
    replace (reads w + (1 + k))%nat with (reads w + 1 + k)%nat by lia.
    replace (1 + k + 1)%nat with (2 + k)%nat by lia.
    reflexivity.
Qed.

Lemma trigger_callback_cases (r : nat) (a : Alert) (w : World) :
  trigger_callback r a w =
  match alert_callback (monitor w) with
  | None => (Ok tt, w)
  | Some cb =>
      let store :=
        mkAlertStore (active_alerts (monitor w)) (alert_history (monitor w)) in
      let calls := callback_calls w ++ [(r, store)] in
      match cb a with
      | None => (Ok tt, mkWorld (monitor w) (clock w) (reads w) (logged w) calls)
      | Some ex =>
          if exn_is_Exception ex then
            (Ok tt,
             mkWorld (monitor w) (clock w) (reads w)
               (logged w ++ [("ERROR", "Error in alert callback: " +:+ exn_str ex)])
               calls)
          else
            (Raise ex, mkWorld (monitor w) (clock w) (reads w) (logged w) calls)
      end
  end.
Proof.
  unfold trigger_callback, bind, get_monitor.
  destruct (alert_callback (monitor w)) as [cb|]; [|reflexivity].
  unfold try_except_Exception, bind, record_callback_call, raise, ret, log.
  destruct (cb a) as [ex|]; [|reflexivity].
  cbn. destruct (exn_is_Exception ex); reflexivity.
Qed.

Lemma dict_get_set_eq {V : Type} (k : string) (v : V) (d : dict V) :
  dict_get k (dict_set k v d) = Some v.
Proof.
  induction d as [|[k' v'] d IH]; simpl.
  - now rewrite String.eqb_refl.
  - destruct (String.eqb k k') eqn:Hk; simpl.
    + now rewrite String.eqb_refl.
    + now rewrite Hk.
Qed.

Lemma lookup_app_length {A : Type} (l : list A) (x : A) :
  (l ++ [x]) !! List.length l = Some x.
Proof.
  induction l as [|y l IH]; simpl; [reflexivity|exact IH].
Qed.

Lemma update_alert_length (r : nat) (f : Alert -> Alert) (m : LogMonitor) :
  List.length (alert_history (update_alert r f m)) = List.length (alert_history m).
Proof.
  unfold update_alert. destruct (alert_history m !! r); [|reflexivity].
  simpl. apply length_insert.
Qed.

Lemma update_alert_active (r : nat) (f : Alert -> Alert) (m : LogMonitor) :
  active_alerts (update_alert r f m) = active_alerts m.
Proof.
  unfold update_alert. destruct (alert_history m !! r); reflexivity.
Qed.

Lemma update_alert_timestamps (r : nat) (f : Alert -> Alert) (m : LogMonitor) :
  pattern_timestamps (update_alert r f m) = pattern_timestamps m.
Proof.
  unfold update_alert. destruct (alert_history m !! r); reflexivity.
Qed.

Lemma update_alert_callback (r : nat) (f : Alert -> Alert) (m : LogMonitor) :
  alert_callback (update_alert r f m) = alert_callback m.
Proof.
  unfold update_alert. destruct (alert_history m !! r); reflexivity.
Qed.

(** The tail of the creation branch: the callback block and the final
    warning. *)
Lemma callback_then_warning (r : nat) (a : Alert) (msg : string) (w : World) :
  (trigger_callback r a ;;; log "WARNING" msg) w =
  match alert_callback (monitor w) with
  | None => (Ok tt, add_log ("WARNING", msg) w)
  | Some cb =>
      match cb a with
      | None => (Ok tt, add_log ("WARNING", msg) (add_call r w))
      | Some ex =>
          if exn_is_Exception ex then
            (Ok tt,
             add_log ("WARNING", msg)
               (add_log ("ERROR", "Error in alert callback: " +:+ exn_str ex)
                  (add_call r w)))
          else (Raise ex, add_call r w)
      end
  end.
Proof.
  unfold bind. rewrite trigger_callback_cases.
  destruct (alert_callback (monitor w)) as [cb|]; [|reflexivity].
  cbv zeta. destruct (cb a) as [ex|]; [|reflexivity].
  destruct (exn_is_Exception ex); reflexivity.
Qed.

(** C3, as the code has it. A call of [_create_alert] either merges, and
    then makes no call to the callback, or creates an alert [a]; in the
    second case a registered callback is called exactly once, on [a], at a
    moment when the registry already holds [a] under its id and in the
    history, and the registry is the same after the call whatever the
    callback does. An exception that derives from [Exception] is caught
    and logged and [_create_alert] returns normally; an exception that
    derives from [BaseException] only is not caught by the handler
    ([except Exception]) and leaves [_create_alert]. *)
Theorem create_alert_callback_contract (p : LogPattern) (c : Z)
    (e : log_entry) (w : World) :
  let res := fst (_create_alert p c e w) in
  let w' := snd (_create_alert p c e w) in
  let m := monitor w in
  let m' := monitor w' in
  (res = Ok tt /\
   List.length (alert_history m') = List.length (alert_history m) /\
   active_alerts m' = active_alerts m /\
   callback_calls w' = callback_calls w)
  \/
  (exists a : Alert,
      let r := List.length (alert_history m) in
      alert_history m' = alert_history m ++ [a] /\
      active_alerts m' = dict_set (id a) r (active_alerts m) /\
      dict_get (id a) (active_alerts m') = Some r /\
      alert_history m' !! r = Some a /\
      match alert_callback m with
      | None => res = Ok tt /\ callback_calls w' = callback_calls w
      | Some cb =>
          callback_calls w' =
          callback_calls w ++
          [(r, mkAlertStore (active_alerts m') (alert_history m'))] /\
          match cb a with
          | None => res = Ok tt
          | Some ex =>
              if exn_is_Exception ex then
                res = Ok tt /\
                In ("ERROR", "Error in alert callback: " +:+ exn_str ex)
                  (logged w')
              else res = Raise ex
          end
      end).
Proof.
  cbv zeta.
  destruct (create_alert_cases p c e w) as (o & k & _ & Heq).
  rewrite Heq. clear Heq. destruct o as [r|].
  - left. cbn [fst snd with_monitor monitor callback_calls advance].
    rewrite !update_alert_length, !update_alert_active. auto.
  - right. cbv zeta.
    set (a := new_alert p c _ _ e).
    set (r := List.length (alert_history (monitor w))).
    exists a. rewrite callback_then_warning.
    cbn [with_monitor monitor advance set_alerts alert_callback].
    destruct (alert_callback (monitor w)) as [cb|].
    + destruct (cb a) as [ex|]; [destruct (exn_is_Exception ex)|];
        cbn [fst snd add_log add_call monitor active_alerts alert_history
             callback_calls logged];
        (split; [reflexivity|]); (split; [reflexivity|]);
        (split; [apply dict_get_set_eq|]);
        (split; [apply lookup_app_length|]);
        (split; [reflexivity|]); try reflexivity.
      split; [reflexivity|]. rewrite !in_app_iff. left. right. now left.
    + cbn [fst snd add_log monitor active_alerts alert_history callback_calls
           with_monitor set_alerts].
      repeat split; auto using dict_get_set_eq.
      apply lookup_app_length.
Qed.

Lemma trigger_pattern_match_eq (p : LogPattern) (e : log_entry) (w : World) :
  _trigger_pattern_match p e w =
  let n :=
    Z.of_nat
      (List.length
         (window_queue p (queue_of p (monitor w)) (clock w (reads w)))) in
  if threshold p <=? n
  then _create_alert p n e (after_match p w)
  else (Ok tt, after_match p w).
Proof.
  unfold _trigger_pattern_match.
  unfold bind at 1. rewrite now_advance.
  unfold bind at 1. unfold get_monitor at 1.
  unfold bind at 1. unfold put_monitor at 1.
  unfold bind at 1. unfold get_monitor at 1.
  unfold bind at 1. unfold put_monitor at 1.
  unfold after_match, window_queue, queue_of, ret. cbv zeta.
  cbn [monitor with_monitor advance set_pattern_counts pattern_timestamps
       pattern_counts clock reads].
  destruct (threshold p <=? _); reflexivity.
Qed.

Lemma queue_of_after_match (p : LogPattern) (w : World) :
  queue_of p (monitor (after_match p w))
  = window_queue p (queue_of p (monitor w)) (clock w (reads w)).
Proof.
  unfold queue_of at 1, after_match.
  cbn [monitor with_monitor set_pattern_timestamps pattern_timestamps].
  now rewrite lookup_insert_eq.
Qed.

(** Alert creation leaves the timestamp queues alone. *)
Lemma create_alert_timestamps (p : LogPattern) (c : Z) (e : log_entry)
    (w : World) :
  pattern_timestamps (monitor (snd (_create_alert p c e w)))
  = pattern_timestamps (monitor w).
Proof.
  destruct (create_alert_cases p c e w) as (o & k & _ & Heq).
  rewrite Heq. clear Heq. destruct o as [r|].
  - cbn [snd with_monitor monitor]. now rewrite !update_alert_timestamps.
  - cbv zeta. rewrite callback_then_warning.
    cbn [with_monitor monitor set_alerts alert_callback].
    destruct (alert_callback (monitor w)) as [cb|]; [|reflexivity].
    destruct (cb _) as [ex|]; [|reflexivity].
    destruct (exn_is_Exception ex); reflexivity.
Qed.

(** What a match does to the queue of its pattern, whatever follows. *)
Lemma trigger_pattern_match_queue (p : LogPattern) (e : log_entry) (w : World) :
  queue_of p (monitor (snd (_trigger_pattern_match p e w)))
  = window_queue p (queue_of p (monitor w)) (clock w (reads w)).
Proof.
  rewrite trigger_pattern_match_eq. cbv zeta.
  destruct (threshold p <=? _).
  - unfold queue_of at 1. rewrite create_alert_timestamps.
    apply queue_of_after_match.
  - apply queue_of_after_match.
Qed.

Lemma window_queue_In (p : LogPattern) (old : list Z) (t ts : Z) :
  In ts (List.filter (fun ts => t - minutes (time_window_minutes p) <? ts) old)
  <-> In ts old /\ t - minutes (time_window_minutes p) < ts.
Proof. rewrite filter_In. now rewrite Z.ltb_lt. Qed.

Lemma create_alert_empty (p : LogPattern) (c : Z) (e : log_entry) (w : World) :
  active_alerts (monitor w) = [] ->
  _create_alert p c e w =
  let a :=
    new_alert p c (Z.quot (clock w (reads w)) 1000000)
      (clock w (reads w + 1)%nat) e in
  let r := List.length (alert_history (monitor w)) in
  (trigger_callback r a ;;; log "WARNING" ("Alert created: " +:+ message a))
    (with_monitor
       (set_alerts [(id a, r)] (alert_history (monitor w) ++ [a]) (monitor w))
       (advance 2 w)).
Proof.
  intros Hempty.
  destruct (create_alert_cases p c e w) as (o & k & Hk & Heq).
  rewrite Hempty in Hk. cbn in Hk. unfold ret in Hk.
  injection Hk as Ho Hreads. subst o.
  assert (k = 0%nat) as -> by lia.
  rewrite Heq, Hempty. cbv zeta.
  replace (reads w + 1 + 0)%nat with (reads w + 1)%nat by lia.
  reflexivity.
Qed.

Lemma callback_then_warning_monitor (r : nat) (a : Alert) (msg : string)
    (w : World) :
  monitor (snd ((trigger_callback r a ;;; log "WARNING" msg) w)) = monitor w.
Proof.
  rewrite callback_then_warning.
  destruct (alert_callback (monitor w)) as [cb|]; [|reflexivity].
  destruct (cb a) as [ex|]; [|reflexivity].
  destruct (exn_is_Exception ex); reflexivity.
Qed.

Lemma check_patterns_single (p : LogPattern) (f : dict string) (w : World) :
  patterns (monitor w) = [p] ->
  enabled p = true ->
  Regex.search (compiled_pattern p) (default "" (dict_get "message" f)) = true ->
  snd (_check_patterns f w) = snd (_trigger_pattern_match p (JsonEntry f) w).
Proof.
  intros Hps Hen Hs. unfold _check_patterns.
  unfold bind at 1. unfold get_monitor at 1. rewrite Hps.
  cbn [match_patterns]. rewrite Hen, Hs. cbn [andb].
  unfold bind, ret.
  destruct (_trigger_pattern_match p (JsonEntry f) w) as [[[]|ex] w'];
    reflexivity.
Qed.

(** The scenario of the specification: three matches of one pattern with
    threshold 3 and a window of five minutes, all within the window of the
    third. *)
Lemma three_matches_one_alert (p : LogPattern) (cb : option Callback)
    (clk : nat -> Z) (k : nat) (lg : list (string * string))
    (calls : list (nat * AlertStore)) (f1 f2 f3 : dict string) (t1 t2 t3 : Z) :
  threshold p = 3 ->
  time_window_minutes p = 5 ->
  enabled p = true ->
  Regex.search (compiled_pattern p) (default "" (dict_get "message" f1)) = true ->
  Regex.search (compiled_pattern p) (default "" (dict_get "message" f2)) = true ->
  Regex.search (compiled_pattern p) (default "" (dict_get "message" f3)) = true ->
  clk k = t1 -> clk (k + 1)%nat = t2 -> clk (k + 2)%nat = t3 ->
  t2 - minutes 5 < t1 -> t3 - minutes 5 < t1 -> t3 - minutes 5 < t2 ->
  let w0 := mkWorld (new_LogMonitor [p] cb) clk k lg calls in
  let w1 := snd (_check_patterns f1 w0) in
  let w2 := snd (_check_patterns f2 w1) in
  let w3 := snd (_check_patterns f3 w2) in
  alert_history (monitor w1) = [] /\
  alert_history (monitor w2) = [] /\
  queue_of p (monitor w3) = [t1; t2; t3] /\
  exists a : Alert,
    alert_history (monitor w3) = [a] /\
    active_alerts (monitor w3) = [(id a, 0%nat)] /\
    get_active_alerts (monitor w3) = [0%nat] /\
    pattern_name a = name p /\
    alert_severity a = severity p /\
    count a = 3 /\
    timestamp a = clk (k + 4)%nat /\
    acknowledged a = false /\ resolved a = false.
Proof.
  intros Hth Htw Hen Hs1 Hs2 Hs3 Hc1 Hc2 Hc3 H21 H31 H32 w0 w1 w2 w3.
  assert (E1 : w1 = after_match p w0).
  { unfold w1. rewrite (check_patterns_single p f1 w0) by auto.
    rewrite trigger_pattern_match_eq. cbv zeta.
    unfold queue_of, window_queue, w0.
    cbn [monitor new_LogMonitor pattern_timestamps].
    rewrite lookup_empty, Hth. reflexivity. }
  assert (Q1 : queue_of p (monitor w1) = [t1]).
  { rewrite E1, queue_of_after_match.
    unfold queue_of, window_queue, w0.
    cbn [monitor new_LogMonitor pattern_timestamps clock reads].
    rewrite lookup_empty, Hc1. reflexivity. }
  assert (R1 : reads w1 = (k + 1)%nat /\ clock w1 = clk /\
               patterns (monitor w1) = [p] /\
               active_alerts (monitor w1) = [] /\
               alert_history (monitor w1) = []).
  { rewrite E1. repeat split. }
  destruct R1 as (R1 & C1 & P1 & A1 & Hh1).
  assert (E2 : w2 = after_match p w1).
  { unfold w2. rewrite (check_patterns_single p f2 w1) by auto.
    rewrite trigger_pattern_match_eq. cbv zeta.
    rewrite Q1, R1, C1, Hc2. unfold window_queue. rewrite Htw.
    cbn [List.filter]. apply Z.ltb_lt in H21. rewrite H21, Hth. reflexivity. }
  assert (Q2 : queue_of p (monitor w2) = [t1; t2]).
  { rewrite E2, queue_of_after_match, Q1, R1, C1, Hc2.
    unfold window_queue. rewrite Htw. cbn [List.filter].
    apply Z.ltb_lt in H21. now rewrite H21. }
  assert (R2 : reads w2 = (k + 2)%nat /\ clock w2 = clk /\
               patterns (monitor w2) = [p] /\
               active_alerts (monitor w2) = [] /\
               alert_history (monitor w2) = []).
  { rewrite E2. unfold after_match, advance.
    cbn [reads clock monitor with_monitor set_pattern_timestamps
         set_pattern_counts patterns active_alerts alert_history].
    rewrite R1, C1, P1, A1, Hh1. repeat split. clear. lia. }
  destruct R2 as (R2 & C2 & P2 & A2 & Hh2).
  assert (W3 : window_queue p (queue_of p (monitor w2)) (clock w2 (reads w2))
               = [t1; t2; t3]).
  { rewrite Q2, R2, C2, Hc3. unfold window_queue. rewrite Htw.
    cbn [List.filter]. apply Z.ltb_lt in H31, H32. now rewrite H31, H32. }
  assert (E3 : w3 = snd (_create_alert p 3 (JsonEntry f3) (after_match p w2))).
  { unfold w3. rewrite (check_patterns_single p f3 w2) by auto.
    rewrite trigger_pattern_match_eq. cbv zeta.
    rewrite W3, Hth. reflexivity. }
  split; [exact Hh1|]. split; [exact Hh2|]. split.
  { unfold w3. rewrite (check_patterns_single p f3 w2) by auto.
    rewrite trigger_pattern_match_queue. exact W3. }
  rewrite E3, create_alert_empty by (cbn; exact A2).
  cbv zeta. rewrite callback_then_warning_monitor.
  eexists. unfold get_active_alerts.
  cbn [monitor with_monitor after_match set_alerts set_pattern_timestamps
       set_pattern_counts alert_history active_alerts advance reads clock].
  rewrite Hh2, R2, C2. cbn.
  repeat split. unfold new_alert. cbn [timestamp]. f_equal. lia.
Qed.

(** C1. On every match the monitor drops from the queue of the pattern
    the timestamps that are older than now minus the window (what it
    keeps are exactly the timestamps later than that instant), appends
    now, and calls alert creation exactly when the length of the resulting
    queue is at least the threshold.  With a threshold of 3 and a window
    of five minutes, two matching records at time 0 and one at four
    minutes leave no alert after the first two and exactly one alert, of
    count 3 and stamped with the clock reading taken during the third
    match, after the third. *)
Theorem sliding_window_alerting :
  (forall (p : LogPattern) (e : log_entry) (w : World),
      let t := clock w (reads w) in
      let cutoff := t - minutes (time_window_minutes p) in
      let old := queue_of p (monitor w) in
      let kept := List.filter (fun ts => cutoff <? ts) old in
      let n := Z.of_nat (List.length (kept ++ [t])) in
      (forall ts : Z, ts < cutoff -> ~ In ts kept) /\
      (forall ts : Z, In ts kept <-> In ts old /\ cutoff < ts) /\
      queue_of p (monitor (snd (_trigger_pattern_match p e w))) = kept ++ [t] /\
      _trigger_pattern_match p e w =
      (if threshold p <=? n
       then _create_alert p n e (after_match p w)
       else (Ok tt, after_match p w)))
  /\
  (forall (p : LogPattern) (cb : option Callback) (clk : nat -> Z) (k : nat)
          (lg : list (string * string)) (calls : list (nat * AlertStore))
          (f1 f2 f3 : dict string),
      threshold p = 3 ->
      time_window_minutes p = 5 ->
      enabled p = true ->
      Regex.search (compiled_pattern p) (default "" (dict_get "message" f1))
      = true ->
      Regex.search (compiled_pattern p) (default "" (dict_get "message" f2))
      = true ->
      Regex.search (compiled_pattern p) (default "" (dict_get "message" f3))
      = true ->
      clk k = 0 -> clk (k + 1)%nat = 0 -> clk (k + 2)%nat = minutes 4 ->
      let w0 := mkWorld (new_LogMonitor [p] cb) clk k lg calls in
      let w1 := snd (_check_patterns f1 w0) in
      let w2 := snd (_check_patterns f2 w1) in
      let w3 := snd (_check_patterns f3 w2) in
      alert_history (monitor w1) = [] /\
      alert_history (monitor w2) = [] /\
      queue_of p (monitor w3) = [0; 0; minutes 4] /\
      exists a : Alert,
        alert_history (monitor w3) = [a] /\
        active_alerts (monitor w3) = [(id a, 0%nat)] /\
        get_active_alerts (monitor w3) = [0%nat] /\
        pattern_name a = name p /\
        alert_severity a = severity p /\
        count a = 3 /\
        timestamp a = clk (k + 4)%nat /\
        acknowledged a = false /\ resolved a = false).
Proof.
  split.
  - intros p e w t cutoff old kept n.
    split; [|split; [|split]].
    + intros ts Hlt Hin. apply window_queue_In in Hin. unfold cutoff, t in Hlt. lia.
    + intros ts. apply window_queue_In.
    + apply trigger_pattern_match_queue.
    + apply trigger_pattern_match_eq.
  - intros p cb clk k lg calls f1 f2 f3 Hth Htw Hen Hs1 Hs2 Hs3 Hc1 Hc2 Hc3.
    apply three_matches_one_alert; auto; unfold minutes; lia.
Qed.

Lemma update_alert_idem (r : nat) (f : Alert -> Alert) (m : LogMonitor) :
  (forall a, f (f a) = f a) ->
  update_alert r f (update_alert r f m) = update_alert r f m.
Proof.
  intros Hf. unfold update_alert at 2 3.
  destruct (alert_history m !! r) as [a|] eqn:Ha.
  - unfold update_alert, set_alerts. cbn [alert_history].
    rewrite list_lookup_insert_eq by (eapply lookup_lt_Some; eauto).
    cbn. now rewrite Hf, list_insert_insert_eq.
  - unfold update_alert. now rewrite Ha.
Qed.

Lemma update_alert_lookup (r : nat) (f : Alert -> Alert) (m : LogMonitor) :
  alert_history (update_alert r f m) !! r = f <$> (alert_history m !! r).
Proof.
  unfold update_alert.
  destruct (alert_history m !! r) as [a|] eqn:Ha.
  - cbn. rewrite list_lookup_insert_eq by (eapply lookup_lt_Some; eauto).
    reflexivity.
  - now rewrite Ha.
Qed.

Lemma resolve_alert_known (alert_id : string) (r : nat) (w : World) :
  dict_get alert_id (active_alerts (monitor w)) = Some r ->
  resolve_alert alert_id w =
  (Ok true,
   add_log ("INFO", "Alert resolved: " +:+ alert_id)
     (with_monitor (update_alert r set_resolved (monitor w)) w)).
Proof.
  intros Hget. unfold resolve_alert, bind, get_monitor. now rewrite Hget.
Qed.

(** C7. Resolving a known alert returns true; resolving it again returns
    true and leaves the monitor as the first call left it; the resolved
    alert is not among the active alerts any more; acknowledging an
    unknown id returns false and changes nothing. *)
Theorem alert_lifecycle_idempotent :
  (forall (alert_id : string) (r : nat) (w : World),
      dict_get alert_id (active_alerts (monitor w)) = Some r ->
      let w1 := snd (resolve_alert alert_id w) in
      let w2 := snd (resolve_alert alert_id w1) in
      fst (resolve_alert alert_id w) = Ok true /\
      fst (resolve_alert alert_id w1) = Ok true /\
      monitor w2 = monitor w1 /\
      ~ In r (get_active_alerts (monitor w1)))
  /\
  (forall (alert_id : string) (w : World),
      dict_get alert_id (active_alerts (monitor w)) = None ->
      acknowledge_alert alert_id w = (Ok false, w)).
Proof.
  split.
  - intros alert_id r w Hget w1 w2.
    assert (E1 := resolve_alert_known alert_id r w Hget).
    assert (Hget1 : dict_get alert_id (active_alerts (monitor w1)) = Some r).
    { unfold w1. rewrite E1. cbn. now rewrite update_alert_active. }
    assert (E2 := resolve_alert_known alert_id r w1 Hget1).
    split; [now rewrite E1|]. split; [now rewrite E2|]. split.
    + unfold w2. rewrite E2. cbn [snd add_log with_monitor monitor].
      unfold w1. rewrite E1. cbn [snd add_log with_monitor monitor].
      apply update_alert_idem. now intros [].
    + unfold w1. rewrite E1. cbn [snd add_log with_monitor monitor].
      unfold get_active_alerts. rewrite filter_In, update_alert_lookup.
      intros [_ Hres].
      destruct (alert_history (monitor w) !! r) as [a|]; cbn in Hres;
        discriminate.
  - intros alert_id w Hget.
    unfold acknowledge_alert, bind, get_monitor. now rewrite Hget.
Qed.

End MonitorFacts.

(** *** The monitor on concrete inputs *)

Section MonitorExamples.
Import Py Monitor.

Lemma db_errors_constructed :
  new_LogPattern "db_errors" "database.*error" "ERROR" 3 5 true = Ok db_errors.
Proof. reflexivity. Qed.


Lemma sliding_window_alerting_witness :
  let w0 := mkWorld (new_LogMonitor [db_errors] None) scenario_clock 0 [] [] in
  let run := fun w => snd (_check_patterns (H := sample_builtins) db_line w) in
  exists a : Alert,
    alert_history (monitor (run (run (run w0)))) = [a] /\
    count a = 3 /\ timestamp a = minutes 4 /\
    alert_history (monitor (run (run w0))) = [].
Proof.
  destruct (proj2 (@sliding_window_alerting sample_builtins)
              db_errors None scenario_clock 0%nat [] [] db_line db_line db_line
              eq_refl eq_refl eq_refl eq_refl eq_refl eq_refl
              eq_refl eq_refl eq_refl)
    as (_ & H2 & _ & a & Ha & _ & _ & _ & _ & Hc & Ht & _).
  exists a. repeat split; assumption.
Defined.

(** C3 as stated fails: an alert is created, the callback raises, and the
    exception is neither caught nor logged but leaves [_create_alert]. *)
Lemma callback_exception_can_propagate :
  let w :=
    mkWorld (new_LogMonitor [db_errors] (Some interrupted_callback))
      (fun _ => 0) 0 [] [] in
  let out :=
    _create_alert (H := sample_builtins) db_errors 3
      (TextLine "database error") w in
  fst out = Raise (Exn false "KeyboardInterrupt") /\
  List.length (alert_history (monitor (snd out))) = 1%nat /\
  List.length (callback_calls (snd out)) = 1%nat /\
  logged (snd out) = [].
Proof. vm_compute. repeat split. Qed.

(** C2 at the failing input. The only alert of the pattern was created
    one day and ten seconds before the call, far more than five minutes;
    the [seconds] attribute of that [timedelta] is 10, the test
    [seconds < 300] passes, and the call merges into the old alert instead
    of creating a new one. *)
Lemma create_alert_merges_day_old_alert :
  let w :=
    mkWorld registry_with_old_alert (fun _ => a_day_and_ten_seconds) 0 [] [] in
  let out :=
    _create_alert (H := sample_builtins) db_errors 7
      (TextLine "database error") w in
  minutes 5 < a_day_and_ten_seconds - timestamp old_alert /\
  timedelta_seconds (a_day_and_ten_seconds - timestamp old_alert) = 10 /\
  fst out = Ok tt /\
  active_alerts (monitor (snd out)) = [("db_errors_0", 0%nat)] /\
  alert_history (monitor (snd out)) =
  [set_detail "last_occurrence" (DStr (pretty a_day_and_ten_seconds))
     (set_count 7 old_alert)].
Proof. vm_compute. repeat split. Qed.

Lemma alert_lifecycle_idempotent_witness :
  let w := mkWorld registry_with_old_alert (fun _ => 0) 0 [] [] in
  let w1 := snd (resolve_alert "db_errors_0" w) in
  (fst (resolve_alert "db_errors_0" w) = Ok true /\
   fst (resolve_alert "db_errors_0" w1) = Ok true /\
   monitor (snd (resolve_alert "db_errors_0" w1)) = monitor w1 /\
   ~ In 0%nat (get_active_alerts (monitor w1))) /\
  acknowledge_alert "no_such_alert" w = (Ok false, w).
Proof.
  intros w w1. split.
  - exact (proj1 alert_lifecycle_idempotent "db_errors_0" 0%nat w eq_refl).
  - exact (proj2 alert_lifecycle_idempotent "no_such_alert" w eq_refl).
Defined.

End MonitorExamples.

(** ** The logging front end *)

Section LoggingFacts.
Import Py Logging.

(** *** Trace context *)

(** C4, as the code has it. [set_trace_context] makes the context
    current and keeps nothing of the previous binding; entering the
    context's scope changes nothing, and leaving it, normally or by an
    exception (which propagates), leaves the context variables as the
    body left them: nothing is restored. *)
Theorem scope_exit_restores_nothing (A : Type) (c : LogContext)
    (body : LogContext -> ContextVars -> result A * ContextVars)
    (v : ContextVars) :
  current (set_trace_context c v) = Some c /\
  snd (with_LogContext c body v) = snd (body c v) /\
  fst (with_LogContext c body v) =
  match fst (body c v) with
  | Ok a => Ok (Some a)
  | Raise e => Raise e
  end.
Proof.
  unfold with_LogContext, __enter__, __exit__.
  destruct (body c v) as [[a|e] v']; repeat split.
Qed.

(** C4 as stated fails: nothing is bound, a context is bound and used as
    a scope around a block that only returns, and after the block the
    context is still current. *)
Lemma context_still_bound_after_scope :
  let v1 := set_trace_context request_context unbound in
  let v2 := snd (with_LogContext request_context (fun _ v => (Ok tt, v)) v1) in
  current unbound = None /\
  current v2 = Some request_context /\
  current v2 <> current unbound.
Proof. cbn. repeat split. discriminate. Qed.

(** *** Asynchronous handler *)

(** C8. [emit] never waits: on a queue with room it returns after
    appending the record to the queue, without touching the wrapped
    handler; on a full queue, where a blocking [put] would wait, it leaves
    the queue alone and hands the record to the wrapped handler on the
    spot, so that the record is written by the caller itself, or the
    error of the write reaches the caller. *)
Theorem emit_never_blocks (r : LogRecord) (h : AsyncLogHandler) :
  let out := emit r h in
  fst out <> Blocks /\
  (if queue_full h then
     fst (put_blocking r h) = Blocks /\
     queue (snd out) = queue h /\
     match raises_on (target_handler h) r with
     | None =>
         fst out = Returns /\
         written (target_handler (snd out))
         = written (target_handler h) ++ [r]
     | Some e =>
         fst out = Raises e /\
         written (target_handler (snd out)) = written (target_handler h)
     end
   else
     fst out = Returns /\
     queue (snd out) = queue h ++ [r] /\
     target_handler (snd out) = target_handler h).
Proof.
  unfold emit, put_nowait, put_blocking, Handler_emit.
  destruct (queue_full h).
  - destruct (raises_on (target_handler h) r) as [e|]; cbn;
      repeat split; discriminate.
  - cbn. repeat split. discriminate.
Qed.

Lemma worker_iteration_head (r : LogRecord) (rest : list LogRecord)
    (h : AsyncLogHandler) :
  thread_alive h = true ->
  queue h = r :: rest ->
  raises_on (target_handler h) r = None ->
  let h' := worker_iteration h in
  thread_alive h' = true /\
  queue h' = rest /\
  written (target_handler h') = written (target_handler h) ++ [r] /\
  raises_on (target_handler h') = raises_on (target_handler h).
Proof.
  intros Halive Hq Hok. unfold worker_iteration, Handler_emit.
  rewrite Halive, Hq, Hok. cbn. repeat split.
Qed.

Lemma worker_drains (q : list LogRecord) :
  forall h : AsyncLogHandler,
    thread_alive h = true ->
    queue h = q ->
    (forall r, In r q -> raises_on (target_handler h) r = None) ->
    let h' := worker_iterations (List.length q) h in
    thread_alive h' = true /\
    queue h' = [] /\
    written (target_handler h') = written (target_handler h) ++ q.
Proof.
  induction q as [|r rest IH]; intros h Halive Hq Hok.
  - cbn. rewrite app_nil_r. auto.
  - cbn [List.length worker_iterations].
    destruct (worker_iteration_head r rest h Halive Hq (Hok r (or_introl eq_refl)))
      as (Halive' & Hq' & Hw' & Hr').
    destruct (IH (worker_iteration h) Halive' Hq') as (Ha & Hqe & Hw).
    { intros x Hx. rewrite Hr'. apply Hok. now right. }
    cbv zeta. rewrite Hw, Hw', <- app_assoc. auto.
Qed.

(** C5, as the code has it. The handler has no shutdown of its own:
    [close] and [flush] leave the queue, the wrapped handler and the
    worker thread as they are.  A queued record is written when the
    worker reaches it: while the worker runs and the wrapped handler does
    not raise, as many turns of the worker loop as there are queued
    records write them all, in the order in which they were queued. *)
Theorem queued_records_wait_for_the_worker (h : AsyncLogHandler) :
  thread_alive h = true ->
  (forall r, In r (queue h) -> raises_on (target_handler h) r = None) ->
  let h' := worker_iterations (List.length (queue h)) h in
  (queue h' = [] /\
   written (target_handler h') = written (target_handler h) ++ queue h /\
   thread_alive h' = true) /\
  (queue (close h) = queue h /\
   written (target_handler (close h)) = written (target_handler h) /\
   thread_alive (close h) = thread_alive h /\
   flush h = h).
Proof.
  intros Halive Hok. split.
  - destruct (worker_drains (queue h) h Halive eq_refl Hok) as (Ha & Hq & Hw).
    auto.
  - unfold close, flush. auto.
Qed.

(** C5 as stated fails: a record is accepted into the queue, the handler
    is flushed and closed, and the record is still in the queue, not
    written, with the worker thread still running. *)
Lemma close_leaves_record_unwritten :
  let h0 := new_AsyncLogHandler stdout_handler 10000 in
  let h1 := snd (emit sample_record h0) in
  let h2 := close (flush h1) in
  fst (emit sample_record h0) = Returns /\
  queue h1 = [sample_record] /\
  queue h2 = [sample_record] /\
  written (target_handler h2) = [] /\
  thread_alive h2 = true.
Proof. cbn. repeat split. Qed.

Lemma queued_records_wait_for_the_worker_witness :
  let h1 := snd (emit sample_record (new_AsyncLogHandler stdout_handler 10000)) in
  let h' := worker_iterations 1 h1 in
  queue h' = [] /\ written (target_handler h') = [sample_record].
Proof.
  intros h1 h'.
  destruct (queued_records_wait_for_the_worker h1 eq_refl (fun _ _ => eq_refl))
    as ((Hq & Hw & _) & _).
  split; [exact Hq|exact Hw].
Defined.

(** *** Initialisation *)




(** *** Structured formatter *)

Lemma dict_get_set_ne {V : Type} (k k' : string) (v : V) (d : dict V) :
  String.eqb k k' = false -> dict_get k (dict_set k' v d) = dict_get k d.
Proof.
  intros Hne. induction d as [|[k0 v0] d IH]; simpl.
  - now rewrite Hne.
  - destruct (String.eqb k' k0) eqn:Hk; simpl.
    + apply String.eqb_eq in Hk. subst k0. now rewrite Hne.
    + destruct (String.eqb k k0); [reflexivity|exact IH].
Qed.

Lemma dict_get_set_same {V : Type} (k : string) (v : V) (d : dict V) :
  dict_get k (dict_set k v d) = Some v.
Proof.
  induction d as [|[k' v'] d IH]; simpl.
  - now rewrite String.eqb_refl.
  - destruct (String.eqb k k') eqn:Hk; simpl.
    + now rewrite String.eqb_refl.
    + now rewrite Hk.
Qed.

(** [update] with a dictionary that lacks a key keeps the key's value. *)
Lemma dict_get_update_absent {V : Type} (k : string) (e d : dict V) :
  dict_get k e = None -> dict_get k (dict_update d e) = dict_get k d.
Proof.
  unfold dict_update. revert d.
  induction e as [|[k' v'] e IH]; intros d Habs; simpl in *.
  - reflexivity.
  - destruct (String.eqb k k') eqn:Hk; [discriminate|].
    rewrite (IH _ Habs). now apply dict_get_set_ne.
Qed.

Lemma dict_get_filter_absent {V : Type} (k : string)
    (keep : string * V -> bool) (e : dict V) :
  dict_get k e = None -> dict_get k (List.filter keep e) = None.
Proof.
  induction e as [|[k' v'] e IH]; intros Habs; simpl in *.
  - reflexivity.
  - destruct (String.eqb k k') eqn:Hk; [discriminate|].
    destruct (keep (k', v')); simpl; [rewrite Hk|]; auto.
Qed.

Lemma dict_get_map_to_json (k : string) (d : dict pyval) :
  dict_get k (List.map (fun '(k, x) => (k, to_json x)) d)
  = option_map to_json (dict_get k d).
Proof.
  induction d as [|[k' v'] d IH]; simpl.
  - reflexivity.
  - destruct (String.eqb k k'); [reflexivity|exact IH].
Qed.

Lemma copy_attr_other_key (k k' : string) (f : pyval -> pyval) (r : LogRecord)
    (d : dict pyval) :
  String.eqb k k' = false -> dict_get k (copy_attr k' f r d) = dict_get k d.
Proof.
  intros Hne. unfold copy_attr.
  destruct (dict_get k' (other r)); [now apply dict_get_set_ne|reflexivity].
Qed.

Lemma dict_get_update_last {V : Type} (k : string) (x : V)
    (pre post d : dict V) :
  dict_get k post = None ->
  dict_get k (dict_update d (pre ++ (k, x) :: post)) = Some x.
Proof.
  intros Hpost. unfold dict_update. rewrite fold_left_app. cbn [fold_left fst snd].
  change (dict_get k (dict_update (dict_set k x (dict_update d pre)) post) = Some x).
  rewrite dict_get_update_absent by exact Hpost.
  apply dict_get_set_same.
Qed.

(** The final loop of [format] writes the raw value of a [category]
    attribute over what the formatter stored before: when the attribute is
    a [LogCategory] member, the structured line carries the [str()] of the
    member, not its value. *)
Lemma format_category_overwritten (r : LogRecord) (v : ContextVars)
    (before after : dict pyval) (c : LogCategory) :
  other r = before ++ ("category", PCategory c) :: after ->
  dict_get "category" after = None ->
  dict_get "category" (format_parsed r v)
  = Some (JStr ("LogCategory." +:+ LogCategory_name c)).
Proof.
  intros Hother Hafter. unfold format_parsed.
  rewrite dict_get_map_to_json. unfold format_log_data.
  rewrite Hother, List.filter_app. cbn [List.filter].
  replace (negb (is_standard_key (fst ("category", PCategory c)))) with true
    by reflexivity.
  rewrite dict_get_update_last by (now apply dict_get_filter_absent).
  reflexivity.
Qed.

(** Level and message come back as they went in, unless the request
    context or an attribute set on the record uses their keys. *)
Lemma format_level_message (r : LogRecord) (v : ContextVars) :
  dict_get "level" (_request_context v) = None ->
  dict_get "message" (_request_context v) = None ->
  dict_get "level" (other r) = None ->
  dict_get "message" (other r) = None ->
  dict_get "level" (format_parsed r v) = Some (JStr (levelname r)) /\
  dict_get "message" (format_parsed r v) = Some (JStr (getMessage r)).
Proof.
  intros Hrl Hrm Hol Hom. unfold format_parsed.
  rewrite !dict_get_map_to_json. unfold format_log_data.
  rewrite !dict_get_update_absent by (now apply dict_get_filter_absent).
  rewrite !copy_attr_other_key by reflexivity.
  destruct (_request_context v) as [|kv req] eqn:Hreq.
  - destruct (_trace_context v) as [c|].
    + rewrite !dict_get_update_absent by reflexivity. split; reflexivity.
    + split; reflexivity.
  - rewrite !dict_get_update_absent by assumption.
    destruct (_trace_context v) as [c|].
    + rewrite !dict_get_update_absent by reflexivity. split; reflexivity.
    + split; reflexivity.
Qed.

(** C9 at the failing input. The record that [log_with_context] builds
    for a security event is formatted and read back: level and message
    are those of the record, but the category that comes back is the text
    [LogCategory.SECURITY], which is neither the category of the record
    nor the value [security] that the formatter computes for it a few
    lines earlier. *)
Lemma structured_category_not_read_back :
  let parsed := format_parsed security_record unbound in
  dict_get "category" (other security_record) = Some (PCategory SECURITY) /\
  dict_get "level" parsed = Some (JStr "WARNING") /\
  dict_get "message" parsed = Some (JStr "Security: Suspicious login attempt") /\
  dict_get "category" parsed = Some (JStr "LogCategory.SECURITY") /\
  dict_get "category" parsed <> Some (JStr (LogCategory_value SECURITY)).
Proof. vm_compute. repeat split. discriminate. Qed.

End LoggingFacts.

(** ** More on the monitor *)

Section MonitorMoreFacts.
Import Py Monitor.
Context `{Builtins}.

Lemma set_alerts_eta (m : LogMonitor) :
  set_alerts (active_alerts m) (alert_history m) m = m.
Proof. now destruct m. Qed.

Lemma update_alert_frame (r : nat) (f : Alert -> Alert) (m : LogMonitor) :
  exists (A : dict nat) (Hs : list Alert), update_alert r f m = set_alerts A Hs m.
Proof.
  unfold update_alert. destruct (alert_history m !! r) as [a|].
  - eauto.
  - exists (active_alerts m), (alert_history m). now rewrite set_alerts_eta.
Qed.

(** Alert creation changes nothing of the monitor but the registry. *)
Lemma create_alert_frame (p : LogPattern) (c : Z) (e : log_entry) (w : World) :
  exists (A : dict nat) (Hs : list Alert),
    monitor (snd (_create_alert p c e w)) = set_alerts A Hs (monitor w).
Proof.
  destruct (create_alert_cases p c e w) as (o & k & _ & Heq).
  rewrite Heq. clear Heq. destruct o as [r|].
  - cbn [snd with_monitor monitor].
    destruct (update_alert_frame r (set_count c) (monitor w)) as (A & Hs & ->).
    destruct (update_alert_frame r
                (set_detail "last_occurrence"
                   (DStr (isoformat (clock w (reads w + 1 + k)%nat))))
                (set_alerts A Hs (monitor w))) as (A' & Hs' & ->).
    exists A', Hs'. reflexivity.
  - cbv zeta. rewrite callback_then_warning_monitor.
    cbn [with_monitor monitor advance]. eauto.
Qed.

(** What a match changes outside the registry: the counter and the queue
    of its own pattern. *)
Lemma trigger_pattern_match_frame (p : LogPattern) (e : log_entry) (w : World) :
  exists (A : dict nat) (Hs : list Alert),
    monitor (snd (_trigger_pattern_match p e w))
    = set_alerts A Hs (monitor (after_match p w)).
Proof.
  rewrite trigger_pattern_match_eq. cbv zeta.
  destruct (threshold p <=? _).
  - apply create_alert_frame.
  - exists (active_alerts (monitor (after_match p w))),
      (alert_history (monitor (after_match p w))).
    cbn [snd]. now rewrite set_alerts_eta.
Qed.

(** X1. A match of pattern [p] leaves the timestamp queue and the match
    counters of every pattern of another name as they were, whether or not
    it goes on to create or merge an alert. *)
Theorem match_touches_only_its_pattern (p q : LogPattern) (e : log_entry)
    (w : World) :
  name q <> name p ->
  let m' := monitor (snd (_trigger_pattern_match p e w)) in
  queue_of q m' = queue_of q (monitor w) /\
  pattern_counts m' !! name q = pattern_counts (monitor w) !! name q.
Proof.
  intros Hne. cbv zeta.
  destruct (trigger_pattern_match_frame p e w) as (A & Hs & ->).
  unfold queue_of, after_match, bump_total.
  cbn [set_alerts pattern_timestamps pattern_counts monitor with_monitor
       set_pattern_timestamps set_pattern_counts advance].
  rewrite !lookup_insert_ne by congruence. auto.
Qed.

(** X2. Every match adds exactly one to the cumulative counter of its
    pattern, also when its timestamp is the only one left in the window
    and when no alert follows: the counter is never reduced by the
    window. *)
Theorem match_counts_once (p : LogPattern) (e : log_entry) (w : World) :
  total_matches (name p) (monitor (snd (_trigger_pattern_match p e w)))
  = total_matches (name p) (monitor w) + 1.
Proof.
  destruct (trigger_pattern_match_frame p e w) as (A & Hs & ->).
  unfold total_matches, after_match, bump_total.
  cbn [set_alerts pattern_timestamps pattern_counts monitor with_monitor
       set_pattern_timestamps set_pattern_counts advance].
  rewrite lookup_insert_eq. simpl. now rewrite lookup_insert_eq.
Qed.

(** X3. A text that no enabled pattern finds a match in leaves the world
    as it is: nothing is counted, the clock is not read, no alert is
    touched.  In particular a disabled pattern never triggers. *)
Theorem unmatched_text_changes_nothing (ps : list LogPattern) (text : string)
    (e : log_entry) (w : World) :
  (forall p, In p ps ->
             enabled p && Regex.search (compiled_pattern p) text = false) ->
  match_patterns ps text e w = (Ok tt, w).
Proof.
  induction ps as [|p ps IH]; intros Hnone.
  - reflexivity.
  - cbn [match_patterns]. rewrite (Hnone p (or_introl eq_refl)).
    unfold bind, ret at 1. apply IH. intros q Hq. apply Hnone. now right.
Qed.

(** The search finds nothing, and does not read the clock, when every
    alert of the pattern among the references is resolved. *)
Lemma find_existing_all_resolved (pname : string) (refs : list nat) (w : World) :
  (forall r a, In r refs -> alert_history (monitor w) !! r = Some a ->
               pattern_name a = pname -> resolved a = true) ->
  find_existing pname refs w = (Ok None, w).
Proof.
  induction refs as [|r refs IH]; intros Hres.
  - reflexivity.
  - cbn [find_existing]. unfold bind at 1, get_monitor.
    assert (IH' : find_existing pname refs w = (Ok None, w)).
    { apply IH. intros r' a Hin. apply Hres. now right. }
    destruct (alert_history (monitor w) !! r) as [a|] eqn:Ha; [|exact IH'].
    destruct (String.eqb (pattern_name a) pname) eqn:Hn; [|exact IH'].
    apply String.eqb_eq in Hn.
    rewrite (Hres r a (or_introl eq_refl) Ha Hn). exact IH'.
Qed.

(** What alert creation does when the search for an alert to merge into
    finds none: the new alert goes to the end of the history and into the
    active map, under its id. *)
Lemma create_alert_fresh (p : LogPattern) (c : Z)
    (e : log_entry) (w : World) :
  (forall r a, In r (dict_values (active_alerts (monitor w))) ->
               alert_history (monitor w) !! r = Some a ->
               pattern_name a = name p -> resolved a = true) ->
  let m := monitor w in
  let m' := monitor (snd (_create_alert p c e w)) in
  let a :=
    new_alert p c (Z.quot (clock w (reads w)) 1000000)
      (clock w (reads w + 1)%nat) e in
  alert_history m' = alert_history m ++ [a] /\
  active_alerts m'
  = dict_set (id a) (List.length (alert_history m)) (active_alerts m).
Proof.
  intros Hres. cbv zeta.
  destruct (create_alert_cases p c e w) as (o & k & Hk & Heq).
  rewrite find_existing_all_resolved in Hk by exact Hres.
  injection Hk as <- Hreads. assert (k = 0%nat) as -> by lia.
  rewrite Heq. cbv zeta. rewrite callback_then_warning_monitor.
  cbn [with_monitor monitor set_alerts alert_history active_alerts].
  replace (reads w + 1 + 0)%nat with (reads w + 1)%nat by lia.
  split; reflexivity.
Qed.

(** X4. When every alert of the pattern in the active map is resolved,
    and so also when there is none, alert creation makes a new alert: it
    is unresolved and unacknowledged, carries the count, the name and the
    severity of the pattern, is stamped with the second clock reading of
    the call, and gets the id made of the pattern name and the first
    reading in whole seconds; the history grows by it and the active map
    holds it under its id.  Resolving an alert thus re-arms its pattern. *)
Theorem resolved_alerts_are_not_merged (p : LogPattern) (c : Z)
    (e : log_entry) (w : World) :
  (forall r a, In r (dict_values (active_alerts (monitor w))) ->
               alert_history (monitor w) !! r = Some a ->
               pattern_name a = name p -> resolved a = true) ->
  let m := monitor w in
  let m' := monitor (snd (_create_alert p c e w)) in
  exists a : Alert,
    alert_history m' = alert_history m ++ [a] /\
    active_alerts m'
    = dict_set (id a) (List.length (alert_history m)) (active_alerts m) /\
    id a = name p +:+ "_" +:+ pretty (Z.quot (clock w (reads w)) 1000000) /\
    pattern_name a = name p /\
    alert_severity a = severity p /\
    count a = c /\
    timestamp a = clock w (reads w + 1)%nat /\
    acknowledged a = false /\ resolved a = false.
Proof.
  intros Hres. cbv zeta.
  destruct (create_alert_fresh p c e w Hres) as [Hhistory Hactive].
  cbv zeta in Hhistory, Hactive.
  exists (new_alert p c (Z.quot (clock w (reads w)) 1000000)
            (clock w (reads w + 1)%nat) e).
  split; [exact Hhistory|]. split; [exact Hactive|].
  unfold new_alert.
  cbn [id pattern_name alert_severity count timestamp acknowledged resolved].
  repeat split.
Qed.

Lemma dict_set_length_present {V : Type} (k : string) (v v0 : V) (d : dict V) :
  dict_get k d = Some v0 -> List.length (dict_set k v d) = List.length d.
Proof.
  induction d as [|[k' v'] d IH]; simpl; [discriminate|].
  destruct (String.eqb k k'); simpl; [reflexivity|].
  intros Hget. now rewrite IH.
Qed.

Lemma dict_set_length_absent {V : Type} (k : string) (v : V) (d : dict V) :
  dict_get k d = None -> List.length (dict_set k v d) = S (List.length d).
Proof.
  induction d as [|[k' v'] d IH]; simpl; [reflexivity|].
  destruct (String.eqb k k'); simpl; [discriminate|].
  intros Hget. now rewrite IH.
Qed.

(** X5. Alert ids have the resolution of a second.  When a new alert is
    created under an id that the active map already holds (an alert of
    the same pattern, created within the same second and resolved since),
    the new alert takes the place of the old one in the map: the map does
    not grow, the id now leads to the new alert, and the old alert stays
    in the history only. *)
Theorem same_second_alert_replaces_map_entry (p : LogPattern) (c : Z)
    (e : log_entry) (w : World) (r_old : nat) :
  (forall r a, In r (dict_values (active_alerts (monitor w))) ->
               alert_history (monitor w) !! r = Some a ->
               pattern_name a = name p -> resolved a = true) ->
  dict_get (name p +:+ "_" +:+ pretty (Z.quot (clock w (reads w)) 1000000))
    (active_alerts (monitor w)) = Some r_old ->
  (r_old < List.length (alert_history (monitor w)))%nat ->
  let m := monitor w in
  let m' := monitor (snd (_create_alert p c e w)) in
  let alert_id :=
    name p +:+ "_" +:+ pretty (Z.quot (clock w (reads w)) 1000000) in
  List.length (active_alerts m') = List.length (active_alerts m) /\
  List.length (alert_history m') = S (List.length (alert_history m)) /\
  dict_get alert_id (active_alerts m') = Some (List.length (alert_history m)) /\
  List.length (alert_history m) <> r_old /\
  alert_history m' !! r_old = alert_history m !! r_old.
Proof.
  intros Hres Hold Hvalid. cbv zeta.
  destruct (create_alert_fresh p c e w Hres) as [Hh Ha].
  cbv zeta in Hh, Ha. rewrite Hh, Ha. unfold new_alert at 1 3. cbn [id].
  split; [now apply dict_set_length_present with (v0 := r_old)|].
  split; [rewrite length_app; simpl; lia|].
  split; [apply dict_get_set_eq|].
  split; [lia|].
  now rewrite lookup_app_l.
Qed.

(** X6. When alert creation does not add an alert, it has merged: one
    alert [a] that the active map holds, unresolved and of the pattern, is
    replaced in its place by [a] with the new count and with the detail
    [last_occurrence] set; its id, message, severity, creation time,
    acknowledged and resolved flags stay, every other alert of the history
    stays as it is, and so does the active map. *)
Theorem merge_updates_one_alert_in_place (p : LogPattern) (c : Z)
    (e : log_entry) (w : World) :
  let m := monitor w in
  let m' := monitor (snd (_create_alert p c e w)) in
  List.length (alert_history m') = List.length (alert_history m) ->
  exists (r : nat) (a a' : Alert),
    In r (dict_values (active_alerts m)) /\
    alert_history m !! r = Some a /\
    pattern_name a = name p /\ resolved a = false /\
    alert_history m' = <[r := a']> (alert_history m) /\
    active_alerts m' = active_alerts m /\
    count a' = c /\
    (exists t : Z,
        dict_get "last_occurrence" (details a') = Some (DStr (isoformat t))) /\
    id a' = id a /\ pattern_name a' = pattern_name a /\
    message a' = message a /\ alert_severity a' = alert_severity a /\
    timestamp a' = timestamp a /\
    acknowledged a' = acknowledged a /\ resolved a' = resolved a.
Proof.
  cbv zeta. intros Hlen.
  destruct (create_alert_cases p c e w) as (o & k & Hk & Heq).
  rewrite Heq in Hlen |- *. clear Heq. destruct o as [r|].
  - apply find_existing_Some in Hk as (Hin & a & Ha & Hn & Hr).
    cbn [monitor advance] in Hin, Ha.
    exists r, a,
      (set_detail "last_occurrence"
         (DStr (isoformat (clock w (reads w + 1 + k)%nat))) (set_count c a)).
    cbn [snd with_monitor monitor].
    rewrite !update_alert_active.
    split; [exact Hin|]. split; [exact Ha|]. split; [exact Hn|].
    split; [exact Hr|]. split.
    + unfold update_alert at 2. rewrite Ha.
      unfold update_alert. cbn [set_alerts alert_history].
      rewrite list_lookup_insert_eq by (eapply lookup_lt_Some; eauto).
      cbn [set_alerts alert_history]. apply list_insert_insert_eq.
    + split; [reflexivity|]. split; [reflexivity|]. split.
      * eexists. cbn [set_detail details]. apply dict_get_set_eq.
      * repeat split.
  - exfalso. cbv zeta in Hlen. rewrite callback_then_warning_monitor in Hlen.
    cbn [with_monitor monitor set_alerts alert_history] in Hlen.
    rewrite length_app in Hlen. simpl in Hlen. lia.
Qed.

Lemma get_active_alerts_update (r : nat) (f : Alert -> Alert) (m : LogMonitor) :
  (forall a, resolved (f a) = resolved a) ->
  get_active_alerts (update_alert r f m) = get_active_alerts m.
Proof.
  intros Hf. unfold get_active_alerts. rewrite update_alert_active.
  apply List.filter_ext. intros r'.
  destruct (Nat.eq_dec r' r) as [->|Hne].
  - rewrite update_alert_lookup.
    destruct (alert_history m !! r) as [a|]; cbn; [now rewrite Hf|reflexivity].
  - unfold update_alert. destruct (alert_history m !! r) as [a|]; [|reflexivity].
    cbn [set_alerts alert_history].
    now rewrite list_lookup_insert_ne by congruence.
Qed.

(** X7. Acknowledging a known alert returns true, marks the alert
    acknowledged and leaves its resolved flag alone: the list of active
    alerts is the same before and after, so an acknowledged alert stays
    active until it is resolved. *)
Theorem acknowledge_keeps_alert_active (alert_id : string) (r : nat) (a : Alert)
    (w : World) :
  dict_get alert_id (active_alerts (monitor w)) = Some r ->
  alert_history (monitor w) !! r = Some a ->
  let out := acknowledge_alert alert_id w in
  let m' := monitor (snd out) in
  fst out = Ok true /\
  alert_history m' !! r = Some (set_acknowledged a) /\
  acknowledged (set_acknowledged a) = true /\
  resolved (set_acknowledged a) = resolved a /\
  get_active_alerts m' = get_active_alerts (monitor w) /\
  active_alerts m' = active_alerts (monitor w).
Proof.
  intros Hget Ha. cbv zeta.
  assert (Heq : acknowledge_alert alert_id w =
                (Ok true,
                 add_log ("INFO", "Alert acknowledged: " +:+ alert_id)
                   (with_monitor (update_alert r set_acknowledged (monitor w)) w))).
  { unfold acknowledge_alert, bind, get_monitor. now rewrite Hget. }
  rewrite Heq. cbn [fst snd add_log monitor with_monitor].
  split; [reflexivity|]. split; [now rewrite update_alert_lookup, Ha|].
  split; [reflexivity|]. split; [reflexivity|].
  split; [now apply get_active_alerts_update|apply update_alert_active].
Qed.

Lemma remove_pattern_monitor (n : string) (w : World) :
  monitor (snd (remove_pattern n w))
  = set_patterns
      (List.filter (fun q => negb (String.eqb (name q) n)) (patterns (monitor w)))
      (monitor w).
Proof. reflexivity. Qed.

Lemma filter_all_true {A : Type} (f : A -> bool) (l : list A) :
  (forall x, In x l -> f x = true) -> List.filter f l = l.
Proof.
  induction l as [|x l IH]; intros Hall; simpl; [reflexivity|].
  rewrite (Hall x (or_introl eq_refl)). f_equal. apply IH.
  intros y Hy. apply Hall. now right.
Qed.

(** X8. [remove_pattern] drops every pattern of the given name and keeps
    the others in their order; it keeps the timestamp queues, the match
    counters and the alerts, those of the removed pattern included, so a
    pattern added again under the same name starts from the old queue.
    Adding a pattern under a fresh name and removing that name gives back
    the list of patterns. *)
Theorem remove_pattern_keeps_history (n : string) (p : LogPattern) (w : World) :
  let m := monitor w in
  let m' := monitor (snd (remove_pattern n w)) in
  (forall q, In q (patterns m') <-> In q (patterns m) /\ name q <> n) /\
  pattern_timestamps m' = pattern_timestamps m /\
  pattern_counts m' = pattern_counts m /\
  active_alerts m' = active_alerts m /\
  alert_history m' = alert_history m /\
  ((forall q, In q (patterns m) -> name q <> name p) ->
   patterns (monitor (snd (remove_pattern (name p) (snd (add_pattern p w)))))
   = patterns m).
Proof.
  cbv zeta. rewrite remove_pattern_monitor.
  cbn [set_patterns patterns pattern_timestamps pattern_counts active_alerts
       alert_history].
  split.
  { intros q. rewrite filter_In, negb_true_iff, String.eqb_neq. reflexivity. }
  repeat (split; [reflexivity|]).
  intros Hfresh. rewrite remove_pattern_monitor.
  cbn [add_pattern snd set_patterns patterns monitor].
  unfold add_pattern, bind, get_monitor, put_monitor, log.
  cbn [snd monitor with_monitor set_patterns patterns].
  rewrite List.filter_app. cbn [List.filter].
  rewrite String.eqb_refl. cbn [negb]. rewrite app_nil_r.
  apply filter_all_true. intros q Hq.
  apply negb_true_iff, String.eqb_neq. now apply Hfresh.
Qed.

End MonitorMoreFacts.

(** ** Line ingestion and periodic metrics *)

Section IngestionFacts.
Import Py Monitor.
Context `{Builtins} `{JsonLoads}.

Lemma match_patterns_frame (ps : list LogPattern) (text : string)
    (e : log_entry) (w : World) :
  current_metrics (monitor (snd (match_patterns ps text e w)))
  = current_metrics (monitor w).
Proof.
  revert w. induction ps as [|p ps IH]; intros w.
  - reflexivity.
  - cbn [match_patterns]. unfold bind.
    destruct (enabled p && Regex.search (compiled_pattern p) text).
    + destruct (_trigger_pattern_match p e w) as [[[]|ex] w'] eqn:Ht.
      * rewrite IH.
        destruct (trigger_pattern_match_frame p e w) as (A & Hs & Hm).
        rewrite Ht in Hm. cbn [snd] in Hm. now rewrite Hm.
      * cbn [snd].
        destruct (trigger_pattern_match_frame p e w) as (A & Hs & Hm).
        rewrite Ht in Hm. cbn [snd] in Hm. now rewrite Hm.
    + unfold ret at 1. apply IH.
Qed.


(** The counters after [_process_text_log_line] has looked at the line. *)
Lemma process_text_metrics (line : string) (w : World) :
  current_metrics (monitor (snd (_process_text_log_line line w)))
  = let c := current_metrics (monitor w) in
    bump_total_logs
      (if str_contains "ERROR" (upper line) then
         mkCounters (total_logs c) (error_count c + 1) (warning_count c)
           (critical_count c)
       else if str_contains "WARNING" (upper line) then
         mkCounters (total_logs c) (error_count c) (warning_count c + 1)
           (critical_count c)
       else if str_contains "CRITICAL" (upper line) then
         mkCounters (total_logs c) (error_count c) (warning_count c)
           (critical_count c + 1)
       else c).
Proof.
  unfold _process_text_log_line.
  unfold bind at 1. unfold get_monitor at 1.
  unfold bind at 1. unfold put_monitor at 1.
  unfold bind at 1. unfold get_monitor at 1.
  rewrite match_patterns_frame. reflexivity.
Qed.



(** X10. A line that is valid JSON without being an object (a bare number
    such as [429], a quoted string, a list) is counted in [total_logs],
    its failure is logged, and the call ends normally; but no pattern is
    ever tried on it: queues, counters of matches and alerts stay as they
    are, even when a registered pattern occurs in the text of the line. *)
Theorem non_object_json_line_is_not_matched (line type_name : string) (w : World) :
  json_loads line = LoadedOther type_name ->
  let out := _process_log_line line w in
  fst out = Ok tt /\
  monitor (snd out)
  = set_current_metrics (bump_total_logs (current_metrics (monitor w)))
      (monitor w) /\
  logged (snd out)
  = logged w ++
    [("ERROR",
      "Error processing log line: '" +:+ type_name
      +:+ "' object has no attribute 'get'")] /\
  callback_calls (snd out) = callback_calls w /\
  reads (snd out) = reads w.
Proof.
  intros Hload. cbv zeta. unfold _process_log_line. rewrite Hload.
  unfold try_except_Exception, _update_metrics_other, bind, get_monitor,
    put_monitor, raise, no_get_attribute, log.
  cbn. auto.
Qed.

(** X11. On a line that is no JSON the keywords are looked for in the
    upper-cased line, [ERROR] first: a line that mentions an error in any
    letter case counts as an error and as nothing else, also when it
    mentions [CRITICAL] or [WARNING]; a critical line is counted as
    critical only when it mentions neither of the other two. *)
Theorem text_line_keyword_precedence (line : string) (w : World) :
  let c := current_metrics (monitor w) in
  let c' := current_metrics (monitor (snd (_process_text_log_line line w))) in
  (str_contains "ERROR" (upper line) = true ->
   error_count c' = error_count c + 1 /\
   warning_count c' = warning_count c /\
   critical_count c' = critical_count c) /\
  (critical_count c' = critical_count c + 1 ->
   str_contains "CRITICAL" (upper line) = true /\
   str_contains "ERROR" (upper line) = false /\
   str_contains "WARNING" (upper line) = false).
Proof.
  cbv zeta. rewrite process_text_metrics. cbv zeta.
  destruct (str_contains "ERROR" (upper line));
    [cbn; split; [auto|intros; lia]|].
  destruct (str_contains "WARNING" (upper line));
    [cbn; split; [discriminate|intros; lia]|].
  destruct (str_contains "CRITICAL" (upper line));
    cbn; split; try discriminate; auto. intros; lia.
Qed.

End IngestionFacts.

Section MetricsFacts.
Import Py Monitor.

Lemma deque_append_room {A : Type} (maxlen : nat) (x : A) (d : list A) :
  (List.length d < maxlen)%nat -> deque_append maxlen x d = d ++ [x].
Proof.
  intros Hlt. unfold deque_append.
  destruct (maxlen <=? List.length d)%nat eqn:Hle; [|reflexivity].
  apply Nat.leb_le in Hle. lia.
Qed.

Lemma deque_append_full {A : Type} (maxlen : nat) (x y : A) (d : list A) :
  List.length (y :: d) = maxlen -> deque_append maxlen x (y :: d) = d ++ [x].
Proof.
  intros Hlen. unfold deque_append. rewrite <- Hlen, Nat.leb_refl.
  replace (S (List.length (y :: d)) - List.length (y :: d))%nat with 1%nat by lia.
  reflexivity.
Qed.

Lemma deque_append_length {A : Type} (maxlen : nat) (x : A) (d : list A) :
  (List.length d <= maxlen)%nat ->
  List.length (deque_append maxlen x d) = Nat.min maxlen (S (List.length d)).
Proof.
  intros Hle. unfold deque_append.
  destruct (maxlen <=? List.length d)%nat eqn:Hfull.
  - apply Nat.leb_le in Hfull.
    rewrite length_skipn, length_app. simpl. lia.
  - apply Nat.leb_gt in Hfull. rewrite length_app. simpl. lia.
Qed.

Lemma collect_turn_history (t : Z) (ps : psutil_result) (c : Counters)
    (s : MetricsState) :
  metrics_history (snd (collect_metrics_turn t ps c s)) = metrics_history s \/
  exists snap : LogMetrics,
    metrics_history (snd (collect_metrics_turn t ps c s))
    = deque_append 100 snap (metrics_history s) /\
    metrics_timestamp snap = current_timestamp s /\
    metrics_unique_errors snap = current_unique_errors s /\
    metrics_total_logs snap = total_logs c /\
    metrics_error_count snap = error_count c /\
    metrics_warning_count snap = warning_count c /\
    metrics_critical_count snap = critical_count c.
Proof.
  unfold collect_metrics_turn. destruct ps as [|rss cpu|e].
  - right. eexists. split; [reflexivity|]. repeat split.
  - right. eexists. split; [reflexivity|]. repeat split.
  - left. reflexivity.
Qed.

Lemma collect_turn_unique_errors (t : Z) (ps : psutil_result) (c : Counters)
    (s : MetricsState) :
  current_unique_errors (snd (collect_metrics_turn t ps c s))
  = current_unique_errors s.
Proof. unfold collect_metrics_turn. destruct ps; reflexivity. Qed.

Lemma Forall_deque_append {A : Type} (P : A -> Prop) (maxlen : nat) (x : A)
    (d : list A) :
  Forall P d -> P x -> Forall P (deque_append maxlen x d).
Proof.
  intros Hd Hx. unfold deque_append.
  assert (Hall : Forall P (d ++ [x])) by (apply Forall_app; auto).
  destruct (maxlen <=? List.length d)%nat; [|exact Hall].
  rewrite <- (firstn_skipn (S (List.length d) - maxlen) (d ++ [x])) in Hall.
  now apply Forall_app in Hall.
Qed.

(** X12. The history of metrics snapshots is a rolling window of one
    hundred.  Whatever turns the metrics loop takes, the history never
    holds more than 100 snapshots; a turn in which [psutil] does not raise
    puts one snapshot with the current counters at the end, keeps the
    earlier snapshots in their order and, when the history is full, drops
    the oldest one only; a turn in which it raises adds nothing. *)
Theorem metrics_history_is_a_rolling_window :
  (forall (turns : list (Z * psutil_result * Counters)) (s : MetricsState),
      (List.length (metrics_history s) <= 100)%nat ->
      (List.length (metrics_history (collect_metrics_turns turns s)) <= 100)%nat)
  /\
  (forall (t : Z) (ps : psutil_result) (c : Counters) (s : MetricsState),
      (List.length (metrics_history s) <= 100)%nat ->
      let out := collect_metrics_turn t ps c s in
      match ps with
      | PsutilRaises e =>
          fst out = Some e /\ metrics_history (snd out) = metrics_history s
      | _ =>
          fst out = None /\
          exists (snap : LogMetrics) (dropped : list LogMetrics),
            metrics_history s ++ [snap] = dropped ++ metrics_history (snd out) /\
            List.length dropped
            = (if (List.length (metrics_history s) <? 100)%nat then 0 else 1)%nat /\
            metrics_total_logs snap = total_logs c /\
            metrics_error_count snap = error_count c /\
            metrics_warning_count snap = warning_count c /\
            metrics_critical_count snap = critical_count c
      end).
Proof.
  split.
  - induction turns as [|[[t ps] c] turns IH]; intros s Hle; [exact Hle|].
    cbn [collect_metrics_turns]. apply IH.
    destruct (collect_turn_history t ps c s) as [->|(snap & -> & _)];
      [exact Hle|].
    rewrite deque_append_length by exact Hle. lia.
  - intros t ps c s Hle out.
    assert (Hok : forall mem cpu,
      exists (snap : LogMetrics) (dropped : list LogMetrics),
        metrics_history s ++ [snap]
        = dropped ++
          deque_append 100
            (mkLogMetrics (current_timestamp s) (total_logs c) (error_count c)
               (warning_count c) (critical_count c) (current_unique_errors s)
               (match List.last (List.map Some (metrics_history s)) None with
                | Some last_metrics =>
                    if 0 <? t - metrics_timestamp last_metrics
                    then RateOf (total_logs c - metrics_total_logs last_metrics)
                           (t - metrics_timestamp last_metrics)
                    else current_rate s
                | None => current_rate s
                end) mem cpu)
            (metrics_history s) /\
        List.length dropped
        = (if (List.length (metrics_history s) <? 100)%nat then 0 else 1)%nat /\
        metrics_total_logs snap = total_logs c /\
        metrics_error_count snap = error_count c /\
        metrics_warning_count snap = warning_count c /\
        metrics_critical_count snap = critical_count c).
    { intros mem cpu. eexists.
      destruct (List.length (metrics_history s) <? 100)%nat eqn:Hroom.
      - apply Nat.ltb_lt in Hroom. exists [].
        rewrite deque_append_room by exact Hroom. repeat split.
      - apply Nat.ltb_ge in Hroom.
        destruct (metrics_history s) as [|y d] eqn:Hh; [simpl in Hroom; lia|].
        exists [y]. rewrite deque_append_full by (simpl in *; lia).
        repeat split. }
    unfold out, collect_metrics_turn. destruct ps as [|rss cpu|e].
    + split; [reflexivity|]. apply Hok.
    + split; [reflexivity|]. apply Hok.
    + split; reflexivity.
Qed.

Lemma collect_turns_timestamps (turns : list (Z * psutil_result * Counters)) :
  forall s : MetricsState,
    let ok := List.filter turn_succeeds turns in
    (List.length (metrics_history s) + List.length ok <= 100)%nat ->
    List.map metrics_timestamp
      (metrics_history (collect_metrics_turns turns s))
    = List.map metrics_timestamp (metrics_history s) ++
      List.firstn (List.length ok)
        (current_timestamp s :: List.map (fun turn => fst (fst turn)) ok).
Proof.
  induction turns as [|[[t ps] c] turns IH]; intros s ok Hle.
  - cbn. now rewrite app_nil_r.
  - cbn [collect_metrics_turns]. unfold ok in *. cbn [List.filter] in *.
    destruct ps as [|rss cpu|e]; cbn [turn_succeeds] in *.
    + rewrite IH.
      * cbn [snd collect_metrics_turn metrics_history current_timestamp].
        rewrite deque_append_room by (cbn [List.length] in Hle; lia).
        rewrite List.map_app, <- app_assoc. reflexivity.
      * cbn [snd collect_metrics_turn metrics_history].
        rewrite deque_append_room by (cbn [List.length] in Hle; lia).
        rewrite length_app. cbn [List.length] in *. lia.
    + rewrite IH.
      * cbn [snd collect_metrics_turn metrics_history current_timestamp].
        rewrite deque_append_room by (cbn [List.length] in Hle; lia).
        rewrite List.map_app, <- app_assoc. reflexivity.
      * cbn [snd collect_metrics_turn metrics_history].
        rewrite deque_append_room by (cbn [List.length] in Hle; lia).
        rewrite length_app. cbn [List.length] in *. lia.
    + rewrite IH by exact Hle. reflexivity.
Qed.

Lemma collect_turns_unique_errors (turns : list (Z * psutil_result * Counters)) :
  forall (s : MetricsState) (u : Z),
    current_unique_errors s = u ->
    Forall (fun snap => metrics_unique_errors snap = u) (metrics_history s) ->
    Forall (fun snap => metrics_unique_errors snap = u)
      (metrics_history (collect_metrics_turns turns s)).
Proof.
  induction turns as [|[[t ps] c] turns IH]; intros s u Hu Hall; [exact Hall|].
  cbn [collect_metrics_turns]. apply IH.
  - now rewrite collect_turn_unique_errors.
  - destruct (collect_turn_history t ps c s) as [->|(snap & -> & _ & Hsu & _)];
      [exact Hall|].
    apply Forall_deque_append; [exact Hall|congruence].
Qed.

(** X13. A snapshot does not carry the time at which it was taken: it is
    stamped with the time of the turn before it, the first one with the
    time at which the monitor was created; and its [unique_errors] is
    always zero, since nothing ever computes that field.  So after the
    first [n <= 100] successful turns of a new monitor, taken at
    [t1 ... tn], the timestamps in the history are [t0, t1 ... t(n-1)]. *)
Theorem snapshots_carry_the_previous_time
    (turns : list (Z * psutil_result * Counters)) (t0 : Z) :
  let ok := List.filter turn_succeeds turns in
  let history :=
    metrics_history (collect_metrics_turns turns (new_MetricsState t0)) in
  Forall (fun snap => metrics_unique_errors snap = 0) history /\
  ((List.length ok <= 100)%nat ->
   List.map metrics_timestamp history
   = List.firstn (List.length ok)
       (t0 :: List.map (fun turn => fst (fst turn)) ok)).
Proof.
  cbv zeta. split.
  - apply collect_turns_unique_errors; [reflexivity|constructor].
  - intros Hle. now rewrite collect_turns_timestamps.
Qed.

End MetricsFacts.

(** ** The batch analyzer *)

Section AnalyzerFacts.
Import Py Monitor Analyzer.
Context `{Analyzer.Builtins} `{JsonLoads}.

Lemma set_add_length (x : string) (s : list string) :
  (List.length (set_add x s) <= S (List.length s))%nat.
Proof.
  unfold set_add. destruct (existsb (String.eqb x) s); [lia|].
  rewrite length_app. simpl. lia.
Qed.

Lemma dict_set_Forall {V : Type} (P : string * V -> Prop) (k : string) (v : V)
    (d : dict V) :
  Forall P d -> P (k, v) -> Forall P (dict_set k v d).
Proof.
  intros Hd Hv. induction d as [|[k' v'] d IH]; simpl.
  - constructor; [exact Hv|constructor].
  - inversion Hd; subst. destruct (String.eqb k k'); constructor; auto.
Qed.

Lemma dict_get_Forall {V : Type} (P : string * V -> Prop) (k : string) (v : V)
    (d : dict V) :
  Forall P d -> dict_get k d = Some v -> P (k, v).
Proof.
  intros Hd. induction d as [|[k' v'] d IH]; simpl; [discriminate|].
  inversion Hd; subst. destruct (String.eqb k k') eqn:Hk.
  - apply String.eqb_eq in Hk. subst k'. intros [= <-]. assumption.
  - auto.
Qed.

Lemma dict_incr_positive (k : string) (d : dict Z) :
  Forall (fun kv => 1 <= snd kv) d ->
  Forall (fun kv => 1 <= snd kv) (dict_incr k d).
Proof.
  intros Hd. unfold dict_incr. apply dict_set_Forall; [exact Hd|].
  destruct (dict_get k d) as [v|] eqn:Hget; simpl.
  - pose proof (dict_get_Forall _ k v d Hd Hget) as Hv. simpl in Hv. lia.
  - lia.
Qed.

Lemma classify_text_ok (n : Z) (line : string) (st : Stats) :
  stats_ok n st -> stats_ok (n + 1) (classify_text line (count_line st)).
Proof.
  unfold stats_ok, classify_text, count_line.
  intros (Hn & He & Hw & Hc & Hsum & Hu & Htop).
  destruct (str_contains "ERROR" (upper line));
    [cbn; repeat split; auto; lia|].
  destruct (str_contains "WARNING" (upper line));
    [cbn; repeat split; auto; lia|].
  destruct (str_contains "CRITICAL" (upper line));
    cbn; repeat split; auto; lia.
Qed.

Lemma classify_record_ok (n : Z) (fields : dict string) (st : Stats) :
  stats_ok n st ->
  stats_ok (n + 1) (bucket_record fields (classify_record fields (count_line st))).
Proof.
  intros (Hn & He & Hw & Hc & Hsum & Hu & Htop).
  assert (Hcls : stats_ok (n + 1) (classify_record fields (count_line st))).
  { unfold stats_ok, classify_record, count_line.
    repeat match goal with
           | |- context [if String.eqb ?x ?y then _ else _] =>
               destruct (String.eqb x y)
           end; cbn; repeat split; auto using dict_incr_positive; try lia.
    - pose proof (set_add_length (default "" (dict_get "message" fields))
                    (unique_errors st)). lia.
    - exact (dict_incr_positive _ _ Htop). }
  unfold bucket_record.
  destruct (String.eqb _ ""); [exact Hcls|].
  destruct (fromisoformat _); [|exact Hcls].
  destruct Hcls as (? & ? & ? & ? & ? & ? & ?). repeat split; assumption.
Qed.

Lemma analyze_line_ok (s e : option datetime) (n : Z) (line : string)
    (st st' : Stats) :
  stats_ok n st -> analyze_line s e line st = Ok st' -> stats_ok (n + 1) st'.
Proof.
  intros Hok. unfold analyze_line.
  destruct (json_loads line) as [fields|ty|].
  - destruct (in_range s e fields) as [[|]|ex]; intros [= <-].
    + now apply classify_record_ok.
    + destruct Hok as (Hn & He & Hw & Hc & Hsum & Hu & Htop).
      unfold stats_ok, count_line. cbn. repeat split; auto; lia.
  - discriminate.
  - intros [= <-]. now apply classify_text_ok.
Qed.

Lemma analyze_lines_ok (s e : option datetime) (lines : list string) :
  forall (n : Z) (st st' : Stats),
    stats_ok n st ->
    analyze_lines s e lines st = Ok st' ->
    stats_ok (n + Z.of_nat (List.length lines)) st'.
Proof.
  induction lines as [|line lines IH]; intros n st st' Hok; cbn [analyze_lines].
  - intros [= <-]. now rewrite Z.add_0_r.
  - destruct (analyze_line s e line st) as [st1|ex] eqn:Hline; [|discriminate].
    intros Hrest. pose proof (analyze_line_ok s e n line st st1 Hok Hline) as Hok1.
    pose proof (IH (n + 1) st1 st' Hok1 Hrest) as Hfin.
    cbn [List.length]. now replace (n + Z.of_nat (S (List.length lines)))
      with (n + 1 + Z.of_nat (List.length lines)) by lia.
Qed.

(** X14. When the analysis yields a report, [total_lines] is the number
    of lines of the file, whether or not they parse and whether or not
    the time filter lets them through; the error, warning and critical
    counts together do not exceed it; and there are at most as many
    distinct error messages as errors, of which at most ten are listed. *)
Theorem report_counts_every_line (lines : list string)
    (s e : option datetime) (t_start t_end : Z) (r : Report) :
  analyze_log_file (Lines lines) s e t_start t_end = AnalysisReport r ->
  report_total_lines r = Z.of_nat (List.length lines) /\
  0 <= report_error_count r /\ 0 <= report_warning_count r /\
  0 <= report_critical_count r /\
  report_error_count r + report_warning_count r + report_critical_count r
  <= report_total_lines r /\
  0 <= report_unique_error_count r <= report_error_count r /\
  (List.length (report_unique_errors r) <= 10)%nat.
Proof.
  unfold analyze_log_file.
  destruct (analyze_lines s e lines empty_stats) as [st|ex] eqn:Hrun;
    [|discriminate].
  intros [= <-]. cbn.
  assert (Hinit : stats_ok 0 empty_stats).
  { unfold stats_ok, empty_stats. cbn. repeat split; try lia. constructor. }
  destruct (analyze_lines_ok s e lines 0 empty_stats st Hinit Hrun)
    as (Hn & He & Hw & Hc & Hsum & Hu & _).
  rewrite Hn in *. repeat split; try lia.
  rewrite length_firstn. lia.
Qed.

Lemma insert_desc_descending (x : string * Z) (l : list (string * Z)) :
  descending l -> descending (insert_desc x l).
Proof.
  induction l as [|y l IH]; intros Hl; simpl; [exact I|].
  destruct (snd y <? snd x) eqn:Hlt.
  - apply Z.ltb_lt in Hlt. split; [lia|exact Hl].
  - apply Z.ltb_ge in Hlt. destruct l as [|z l].
    + simpl. split; [exact Hlt|exact I].
    + destruct Hl as [Hzy Hl]. specialize (IH Hl). simpl in IH |- *.
      destruct (snd z <? snd x) eqn:Hlt2.
      * split; [exact Hlt|exact IH].
      * split; [exact Hzy|exact IH].
Qed.

Lemma sorted_desc_descending (items : list (string * Z)) :
  descending (sorted_desc items).
Proof.
  unfold sorted_desc.
  assert (Hgen : forall acc, descending acc ->
                   descending (fold_left (fun acc x => insert_desc x acc) items acc)).
  { induction items as [|x items IH]; intros acc Hacc; [exact Hacc|].
    simpl. apply IH. now apply insert_desc_descending. }
  apply Hgen. exact I.
Qed.

Lemma firstn_descending (n : nat) (l : list (string * Z)) :
  descending l -> descending (List.firstn n l).
Proof.
  revert l. induction n as [|n IH]; intros [|x l] Hl; try exact I.
  destruct l as [|y l]; [destruct n; exact I|].
  destruct Hl as [Hyx Hl]. specialize (IH (y :: l) Hl).
  destruct n as [|n]; [exact I|]. simpl in IH |- *. split; [exact Hyx|exact IH].
Qed.

Lemma insert_desc_Forall (P : string * Z -> Prop) (x : string * Z)
    (l : list (string * Z)) :
  P x -> Forall P l -> Forall P (insert_desc x l).
Proof.
  intros Hx Hl. induction l as [|y l IH]; simpl.
  - constructor; [exact Hx|constructor].
  - inversion Hl; subst. destruct (snd y <? snd x); constructor; auto.
Qed.

Lemma sorted_desc_Forall (P : string * Z -> Prop) (items : list (string * Z)) :
  Forall P items -> Forall P (sorted_desc items).
Proof.
  unfold sorted_desc.
  assert (Hgen : forall acc, Forall P acc -> Forall P items ->
                   Forall P (fold_left (fun acc x => insert_desc x acc) items acc)).
  { induction items as [|x items IH]; intros acc Hacc Hitems; [exact Hacc|].
    inversion Hitems; subst. simpl. apply IH; [|assumption].
    now apply insert_desc_Forall. }
  intros Hitems. apply Hgen; [constructor|exact Hitems].
Qed.

(** X15. The [top_errors] of a report are at most ten, in descending
    order of their counts, and every message listed was counted at least
    once. *)
Theorem top_errors_are_ranked (lines : list string) (s e : option datetime)
    (t_start t_end : Z) (r : Report) :
  analyze_log_file (Lines lines) s e t_start t_end = AnalysisReport r ->
  (List.length (report_top_errors r) <= 10)%nat /\
  descending (report_top_errors r) /\
  Forall (fun kv => 1 <= snd kv) (report_top_errors r).
Proof.
  unfold analyze_log_file.
  destruct (analyze_lines s e lines empty_stats) as [st|ex] eqn:Hrun;
    [|discriminate].
  intros [= <-]. cbn.
  assert (Hinit : stats_ok 0 empty_stats).
  { unfold stats_ok, empty_stats. cbn. repeat split; try lia. constructor. }
  destruct (analyze_lines_ok s e lines 0 empty_stats st Hinit Hrun)
    as (_ & _ & _ & _ & _ & _ & Htop).
  split; [rewrite length_firstn; lia|]. split.
  - apply firstn_descending, sorted_desc_descending.
  - pose proof (sorted_desc_Forall _ _ Htop) as Hall.
    rewrite <- (firstn_skipn 10 (sorted_desc (top_errors st))) in Hall.
    now apply Forall_app in Hall.
Qed.

Lemma analyze_lines_other (s e : option datetime) (lines : list string)
    (line : string) (ty : string) :
  In line lines -> json_loads line = LoadedOther ty ->
  forall st, exists ex, analyze_lines s e lines st = Raise ex.
Proof.
  intros Hin Hload. induction lines as [|l lines IH]; [contradiction|].
  intros st. cbn [analyze_lines].
  destruct (analyze_line s e l st) as [st1|ex] eqn:Hline; [|eauto].
  destruct Hin as [->|Hin].
  - unfold analyze_line in Hline. rewrite Hload in Hline. discriminate.
  - apply IH, Hin.
Qed.

(** X16. One line that is valid JSON without being an object (a bare
    number, a quoted string, [null]) makes the whole analysis end in an
    error result: unlike a line that is no JSON at all, it is not
    classified by keywords, and no statistics are returned for the other
    lines either. *)
Theorem non_object_line_aborts_analysis (lines : list string) (line ty : string)
    (s e : option datetime) (t_start t_end : Z) :
  In line lines -> json_loads line = LoadedOther ty ->
  exists msg : string,
    analyze_log_file (Lines lines) s e t_start t_end = AnalysisError msg.
Proof.
  intros Hin Hload. unfold analyze_log_file.
  destruct (analyze_lines_other s e lines line ty Hin Hload empty_stats)
    as (ex & ->).
  eauto.
Qed.

(** X17. The time filter only removes records whose timestamp parses.
    On a file in which no record has a timestamp that
    [datetime.fromisoformat] accepts, the analysis gives the same result
    with any time range as with none. *)
Theorem unparsed_timestamps_pass_the_filter (lines : list string)
    (s e : option datetime) (t_start t_end : Z) :
  (forall line fields,
      In line lines -> json_loads line = LoadedObject fields ->
      default "" (dict_get "timestamp" fields) = "" \/
      fromisoformat (replace_Z (default "" (dict_get "timestamp" fields)))
      = None) ->
  analyze_log_file (Lines lines) s e t_start t_end
  = analyze_log_file (Lines lines) None None t_start t_end.
Proof.
  intros Hnone. unfold analyze_log_file.
  assert (Heq : forall st, analyze_lines s e lines st
                           = analyze_lines None None lines st).
  { induction lines as [|l lines IH]; intros st; [reflexivity|].
    cbn [analyze_lines].
    assert (Hl : analyze_line s e l st = analyze_line None None l st).
    { unfold analyze_line.
      destruct (json_loads l) as [fields|ty|] eqn:Hload; try reflexivity.
      assert (Hr : in_range s e fields = Ok true).
      { unfold in_range.
        destruct (Hnone l fields (or_introl eq_refl) Hload) as [-> | ->].
        - destruct s, e; reflexivity.
        - destruct s, e; try reflexivity;
            destruct (String.eqb _ ""); reflexivity. }
      now rewrite Hr. }
    rewrite Hl. destruct (analyze_line None None l st); [|reflexivity].
    apply IH. intros line fields Hin. apply Hnone. now right. }
  now rewrite Heq.
Qed.

End AnalyzerFacts.

(** ** More on the asynchronous handler *)

Section AsyncFacts.
Import Py Logging.

Lemma step_healthy (a : action) (h : AsyncLogHandler) :
  healthy h -> healthy (step a h).
Proof.
  intros [Halive Hok]. destruct a as [r|]; unfold step.
  - unfold emit, put_nowait, Handler_emit.
    destruct (queue_full h); [rewrite Hok|]; split; auto.
  - unfold worker_iteration, Handler_emit. rewrite Halive.
    destruct (queue h) as [|r rest]; [split; auto|].
    rewrite Hok. split; auto.
Qed.

Lemma step_conserves (a : action) (h : AsyncLogHandler) :
  healthy h ->
  Permutation
    (written (target_handler (step a h)) ++ queue (step a h))
    (written (target_handler h) ++ queue h ++ emitted [a]).
Proof.
  intros [Halive Hok]. destruct a as [r|]; unfold step.
  - unfold emit, put_nowait, Handler_emit.
    destruct (queue_full h); [rewrite Hok|]; cbn.
    + rewrite <- app_assoc. apply Permutation_app_head.
      change (r :: queue h) with ([r] ++ queue h). apply Permutation_app_comm.
    + reflexivity.
  - unfold worker_iteration, Handler_emit. rewrite Halive.
    destruct (queue h) as [|r rest] eqn:Hq; cbn.
    + rewrite Hq, !app_nil_r. reflexivity.
    + rewrite Hok. cbn. rewrite app_nil_r, <- app_assoc. reflexivity.
Qed.

Lemma step_unbounded (a : action) (h : AsyncLogHandler) :
  healthy h -> maxsize h <= 0 ->
  maxsize (step a h) = maxsize h /\
  written (target_handler (step a h)) ++ queue (step a h)
  = written (target_handler h) ++ queue h ++ emitted [a].
Proof.
  intros [Halive Hok] Hmax. destruct a as [r|]; unfold step.
  - unfold emit, put_nowait, queue_full.
    destruct (Z.ltb_spec 0 (maxsize h)) as [Hpos|_]; [lia|].
    cbn. auto.
  - unfold worker_iteration, Handler_emit. rewrite Halive.
    destruct (queue h) as [|r rest] eqn:Hq; cbn.
    + now rewrite Hq, !app_nil_r.
    + rewrite Hok. cbn. now rewrite app_nil_r, <- app_assoc.
Qed.

Lemma emitted_app (a1 a2 : list action) :
  emitted (a1 ++ a2) = emitted a1 ++ emitted a2.
Proof.
  induction a1 as [|[r|] a1 IH]; simpl; [reflexivity| |exact IH].
  now rewrite IH.
Qed.

(** X18. While the worker thread runs and the wrapped handler does not
    raise, no record is lost and none is written twice, however logging
    calls and worker turns interleave: the records written, followed by
    those still queued, are a rearrangement of what was there before
    together with the records logged since.  On an unbounded queue
    ([maxsize] zero or less) they are those very records in the order of
    the calls: delivery is first in, first out. *)
Theorem async_handler_conserves_records (acts : list action)
    (h : AsyncLogHandler) :
  healthy h ->
  let h' := run acts h in
  Permutation
    (written (target_handler h') ++ queue h')
    (written (target_handler h) ++ queue h ++ emitted acts) /\
  (maxsize h <= 0 ->
   written (target_handler h') ++ queue h'
   = written (target_handler h) ++ queue h ++ emitted acts).
Proof.
  revert h. induction acts as [|a acts IH]; intros h Hh; cbv zeta.
  - cbn. rewrite !app_nil_r. auto.
  - cbn [run fold_left]. fold (run acts (step a h)).
    destruct (IH (step a h) (step_healthy a h Hh)) as [Hperm Hfifo].
    cbv zeta in Hperm, Hfifo. split.
    + rewrite Hperm.
      change (a :: acts) with ([a] ++ acts). rewrite emitted_app.
      rewrite (app_assoc (written (target_handler (step a h)))).
      rewrite (step_conserves a h Hh).
      rewrite <- !app_assoc. reflexivity.
    + intros Hmax. destruct (step_unbounded a h Hh Hmax) as [Hm Heq].
      rewrite Hfifo by lia.
      change (a :: acts) with ([a] ++ acts). rewrite emitted_app.
      rewrite (app_assoc (written (target_handler (step a h)))), Heq.
      now rewrite <- !app_assoc.
Qed.

(** X19. Under overload the order of delivery is not the order of the
    calls: a record logged while the queue is full is written at once,
    ahead of every record that is waiting in the queue, all of which were
    logged before it. *)
Theorem overload_write_overtakes_queue (r : LogRecord) (h : AsyncLogHandler) :
  healthy h ->
  queue_full h = true ->
  let h1 := snd (emit r h) in
  let h2 := worker_iterations (List.length (queue h1)) h1 in
  queue h1 = queue h /\
  queue h <> [] /\
  written (target_handler h1) = written (target_handler h) ++ [r] /\
  written (target_handler h2) = written (target_handler h) ++ [r] ++ queue h.
Proof.
  intros [Halive Hok] Hfull. cbv zeta.
  assert (Hemit : snd (emit r h)
                  = with_target
                      (mkHandler (stream (target_handler h))
                         (formatter (target_handler h))
                         (raises_on (target_handler h))
                         (written (target_handler h) ++ [r])) h).
  { unfold emit, put_nowait, Handler_emit. now rewrite Hfull, Hok. }
  rewrite Hemit. cbn [with_target queue target_handler written].
  split; [reflexivity|]. split.
  { unfold queue_full in Hfull. apply andb_true_iff in Hfull as [Hpos Hlen].
    apply Z.ltb_lt in Hpos. apply Z.leb_le in Hlen.
    destruct (queue h); [simpl in Hlen; lia|discriminate]. }
  split; [reflexivity|].
  destruct (worker_drains (queue h)
              (with_target
                 (mkHandler (stream (target_handler h))
                    (formatter (target_handler h))
                    (raises_on (target_handler h))
                    (written (target_handler h) ++ [r])) h)
              Halive eq_refl (fun x _ => Hok x))
    as (_ & _ & Hw).
  cbn [with_target queue target_handler written] in Hw.
  now rewrite Hw, <- app_assoc.
Qed.

End AsyncFacts.

(** ** Context variables, trace contexts and the performance decorator *)

Section ContextFacts.
Import Py Logging.

Lemma only_default_ref (d : dict pyval) (s : ContextStore) (op : nat) :
  only_default d s -> request_ref op s = 0%nat /\ request_get op s = d.
Proof.
  intros [Hobj Hval]. unfold request_get, request_ref.
  destruct (request_values s !! op) as [n|] eqn:Hn; simpl.
  - rewrite (Hval _ _ Hn), Hobj. auto.
  - rewrite Hobj. auto.
Qed.

Lemma set_request_context_only_default (d kwargs : dict pyval)
    (s : ContextStore) (op : nat) :
  only_default d s ->
  only_default (dict_update d kwargs) (set_request_context op kwargs s).
Proof.
  intros Hs. destruct (only_default_ref d s op Hs) as [Href Hget].
  destruct Hs as [Hobj Hval]. unfold set_request_context.
  rewrite Href, Hget, Hobj. split; simpl.
  - reflexivity.
  - intros op' n Hn. destruct (decide (op' = op)) as [->|Hne].
    + rewrite lookup_insert_eq in Hn. congruence.
    + rewrite lookup_insert_ne in Hn by congruence. eauto.
Qed.

Lemma request_calls_only_default (calls : list (nat * dict pyval)) :
  forall (d : dict pyval) (s : ContextStore),
  only_default d s ->
  only_default (merged_kwargs calls d) (request_calls calls s).
Proof.
  induction calls as [|[op kwargs] calls IH]; intros d s Hs; simpl.
  - exact Hs.
  - apply IH. now apply set_request_context_only_default.
Qed.

(** X20. The request context is one dictionary for the whole process:
    whatever operations (threads, tasks) call [set_request_context], and
    in whatever order, every operation, also one that never set anything,
    reads the keyword arguments of all the calls merged together. *)
Theorem request_context_is_shared_by_all_operations
    (calls : list (nat * dict pyval)) (op : nat) :
  request_get op (request_calls calls initial_store) = merged_kwargs calls [].
Proof.
  apply (only_default_ref _ _ op).
  apply request_calls_only_default. split; [reflexivity|].
  intros op' n Hn. simpl in Hn. now rewrite lookup_empty in Hn.
Qed.

Section WithEnvironment.
Context `{Environment}.

(** X21. A trace context made without a trace id does not continue the
    trace that is bound: when [set_trace_context] is called twice in one
    operation, both times without [trace_id] (or with an empty one), the
    second context is the one bound afterwards and its trace id differs
    from that of the first, provided [uuid4] gives no identifier twice. *)
Theorem nested_trace_context_starts_a_new_trace (op : nat)
    (t1 s1 u1 se1 r1 sv1 o1 c1 t2 s2 u2 se2 r2 sv2 o2 c2 : option string)
    (e1 e2 : dict pyval) (st : ContextStore * nat) :
  (forall i j : nat, uuid4 i = uuid4 j -> i = j) ->
  truthy t1 = false ->
  truthy t2 = false ->
  let first := set_trace_context_kwargs op t1 s1 u1 se1 r1 sv1 o1 c1 e1 st in
  let second :=
    set_trace_context_kwargs op t2 s2 u2 se2 r2 sv2 o2 c2 e2 (snd first) in
  trace_get op (fst (snd first)) = Some (fst first) /\
  trace_get op (fst (snd second)) = Some (fst second) /\
  trace_id (fst second) <> trace_id (fst first).
Proof.
  intros Hinj Ht1 Ht2. cbv zeta.
  unfold set_trace_context_kwargs, create_trace_context.
  rewrite Ht1, Ht2.
  destruct (truthy s1), (truthy s2); cbn;
    unfold trace_get; cbn; rewrite !lookup_insert_eq;
    (split; [reflexivity|split; [reflexivity|]]);
    intros Heq; apply Hinj in Heq; lia.
Qed.

End WithEnvironment.

Section Decorator.

Variable World : Type.
Variable performance_metrics : Z -> option (Z * Z) -> pyval.
Variable class_name : exn -> string.
Variable format_exc : exn -> string.

(** X22. The decorator is transparent: the caller gets the result of the
    decorated function, or the exception it raised, and the function's
    effects, as without the decorator.  One record is handed to the
    logger for a call that returns (level INFO) and one for a call that
    raises an [Exception] (level ERROR, with the text of the exception);
    an exception that is not an [Exception] passes without a record. *)
Theorem performance_monitor_is_transparent (logger_name operation : string)
    (category : LogCategory) (func : World -> result pyval * World)
    (rd : Readings) (w : World) (handled : list LogRecord) :
  let out :=
    performance_monitor World performance_metrics class_name format_exc
      logger_name operation category func rd (w, handled) in
  fst out = fst (func w) /\
  fst (snd out) = snd (func w) /\
  match fst (func w) with
  | Ok _ =>
      exists r, snd (snd out) = handled ++ [r] /\
        levelname r = "INFO" /\
        dict_get "category" (Logging.other r) = Some (PCategory category) /\
        dict_get "error_details" (Logging.other r) = None
  | Raise e =>
      if exn_is_Exception e then
        exists r d, snd (snd out) = handled ++ [r] /\
          levelname r = "ERROR" /\
          dict_get "category" (Logging.other r) = Some (PCategory ERROR_CATEGORY) /\
          dict_get "error_details" (Logging.other r) = Some (PDict d) /\
          dict_get "error_message" d = Some (PStr (exn_str e))
      else snd (snd out) = handled
  end.
Proof.
  cbv zeta. unfold performance_monitor. cbn [fst snd].
  destruct (func w) as [[res|e] w'] eqn:Hf; cbn [fst snd].
  - split; [reflexivity|]. split; [reflexivity|].
    eexists. split; [reflexivity|]. repeat split.
  - destruct (exn_is_Exception e) eqn:He; cbn [fst snd].
    + split; [reflexivity|]. split; [reflexivity|].
      eexists. eexists. split; [reflexivity|]. repeat split.
    + auto.
Qed.

End Decorator.

End ContextFacts.

(** ** More on the structured formatter, initialisation and the worker *)

Section FormatterMoreFacts.
Import Py Logging.

Lemma copy_attr_absent (k : string) (f : pyval -> pyval) (r : LogRecord)
    (d : dict pyval) :
  dict_get k (Logging.other r) = None -> copy_attr k f r d = d.
Proof. intros Habs. unfold copy_attr. now rewrite Habs. Qed.

(** A key that the record does not carry is not touched by a conditional
    copy. *)
Lemma copy_attr_get_absent (k k' : string) (f : pyval -> pyval) (r : LogRecord)
    (d : dict pyval) :
  dict_get k (Logging.other r) = None ->
  dict_get k (copy_attr k' f r d) = dict_get k d.
Proof.
  intros Habs. destruct (String.eqb k k') eqn:Hk.
  - apply String.eqb_eq in Hk. subst k'. now rewrite copy_attr_absent.
  - now apply copy_attr_other_key.
Qed.

(** X23. An attribute set on the record under a name that is not one of
    the standard attribute names goes into the structured line under that
    name as it is, whatever the base fields, the trace context and the
    request context hold under it: an extra field called [timestamp],
    [level], [trace_id] or [user_id] replaces the real one. *)
Theorem record_attribute_overrides_every_field (r : LogRecord)
    (v : ContextVars) (k : string) (x : pyval) (before after : dict pyval) :
  Logging.other r = before ++ (k, x) :: after ->
  dict_get k after = None ->
  is_standard_key k = false ->
  dict_get k (format_log_data r v) = Some x.
Proof.
  intros Hother Hafter Hstd. unfold format_log_data.
  rewrite Hother, List.filter_app. cbn [List.filter fst].
  rewrite Hstd. cbn [negb].
  apply dict_get_update_last. now apply dict_get_filter_absent.
Qed.

(** X24. Where the record has no attribute of that name, the request
    context wins over the trace context and over the base fields: a key
    of the request context is in the structured line with the value that
    the request context gives it. *)
Theorem request_context_overrides_trace_context (r : LogRecord)
    (v : ContextVars) (k : string) (x : pyval) (before after : dict pyval) :
  _request_context v = before ++ (k, x) :: after ->
  dict_get k after = None ->
  dict_get k (Logging.other r) = None ->
  dict_get k (format_log_data r v) = Some x.
Proof.
  intros Hreq Hafter Hother. unfold format_log_data.
  rewrite dict_get_update_absent by (now apply dict_get_filter_absent).
  rewrite !copy_attr_get_absent by exact Hother.
  destruct (_request_context v) as [|kv req] eqn:Hv.
  - destruct before; discriminate.
  - rewrite Hreq. now apply dict_get_update_last.
Qed.

(** X25. The identifiers of the bound trace context are in every
    structured line, unless the request context or an attribute of the
    record uses their names. *)
Theorem trace_ids_are_in_the_line (r : LogRecord) (v : ContextVars)
    (c : LogContext) :
  _trace_context v = Some c ->
  dict_get "trace_id" (_request_context v) = None ->
  dict_get "span_id" (_request_context v) = None ->
  dict_get "trace_id" (Logging.other r) = None ->
  dict_get "span_id" (Logging.other r) = None ->
  dict_get "trace_id" (format_parsed r v) = Some (JStr (trace_id c)) /\
  dict_get "span_id" (format_parsed r v) = Some (JStr (span_id c)).
Proof.
  intros Hc Hrt Hrs Hot Hos. unfold format_parsed.
  rewrite !dict_get_map_to_json. unfold format_log_data.
  rewrite !dict_get_update_absent by (now apply dict_get_filter_absent).
  rewrite !copy_attr_other_key by reflexivity.
  rewrite Hc.
  destruct (_request_context v) as [|kv req] eqn:Hreq.
  - split; reflexivity.
  - split.
    + now rewrite (dict_get_update_absent _ _ _ Hrt).
    + now rewrite (dict_get_update_absent _ _ _ Hrs).
Qed.

End FormatterMoreFacts.

Section InitializeMoreFacts.
Import Py Logging.

(** X26. When the log file cannot be opened, [initialize] raises with
    the logging system half set up: the level is already the new one, the
    handlers that were installed before are gone, the new console handler
    is the only handler, and the system is marked as not initialised. *)
Theorem initialize_failure_leaves_console_only (structlog_available : bool)
    (can_open : string -> bool) (log_level log_format path : string)
    (max_file_size backup_count lvl : Z) (enable_async enable_structlog : bool)
    (sys : LoggingSystem) :
  _checkLevel (logging_getattr (upper log_level) (AInt 20)) = Ok lvl ->
  path <> "" ->
  can_open path = false ->
  let out :=
    initialize structlog_available can_open log_level log_format (Some path)
      max_file_size backup_count enable_async enable_structlog sys in
  (exists e, fst out = Raise e) /\
  root_level (snd out) = lvl /\
  _initialized (snd out) = false /\
  exists console,
    root_handlers (snd out) = [wrap enable_async console] /\
    stream console = Stdout /\ written console = [].
Proof.
  intros Hlvl Hpath Hopen. cbv zeta. unfold initialize. rewrite Hlvl.
  apply String.eqb_neq in Hpath. rewrite Hpath, Hopen. cbn.
  split; [eauto|]. split; [reflexivity|]. split; [reflexivity|].
  eexists. split; [reflexivity|]. split; reflexivity.
Qed.

End InitializeMoreFacts.

Section WorkerFailureFacts.
Import Py Logging.

Lemma step_dead (a : action) (h : AsyncLogHandler) :
  thread_alive h = false -> maxsize h <= 0 ->
  thread_alive (step a h) = false /\
  maxsize (step a h) = maxsize h /\
  target_handler (step a h) = target_handler h /\
  queue (step a h) = queue h ++ emitted [a].
Proof.
  intros Hdead Hmax. destruct a as [r|]; unfold step.
  - unfold emit, put_nowait, queue_full.
    destruct (Z.ltb_spec 0 (maxsize h)) as [Hpos|_]; [lia|].
    cbn. auto.
  - unfold worker_iteration. rewrite Hdead. cbn. now rewrite app_nil_r.
Qed.

Lemma run_dead (acts : list action) :
  forall h : AsyncLogHandler,
  thread_alive h = false -> maxsize h <= 0 ->
  target_handler (run acts h) = target_handler h /\
  queue (run acts h) = queue h ++ emitted acts.
Proof.
  induction acts as [|a acts IH]; intros h Hdead Hmax.
  - cbn. now rewrite app_nil_r.
  - cbn [run fold_left]. fold (run acts (step a h)).
    destruct (step_dead a h Hdead Hmax) as (Hd & Hm & Ht & Hq).
    destruct (IH (step a h) Hd ltac:(lia)) as [Ht' Hq'].
    rewrite Ht', Hq', Ht, Hq. split; [reflexivity|].
    change (a :: acts) with ([a] ++ acts).
    now rewrite emitted_app, <- app_assoc.
Qed.

(** X27. A write that raises in the worker loses the record, and one
    that raises something other than an [Exception] ends the worker for
    good: the record is taken off the queue and not written, and on an
    unbounded queue every record logged from then on stays in the queue,
    however many turns the worker is given; nothing is written any
    more. *)
Theorem worker_death_stops_delivery (r : LogRecord) (rest : list LogRecord)
    (e : exn) (acts : list action) (h : AsyncLogHandler) :
  thread_alive h = true ->
  queue h = r :: rest ->
  raises_on (target_handler h) r = Some e ->
  exn_is_Exception e = false ->
  maxsize h <= 0 ->
  let h' := run (Work :: acts) h in
  written (target_handler h') = written (target_handler h) /\
  queue h' = rest ++ emitted acts.
Proof.
  intros Halive Hq Hraise Hbase Hmax. cbv zeta.
  cbn [run fold_left]. fold (run acts (step Work h)).
  assert (Hstep : step Work h
                  = mkAsyncLogHandler (target_handler h) rest (maxsize h)
                      (unfinished_tasks h) false).
  { unfold step, worker_iteration, Handler_emit.
    now rewrite Halive, Hq, Hraise, Hbase. }
  rewrite Hstep.
  destruct (run_dead acts
              (mkAsyncLogHandler (target_handler h) rest (maxsize h)
                 (unfinished_tasks h) false) eq_refl Hmax) as [Ht Hqueue].
  now rewrite Ht, Hqueue.
Qed.

(** X28. A write that raises an [Exception] in the worker is passed
    over in silence: the record is neither written nor put back, its task
    is never marked as done, and the worker goes on to write the records
    behind it. *)
Theorem failed_write_drops_the_record (r : LogRecord) (rest : list LogRecord)
    (e : exn) (h : AsyncLogHandler) :
  thread_alive h = true ->
  queue h = r :: rest ->
  raises_on (target_handler h) r = Some e ->
  exn_is_Exception e = true ->
  (forall x, In x rest -> raises_on (target_handler h) x = None) ->
  let h1 := worker_iteration h in
  let h' := worker_iterations (List.length rest) h1 in
  unfinished_tasks h1 = unfinished_tasks h /\
  written (target_handler h') = written (target_handler h) ++ rest /\
  queue h' = [] /\
  thread_alive h' = true.
Proof.
  intros Halive Hq Hraise Hexc Hrest. cbv zeta.
  assert (Hstep : worker_iteration h
                  = mkAsyncLogHandler (target_handler h) rest (maxsize h)
                      (unfinished_tasks h) true).
  { unfold worker_iteration, Handler_emit.
    now rewrite Halive, Hq, Hraise, Hexc. }
  rewrite Hstep.
  destruct (worker_drains rest
              (mkAsyncLogHandler (target_handler h) rest (maxsize h)
                 (unfinished_tasks h) true) eq_refl eq_refl Hrest)
    as (Halive' & Hqueue & Hw).
  cbn [target_handler] in Hw. rewrite Hw, Hqueue. repeat split; auto.
Qed.

End WorkerFailureFacts.

(** ** Logging configuration *)

Section ConfigFacts.
Import Py LoggingConfig.

Variable base_formatters : dict (dict cfg).
Variable local_log_file : string -> string.
Variable env_ENVIRONMENT : option string.

Lemma set2_spec (k1 k2 : string) (v : cfg) (d : dict (dict cfg)) :
  has k1 d ->
  exists d' inner,
    set2 k1 k2 v d = Ok d' /\
    dict_get k1 d = Some inner /\
    dict_get k1 d' = Some (dict_set k2 v inner) /\
    (forall k, String.eqb k k1 = false -> dict_get k d' = dict_get k d) /\
    (forall k, has k d -> has k d').
Proof.
  unfold has, set2. intros Hk.
  destruct (dict_get k1 d) as [inner|] eqn:Hget; [|congruence].
  exists (dict_set k1 (dict_set k2 v inner) d), inner.
  split; [reflexivity|]. split; [reflexivity|].
  split; [apply dict_get_set_same|].
  split; [intros k Hne; now apply dict_get_set_ne|].
  intros k Hhas. destruct (String.eqb k k1) eqn:Hkk.
  - apply String.eqb_eq in Hkk. subst k. now rewrite dict_get_set_same.
  - now rewrite dict_get_set_ne.
Qed.

Lemma append2_spec (k1 x : string) (l : list string) (inner : dict cfg)
    (d : dict (dict cfg)) :
  dict_get k1 d = Some inner ->
  dict_get "handlers" inner = Some (CList l) ->
  exists d',
    append2 k1 "handlers" x d = Ok d' /\
    dict_get k1 d' = Some (dict_set "handlers" (CList (l ++ [x])) inner) /\
    (forall k, String.eqb k k1 = false -> dict_get k d' = dict_get k d).
Proof.
  intros Hget Hh. unfold append2. rewrite Hget, Hh.
  eexists. split; [reflexivity|].
  split; [apply dict_get_set_same|].
  intros k Hne. now apply dict_get_set_ne.
Qed.

Lemma logger_handlers_congr (name : string) (n n' : Nested) :
  dict_get name (loggers n') = dict_get name (loggers n) ->
  logger_handlers name n' = logger_handlers name n.
Proof. intros Heq. unfold logger_handlers. now rewrite Heq. Qed.

Lemma configure_shape (cl cf pl rl lvl : string) (file_name : string -> string)
    (k : nat) (n : Nested) :
  shape lvl k n ->
  exists n', configure cl cf pl rl file_name n = Ok n' /\
    formatters n' = formatters n /\
    has "file" (handlers n') /\
    has "error_file" (handlers n') /\
    has "audit_file" (handlers n') /\
    has "security_file" (handlers n') /\
    has "performance_file" (handlers n') /\
    has "prisma" (loggers n') /\
    handler_setting "console" "level" n' = Some (CStr cl) /\
    dict_get "level" (root n') = Some (CStr rl) /\
    dict_get "prisma.error" (loggers n') = dict_get "prisma.error" (loggers n) /\
    dict_get "prisma.security" (loggers n')
    = dict_get "prisma.security" (loggers n).
Proof.
  intros (Hf & He & Ha & Hs & Hp & Hprisma & Hcl & Hrl & Herr & Hsec).
  assert (Hconsole : has "console" (handlers n)).
  { unfold handler_setting in Hcl. unfold has.
    destruct (dict_get "console" (handlers n)); congruence. }
  unfold configure.
  destruct (set2_spec "console" "level" (CStr cl) _ Hconsole)
    as (h1 & i1 & E1 & _ & G1 & O1 & P1).
  rewrite E1. cbn [and_then].
  destruct (set2_spec "console" "formatter" (CStr cf) h1 (P1 _ Hconsole))
    as (h2 & i2 & E2 & I2 & G2 & O2 & P2).
  rewrite E2. cbn [and_then].
  destruct (set2_spec "prisma" "level" (CStr pl) _ Hprisma)
    as (l1 & j1 & E3 & _ & G3 & O3 & P3).
  rewrite E3. cbn [and_then].
  destruct (set2_spec "file" "filename" (CStr (file_name "application.log")) h2
              (P2 _ (P1 _ Hf))) as (h3 & i3 & E4 & _ & _ & O4 & P4).
  rewrite E4. cbn [and_then].
  destruct (set2_spec "error_file" "filename" (CStr (file_name "error.log")) h3
              (P4 _ (P2 _ (P1 _ He)))) as (h4 & i4 & E5 & _ & _ & O5 & P5).
  rewrite E5. cbn [and_then].
  destruct (set2_spec "audit_file" "filename" (CStr (file_name "audit.log")) h4
              (P5 _ (P4 _ (P2 _ (P1 _ Ha))))) as (h5 & i5 & E6 & _ & _ & O6 & P6).
  rewrite E6. cbn [and_then].
  destruct (set2_spec "security_file" "filename"
              (CStr (file_name "security.log")) h5
              (P6 _ (P5 _ (P4 _ (P2 _ (P1 _ Hs))))))
    as (h6 & i6 & E7 & _ & _ & O7 & P7).
  rewrite E7. cbn [and_then].
  destruct (set2_spec "performance_file" "filename"
              (CStr (file_name "performance.log")) h6
              (P7 _ (P6 _ (P5 _ (P4 _ (P2 _ (P1 _ Hp)))))))
    as (h7 & i7 & E8 & _ & _ & O8 & P8).
  rewrite E8. cbn [and_then].
  eexists. split; [reflexivity|]. cbn [formatters handlers loggers root].
  split; [reflexivity|].
  split; [exact (P8 _ (P7 _ (P6 _ (P5 _ (P4 _ (P2 _ (P1 _ Hf)))))))|].
  split; [exact (P8 _ (P7 _ (P6 _ (P5 _ (P4 _ (P2 _ (P1 _ He)))))))|].
  split; [exact (P8 _ (P7 _ (P6 _ (P5 _ (P4 _ (P2 _ (P1 _ Ha)))))))|].
  split; [exact (P8 _ (P7 _ (P6 _ (P5 _ (P4 _ (P2 _ (P1 _ Hs)))))))|].
  split; [exact (P8 _ (P7 _ (P6 _ (P5 _ (P4 _ (P2 _ (P1 _ Hp)))))))|].
  split; [exact (P3 _ Hprisma)|].
  split.
  { unfold handler_setting. cbn [handlers].
    rewrite O8, O7, O6, O5, O4 by reflexivity. rewrite G2.
    rewrite dict_get_set_ne by reflexivity.
    rewrite G1 in I2. injection I2 as <-. apply dict_get_set_same. }
  split; [apply dict_get_set_same|].
  split; apply O3; reflexivity.
Qed.

Lemma shape_logger_entry (name first : string) (k : nat) (n : Nested) :
  logger_handlers name n = first :: repeat "syslog" k ->
  exists inner,
    dict_get name (loggers n) = Some inner /\
    dict_get "handlers" inner = Some (CList (first :: repeat "syslog" k)).
Proof.
  unfold logger_handlers. intros Hl.
  destruct (dict_get name (loggers n)) as [inner|]; [|discriminate].
  exists inner. split; [reflexivity|].
  destruct (dict_get "handlers" inner) as [[ | | |l]|]; try discriminate.
  now rewrite Hl.
Qed.

Lemma get_config_shape (e : option string) (lvl : string) (k : nat)
    (n : Nested) :
  shape lvl k n ->
  exists n',
    get_config local_log_file env_ENVIRONMENT e n = Ok n' /\
    formatters n' = formatters n /\
    shape (console_level_of (environment_kind_of env_ENVIRONMENT e))
      (production_calls env_ENVIRONMENT [e] + k) n'.
Proof.
  intros Hshape.
  pose proof Hshape as (_ & _ & _ & _ & _ & _ & _ & _ & Herr & Hsec).
  unfold get_config, production_calls. cbn [List.filter].
  destruct (environment_kind_of env_ENVIRONMENT e); cbn [List.length Nat.add].
  - unfold get_production_config.
    destruct (configure_shape "WARNING" "json" "INFO" "WARNING" lvl
                (fun name => "/var/log/prisma/" +:+ name) k n Hshape)
      as (n1 & E & Hfm & Hf & He & Ha & Hs & Hp & Hprisma & Hcl & Hrl & Oerr & Osec).
    rewrite E. cbn [and_then].
    destruct (shape_logger_entry _ _ _ _ Herr) as (ie & Ge & Le).
    destruct (shape_logger_entry _ _ _ _ Hsec) as (isec & Gs & Ls).
    rewrite <- Oerr in Ge. rewrite <- Osec in Gs.
    destruct (append2_spec "prisma.error" "syslog" _ ie (loggers n1) Ge Le)
      as (l1 & E1 & G1 & O1).
    rewrite E1. cbn [and_then].
    rewrite <- (O1 "prisma.security" eq_refl) in Gs.
    destruct (append2_spec "prisma.security" "syslog" _ isec l1 Gs Ls)
      as (l2 & E2 & G2 & O2).
    rewrite E2. cbn [and_then].
    eexists. split; [reflexivity|]. split; [exact Hfm|].
    unfold shape, has, handler_setting, logger_handlers.
    cbn [formatters handlers loggers root console_level_of].
    rewrite !dict_get_set_ne by reflexivity.
    rewrite G2, (O2 "prisma.error" eq_refl), G1, (O2 "prisma" eq_refl),
      (O1 "prisma" eq_refl).
    rewrite !dict_get_set_same.
    change ("error_file" :: repeat "syslog" k ++ ["syslog"])
      with (("error_file" :: repeat "syslog" k) ++ ["syslog"]).
    rewrite <- !app_comm_cons, <- !repeat_cons.
    repeat split; assumption.
  - unfold get_staging_config.
    destruct (configure_shape "INFO" "json" "INFO" "INFO" lvl
                (fun name => "/app/logs/" +:+ name) k n Hshape)
      as (n1 & E & Hfm & Hf & He & Ha & Hs & Hp & Hprisma & Hcl & Hrl & Oerr & Osec).
    exists n1. split; [exact E|]. split; [exact Hfm|].
    unfold shape. cbn [console_level_of].
    rewrite (logger_handlers_congr _ _ _ Oerr), (logger_handlers_congr _ _ _ Osec).
    repeat split; assumption.
  - unfold get_development_config.
    destruct (configure_shape "DEBUG" "detailed" "DEBUG" "DEBUG" lvl
                local_log_file k n Hshape)
      as (n1 & E & Hfm & Hf & He & Ha & Hs & Hp & Hprisma & Hcl & Hrl & Oerr & Osec).
    exists n1. split; [exact E|]. split; [exact Hfm|].
    unfold shape. cbn [console_level_of].
    rewrite (logger_handlers_congr _ _ _ Oerr), (logger_handlers_congr _ _ _ Osec).
    repeat split; assumption.
Qed.

Lemma base_shape : shape "INFO" 0 (BASE_CONFIG base_formatters).
Proof. unfold shape, has. cbn. repeat split; discriminate. Qed.

Lemma production_calls_app (a b : list (option string)) :
  production_calls env_ENVIRONMENT (a ++ b) = (production_calls env_ENVIRONMENT a + production_calls env_ENVIRONMENT b)%nat.
Proof.
  unfold production_calls. now rewrite List.filter_app, length_app.
Qed.

Lemma get_configs_snoc (envs : list (option string)) (e : option string)
    (n : Nested) :
  get_configs local_log_file env_ENVIRONMENT (envs ++ [e]) n
  = and_then (get_configs local_log_file env_ENVIRONMENT envs n)
      (get_config local_log_file env_ENVIRONMENT e).
Proof. unfold get_configs. now rewrite fold_left_app. Qed.

Lemma get_configs_shape (envs : list (option string)) :
  exists n lvl,
    get_configs local_log_file env_ENVIRONMENT envs (BASE_CONFIG base_formatters) = Ok n /\
    shape lvl (production_calls env_ENVIRONMENT envs) n /\
    (forall envs' e, envs = envs' ++ [e] ->
       lvl = console_level_of (environment_kind_of env_ENVIRONMENT e)).
Proof.
  induction envs as [|e envs IH] using rev_ind.
  - exists (BASE_CONFIG base_formatters), "INFO".
    split; [reflexivity|]. split; [exact base_shape|].
    intros envs' e Heq. destruct envs'; discriminate.
  - destruct IH as (n & lvl & Hrun & Hshape & _).
    destruct (get_config_shape e lvl _ n Hshape) as (n' & E & _ & Hshape').
    exists n', (console_level_of (environment_kind_of env_ENVIRONMENT e)).
    split; [rewrite get_configs_snoc, Hrun; exact E|].
    split.
    + rewrite production_calls_app, Nat.add_comm. exact Hshape'.
    + intros envs' e' Heq. apply app_inj_tail in Heq as [_ <-]. reflexivity.
Qed.

(** X29. The syslog routing of the production configuration is added
    to the dictionaries that all configurations share, and added again by
    every call: after any sequence of [get_config] calls, which all
    succeed, the handler lists of the loggers [prisma.error] and
    [prisma.security] hold their file handler followed by one [syslog] for
    each production call made so far, also when the last call asked for
    development or staging. *)
Theorem syslog_routing_accumulates (envs : list (option string)) :
  exists n,
    get_configs local_log_file env_ENVIRONMENT envs (BASE_CONFIG base_formatters) = Ok n /\
    logger_handlers "prisma.error" n
    = "error_file" :: repeat "syslog" (production_calls env_ENVIRONMENT envs) /\
    logger_handlers "prisma.security" n
    = "security_file" :: repeat "syslog" (production_calls env_ENVIRONMENT envs).
Proof.
  destruct (get_configs_shape envs) as (n & lvl & Hrun & Hshape & _).
  exists n. split; [exact Hrun|].
  destruct Hshape as (_ & _ & _ & _ & _ & _ & _ & _ & Herr & Hsec). auto.
Qed.

(** X30. The two readers of the environment name disagree on its
    spelling.  [get_config] lowers the name and takes [prod] for
    production; [EnvironmentLogger] compares the name as given with
    [production]: for [prod], [PRODUCTION] and every other spelling that
    [get_config] reads as production, it sets the level DEBUG (10) that it
    uses for development. *)
Theorem environment_name_is_read_two_ways (e : string) (n : Nested) :
  lower e = "production" \/ lower e = "prod" ->
  e <> "production" ->
  get_config local_log_file env_ENVIRONMENT (Some e) n
  = get_production_config n /\
  EnvironmentLogger_level env_ENVIRONMENT (Some e) = 10.
Proof.
  intros Hlow Hne. split.
  - unfold get_config, environment_kind_of.
    destruct Hlow as [-> | ->]; reflexivity.
  - unfold EnvironmentLogger_level.
    assert (He : Logging.truthy (Some e) = true).
    { unfold Logging.truthy. destruct e; [destruct Hlow; discriminate|reflexivity]. }
    rewrite He. cbn [default from_option id].
    apply String.eqb_neq in Hne. rewrite Hne.
    now destruct (String.eqb e "staging").
Qed.

End ConfigFacts.

(** ** The properties on concrete inputs *)

Section MonitorMoreExamples.
Import Py Monitor.

Lemma match_touches_only_its_pattern_witness :
  let w :=
    mkWorld (new_LogMonitor [db_errors; slow_queries] None) scenario_clock 0
      [] [] in
  let m' :=
    monitor
      (snd (_trigger_pattern_match (H := sample_builtins) db_errors
              (TextLine "database error") w)) in
  name slow_queries <> name db_errors /\
  queue_of slow_queries m' = queue_of slow_queries (monitor w) /\
  pattern_counts m' !! name slow_queries
  = pattern_counts (monitor w) !! name slow_queries.
Proof.
  intros w m'. split; [discriminate|].
  exact (@match_touches_only_its_pattern sample_builtins db_errors slow_queries
           (TextLine "database error") w ltac:(discriminate)).
Defined.

Lemma unmatched_text_changes_nothing_witness :
  let w :=
    mkWorld (new_LogMonitor [db_errors; slow_queries] None) scenario_clock 0
      [] [] in
  match_patterns (H := sample_builtins) [db_errors; slow_queries] "all is well"
    (TextLine "all is well") w
  = (Ok tt, w).
Proof.
  intros w. apply (@unmatched_text_changes_nothing sample_builtins).
  intros p [<-|[<-|[]]]; reflexivity.
Defined.

Lemma resolved_alerts_are_not_merged_witness :
  let w := mkWorld registry_with_resolved_alert (fun _ => 0) 0 [] [] in
  let m' :=
    monitor
      (snd (_create_alert (H := sample_builtins) db_errors 3
              (TextLine "database error") w)) in
  exists a : Alert,
    alert_history m' = [set_resolved old_alert; a] /\
    count a = 3 /\ resolved a = false.
Proof.
  intros w m'.
  destruct (@resolved_alerts_are_not_merged sample_builtins db_errors 3
              (TextLine "database error") w)
    as (a & Hh & _ & _ & _ & _ & Hc & _ & _ & Hr).
  { intros r a [<-|[]] Ha _. cbn in Ha. injection Ha as <-. reflexivity. }
  exists a. split; [exact Hh|]. split; [exact Hc|exact Hr].
Defined.

Lemma same_second_alert_replaces_map_entry_witness :
  let w := mkWorld registry_with_resolved_alert (fun _ => 0) 0 [] [] in
  let m' :=
    monitor
      (snd (_create_alert (H := sample_builtins) db_errors 3
              (TextLine "database error") w)) in
  dict_get "db_errors_0" (active_alerts (monitor w)) = Some 0%nat /\
  List.length (active_alerts m') = 1%nat /\
  List.length (alert_history m') = 2%nat /\
  dict_get "db_errors_0" (active_alerts m') = Some 1%nat.
Proof.
  intros w m'. split; [reflexivity|].
  destruct (@same_second_alert_replaces_map_entry sample_builtins db_errors 3
              (TextLine "database error") w 0%nat)
    as (Hl & Hh & Hg & _).
  { intros r a [<-|[]] Ha _. cbn in Ha. injection Ha as <-. reflexivity. }
  { reflexivity. }
  { cbn. lia. }
  split; [exact Hl|]. split; [exact Hh|exact Hg].
Defined.

Lemma merge_updates_one_alert_in_place_witness :
  let w := mkWorld registry_with_old_alert (fun _ => 0) 0 [] [] in
  let m' :=
    monitor
      (snd (_create_alert (H := sample_builtins) db_errors 7
              (TextLine "database error") w)) in
  exists (r : nat) (a a' : Alert),
    alert_history (monitor w) !! r = Some a /\
    alert_history m' = <[r := a']> (alert_history (monitor w)) /\
    count a' = 7 /\ id a' = id a.
Proof.
  intros w m'.
  destruct (@merge_updates_one_alert_in_place sample_builtins db_errors 7
              (TextLine "database error") w eq_refl)
    as (r & a & a' & _ & Ha & _ & _ & Hh & _ & Hc & _ & Hid & _).
  exists r, a, a'. split; [exact Ha|]. split; [exact Hh|].
  split; [exact Hc|exact Hid].
Defined.

Lemma acknowledge_keeps_alert_active_witness :
  let w := mkWorld registry_with_old_alert (fun _ => 0) 0 [] [] in
  let out := acknowledge_alert "db_errors_0" w in
  fst out = Ok true /\
  alert_history (monitor (snd out)) !! 0%nat = Some (set_acknowledged old_alert) /\
  get_active_alerts (monitor (snd out)) = get_active_alerts (monitor w).
Proof.
  intros w out.
  destruct (acknowledge_keeps_alert_active "db_errors_0" 0%nat old_alert w
              eq_refl eq_refl)
    as (H1 & H2 & _ & _ & H5 & _).
  split; [exact H1|]. split; [exact H2|exact H5].
Defined.

Lemma non_object_json_line_is_not_matched_witness :
  let w := mkWorld (new_LogMonitor [db_errors] None) scenario_clock 0 [] [] in
  let out := @_process_log_line sample_builtins sample_json "429" w in
  fst out = Ok tt /\
  logged (snd out)
  = [("ERROR",
      "Error processing log line: 'int' object has no attribute 'get'")] /\
  reads (snd out) = 0%nat.
Proof.
  intros w out.
  destruct (@non_object_json_line_is_not_matched sample_builtins sample_json
              "429" "int" w eq_refl)
    as (H1 & _ & H3 & _ & H5).
  split; [exact H1|]. split; [exact H3|exact H5].
Defined.

Lemma remove_pattern_keeps_history_witness :
  let w := mkWorld (new_LogMonitor [db_errors] None) scenario_clock 0 [] [] in
  patterns
    (monitor
       (snd (remove_pattern "slow_queries" (snd (add_pattern slow_queries w)))))
  = [db_errors].
Proof.
  intros w.
  destruct (remove_pattern_keeps_history "slow_queries" slow_queries w)
    as (_ & _ & _ & _ & _ & Hback).
  apply Hback. intros q [<-|[]]. discriminate.
Defined.


Lemma text_line_keyword_precedence_witness :
  let w := mkWorld (new_LogMonitor [db_errors] None) scenario_clock 0 [] [] in
  let c' :=
    current_metrics
      (monitor
         (snd (_process_text_log_line (H := sample_builtins)
                 "CRITICAL: error while charging the card" w))) in
  error_count c' = 1 /\ warning_count c' = 0 /\ critical_count c' = 0.
Proof.
  intros w c'.
  destruct (@text_line_keyword_precedence sample_builtins
              "CRITICAL: error while charging the card" w)
    as [Herr _].
  exact (Herr eq_refl).
Defined.

Lemma metrics_history_is_a_rolling_window_witness :
  let turns :=
    [(60, PsutilMissing, mkCounters 5 1 0 0);
     (120, PsutilRaises (Exn true "NoSuchProcess"), mkCounters 9 1 0 0);
     (180, PsutilReading 1048576 15, mkCounters 12 2 0 0)] in
  (List.length
     (metrics_history (collect_metrics_turns turns (new_MetricsState 0)))
   <= 100)%nat.
Proof.
  intros turns.
  apply (proj1 metrics_history_is_a_rolling_window turns (new_MetricsState 0)).
  cbn. lia.
Defined.

Lemma snapshots_carry_the_previous_time_witness :
  let turns :=
    [(60, PsutilMissing, mkCounters 5 1 0 0);
     (120, PsutilRaises (Exn true "NoSuchProcess"), mkCounters 9 1 0 0);
     (180, PsutilReading 1048576 15, mkCounters 12 2 0 0)] in
  List.map metrics_timestamp
    (metrics_history (collect_metrics_turns turns (new_MetricsState 0)))
  = [0; 60].
Proof.
  intros turns.
  destruct (snapshots_carry_the_previous_time turns 0) as [_ Hts].
  apply Hts. cbn. lia.
Defined.


End MonitorMoreExamples.

Section AnalyzerExamples.
Import Py Monitor Analyzer.

Lemma report_counts_every_line_witness :
  exists r : Report,
    @analyze_log_file sample_analyzer_builtins sample_report_json
      (Lines sample_file) None None 0 1
    = AnalysisReport r /\
    report_total_lines r = 4 /\
    report_error_count r + report_warning_count r + report_critical_count r
    <= report_total_lines r.
Proof.
  eexists. split; [reflexivity|].
  destruct (@report_counts_every_line sample_analyzer_builtins
              sample_report_json sample_file None None 0 1 _ eq_refl)
    as (Ht & _ & _ & _ & Hs & _).
  split; [exact Ht|exact Hs].
Defined.

Lemma top_errors_are_ranked_witness :
  exists r : Report,
    @analyze_log_file sample_analyzer_builtins sample_report_json
      (Lines sample_file) None None 0 1
    = AnalysisReport r /\
    report_top_errors r = [("disk full", 2); ("timeout", 1)] /\
    descending (report_top_errors r).
Proof.
  eexists. split; [reflexivity|].
  destruct (@top_errors_are_ranked sample_analyzer_builtins
              sample_report_json sample_file None None 0 1 _ eq_refl)
    as (_ & Hd & _).
  split; [reflexivity|exact Hd].
Defined.

Lemma non_object_line_aborts_analysis_witness :
  exists msg : string,
    @analyze_log_file sample_analyzer_builtins sample_report_json
      (Lines (sample_file ++ ["429"])) None None 0 1
    = AnalysisError msg.
Proof.
  apply (@non_object_line_aborts_analysis sample_analyzer_builtins
           sample_report_json (sample_file ++ ["429"]) "429" "int").
  - apply in_or_app. right. left. reflexivity.
  - reflexivity.
Defined.

Lemma unparsed_timestamps_pass_the_filter_witness :
  @analyze_log_file sample_analyzer_builtins sample_report_json
    (Lines sample_file) (Some (mkDatetime 0 false)) None 0 1
  = @analyze_log_file sample_analyzer_builtins sample_report_json
      (Lines sample_file) None None 0 1.
Proof.
  apply (@unparsed_timestamps_pass_the_filter sample_analyzer_builtins
           sample_report_json).
  intros line fields [<-|[<-|[<-|[<-|[]]]]] Hload;
    first [discriminate Hload | injection Hload as <-; left; reflexivity].
Defined.

End AnalyzerExamples.

Section LoggingMoreExamples.
Import Py Logging.

Lemma async_handler_conserves_records_witness :
  let h := new_AsyncLogHandler stdout_handler 0 in
  let h' := run [Emit sample_record; Work; Emit security_record] h in
  healthy h /\
  written (target_handler h') ++ queue h' = [sample_record; security_record].
Proof.
  intros h h'.
  assert (Hh : healthy h) by (split; [reflexivity|intros r; reflexivity]).
  split; [exact Hh|].
  destruct (async_handler_conserves_records
              [Emit sample_record; Work; Emit security_record] h Hh)
    as [_ Hfifo].
  exact (Hfifo (Z.le_refl 0)).
Defined.

Lemma overload_write_overtakes_queue_witness :
  let h := mkAsyncLogHandler stdout_handler [sample_record] 1 1 true in
  let h1 := snd (emit security_record h) in
  let h2 := worker_iterations 1 h1 in
  queue_full h = true /\
  written (target_handler h1) = [security_record] /\
  written (target_handler h2) = [security_record; sample_record].
Proof.
  intros h h1 h2.
  destruct (overload_write_overtakes_queue security_record h)
    as (_ & _ & H1 & H2).
  { split; [reflexivity|intros r; reflexivity]. }
  { reflexivity. }
  split; [reflexivity|]. split; [exact H1|exact H2].
Defined.

Lemma sample_uuid4_inj (i j : nat) :
  @uuid4 sample_environment i = @uuid4 sample_environment j -> i = j.
Proof.
  unfold uuid4, sample_environment. cbn [String.append].
  intros Heq. injection Heq as Heq. now apply (inj pretty).
Qed.

Lemma nested_trace_context_starts_a_new_trace_witness :
  let first :=
    @set_trace_context_kwargs sample_environment 0%nat None None (Some "user1")
      None None None None None [] (initial_store, 0%nat) in
  let second :=
    @set_trace_context_kwargs sample_environment 0%nat None None None None None
      None (Some "inner") None [] (snd first) in
  trace_id (fst first) = "uuid-0" /\
  trace_id (fst second) = "uuid-2" /\
  trace_get 0%nat (fst (snd second)) = Some (fst second) /\
  trace_id (fst second) <> trace_id (fst first).
Proof.
  intros first second.
  destruct (@nested_trace_context_starts_a_new_trace sample_environment 0%nat
              None None (Some "user1") None None None None None
              None None None None None None (Some "inner") None
              [] [] (initial_store, 0%nat) sample_uuid4_inj eq_refl eq_refl)
    as (_ & H2 & H3).
  split; [reflexivity|]. split; [reflexivity|]. split; [exact H2|exact H3].
Defined.

Lemma record_attribute_overrides_every_field_witness :
  let v := mkContextVars (Some request_context) [] in
  dict_get "user_id" (asdict_LogContext request_context) = Some (PStr "user1") /\
  dict_get "user_id" (format_log_data security_record v) = Some PNone.
Proof.
  intros v. split; [reflexivity|].
  apply (record_attribute_overrides_every_field security_record v "user_id"
           PNone (removelast (Logging.other security_record)) []);
    reflexivity.
Defined.

Lemma request_context_overrides_trace_context_witness :
  dict_get "user_id" (asdict_LogContext request_context) = Some (PStr "user1") /\
  dict_get "user_id" (format_log_data sample_record bound_with_request)
  = Some (PStr "user2").
Proof.
  split; [reflexivity|].
  apply (request_context_overrides_trace_context sample_record
           bound_with_request "user_id" (PStr "user2") [] []);
    reflexivity.
Defined.

Lemma trace_ids_are_in_the_line_witness :
  dict_get "trace_id" (format_parsed sample_record bound_with_request)
  = Some (JStr "trace-1") /\
  dict_get "span_id" (format_parsed sample_record bound_with_request)
  = Some (JStr "span-1").
Proof.
  exact (trace_ids_are_in_the_line sample_record bound_with_request
           request_context eq_refl eq_refl eq_refl eq_refl eq_refl).
Defined.

Lemma initialize_failure_leaves_console_only_witness :
  let out :=
    initialize true (fun _ => false) "debug" "json"
      (Some "/var/log/prisma/app.log") 104857600 5 true true fresh_system in
  (exists e, fst out = Raise e) /\
  root_level (snd out) = 10 /\
  _initialized (snd out) = false /\
  List.length (root_handlers (snd out)) = 1%nat.
Proof.
  intros out.
  destruct (initialize_failure_leaves_console_only true (fun _ => false)
              "debug" "json" "/var/log/prisma/app.log" 104857600 5 10 true true
              fresh_system eq_refl ltac:(discriminate) eq_refl)
    as (He & Hl & Hi & _).
  split; [exact He|]. split; [exact Hl|]. split; [exact Hi|reflexivity].
Defined.

Lemma worker_death_stops_delivery_witness :
  let h :=
    mkAsyncLogHandler (failing_handler (Exn false "SystemExit")) [sample_record]
      0 1 true in
  let h' := run [Work; Emit security_record; Work; Work] h in
  written (target_handler h') = [] /\ queue h' = [security_record].
Proof.
  intros h h'.
  exact (worker_death_stops_delivery sample_record [] (Exn false "SystemExit")
           [Emit security_record; Work; Work] h eq_refl eq_refl eq_refl eq_refl
           (Z.le_refl 0)).
Defined.

Lemma failed_write_drops_the_record_witness :
  let h :=
    mkAsyncLogHandler (failing_handler (Exn true "OSError"))
      [sample_record; security_record] 0 2 true in
  let h1 := worker_iteration h in
  let h' := worker_iterations 1 h1 in
  unfinished_tasks h1 = 2 /\
  written (target_handler h') = [security_record] /\
  queue h' = [] /\
  thread_alive h' = true.
Proof.
  intros h h1 h'.
  apply (failed_write_drops_the_record sample_record [security_record]
           (Exn true "OSError") h); try reflexivity.
  intros x [<-|[]]. reflexivity.
Defined.

End LoggingMoreExamples.

Section ConfigExamples.
Import Py LoggingConfig.

Lemma environment_name_is_read_two_ways_witness :
  let n := BASE_CONFIG [] in
  get_config (fun name => "logs/" +:+ name) None (Some "PROD") n
  = get_production_config n /\
  EnvironmentLogger_level None (Some "PROD") = 10 /\
  EnvironmentLogger_level None (Some "production") = 20.
Proof.
  intros n.
  destruct (environment_name_is_read_two_ways (fun name => "logs/" +:+ name)
              None "PROD" n (or_intror eq_refl) ltac:(discriminate))
    as [H1 H2].
  split; [exact H1|]. split; [exact H2|reflexivity].
Defined.

End ConfigExamples.
